(** * Qa-monitor: the credential lifecycle

    A shallow embedding of the password-reset and first-login code of the
    QA monitor: the Mongoose user model ([src/models/User.ts]), the two
    route handlers [POST /api/auth/forgot-password] and
    [POST /api/auth/reset-password], and the submit handler of the login
    page ([src/app/login/page.tsx]).

    Conventions of the embedding:
    - the [users] collection is a list of documents; a document's [_id] is
      its position in the list, and [findOne] returns the first match;
    - instants are milliseconds since the epoch ([Z]), as [Date.now()];
    - a request is served at one instant [now] of its environment;
    - a handler starts from the parsed request body, whose fields are
      strings or absent, as the two client pages send them; a character of
      a string stands for one code unit below 256;
    - an assignment to a document marks its path modified only when the
      value differs from the one the document holds, as Mongoose does;
    - the connection that [connectToDatabase] opens is taken as
      established;
    - [bcrypt], [crypto] and the token signer are external modules, kept
      abstract behind the [Crypto] interface;
    - a thrown exception is a [Throw] outcome carrying its message.  *)

From Stdlib Require Import ZArith String Ascii List Bool Lia.
From Stdlib.Strings Require Import Byte.
From Stdlib.Numbers Require Import DecimalString.
From stdpp Require Import base option list strings gmap.

Local Open Scope string_scope.
Local Open Scope Z_scope.

(** ** JavaScript values and helpers *)

(** [!x] for a body field that is a string or absent: absent and the empty
    string are falsy. *)
Definition truthy (x : option string) : bool :=
  match x with
  | None => false
  | Some s => negb (String.eqb s "")
  end.

(** The lower-case form of a code unit below 256: the letters A to Z, and
    the capital letters of Latin-1 (192 to 222, the multiplication sign 215
    apart), are 32 below their lower-case forms. *)
Definition lower_ascii (c : ascii) : ascii :=
  let n := nat_of_ascii c in
  if ((Nat.leb 65 n && Nat.leb n 90)
      || (Nat.leb 192 n && Nat.leb n 222 && negb (Nat.eqb n 215)))%bool
  then ascii_of_nat (n + 32) else c.

(** [String.prototype.toLowerCase], on code units below 256. *)
Fixpoint toLowerCase (s : string) : string :=
  match s with
  | EmptyString => EmptyString
  | String c r => String (lower_ascii c) (toLowerCase r)
  end.

Definition hex_digit (n : nat) : ascii :=
  match n with
  | 0%nat => "0" | 1%nat => "1" | 2%nat => "2" | 3%nat => "3"
  | 4%nat => "4" | 5%nat => "5" | 6%nat => "6" | 7%nat => "7"
  | 8%nat => "8" | 9%nat => "9" | 10%nat => "a" | 11%nat => "b"
  | 12%nat => "c" | 13%nat => "d" | 14%nat => "e" | _ => "f"
  end%char.

(** [Buffer.prototype.toString('hex')]: two lowercase digits per byte. *)
Fixpoint toString_hex (bs : list byte) : string :=
  match bs with
  | [] => EmptyString
  | b :: r =>
      String (hex_digit (Byte.to_nat b / 16))
        (String (hex_digit (Byte.to_nat b mod 16)) (toString_hex r))
  end.

(** The operating system's entropy pool, read byte by byte. *)
Definition Entropy : Type := nat -> byte.

(** [crypto.randomBytes(n)]. *)
Definition randomBytes (n : nat) (src : Entropy) : list byte :=
  map src (seq 0 n).

(** ** Outcomes: a value or a thrown exception *)

Inductive outcome (A : Type) : Type :=
| Ok (a : A)
| Throw (e : string).
Arguments Ok {A} a.
Arguments Throw {A} e.

(** ** The external modules *)

Class Crypto : Type := {
  (** [crypto.createHash('sha256').update(s).digest('hex')] *)
  sha256_hex : string -> string;
  (** [bcrypt.genSalt(rounds)] *)
  bcrypt_genSalt : Z -> Entropy -> outcome string;
  (** [bcrypt.hash(secret, salt)] *)
  bcrypt_hash : string -> string -> outcome string;
  (** [bcrypt.compare(candidate, hashed)] *)
  bcrypt_compare : string -> string -> bool;
  (** the signer of bearer tokens, from a user's email *)
  sign_token : string -> string
}.

(** What a request reads from the process besides the collection. *)
Record Env : Type := mkEnv {
  NODE_ENV : option string;
  now : Z;
  entropy : Entropy
}.

(** ** The user model ([src/models/User.ts]) *)

Record User : Type := mkUser {
  name : string;
  email : string;
  password : string;
  isActive : bool;
  isFirstLogin : bool;
  resetPasswordToken : option string;
  resetPasswordExpires : option Z;
  lastLoginAt : option Z;
  createdAt : Z;
  updatedAt : Z
}.

Definition with_password (v : string) (u : User) : User :=
  mkUser (name u) (email u) v (isActive u) (isFirstLogin u)
    (resetPasswordToken u) (resetPasswordExpires u) (lastLoginAt u)
    (createdAt u) (updatedAt u).

Definition with_isFirstLogin (v : bool) (u : User) : User :=
  mkUser (name u) (email u) (password u) (isActive u) v
    (resetPasswordToken u) (resetPasswordExpires u) (lastLoginAt u)
    (createdAt u) (updatedAt u).

Definition with_resetPasswordToken (v : option string) (u : User) : User :=
  mkUser (name u) (email u) (password u) (isActive u) (isFirstLogin u)
    v (resetPasswordExpires u) (lastLoginAt u) (createdAt u) (updatedAt u).

Definition with_resetPasswordExpires (v : option Z) (u : User) : User :=
  mkUser (name u) (email u) (password u) (isActive u) (isFirstLogin u)
    (resetPasswordToken u) v (lastLoginAt u) (createdAt u) (updatedAt u).

Definition with_lastLoginAt (v : option Z) (u : User) : User :=
  mkUser (name u) (email u) (password u) (isActive u) (isFirstLogin u)
    (resetPasswordToken u) (resetPasswordExpires u) v
    (createdAt u) (updatedAt u).

Definition with_updatedAt (v : Z) (u : User) : User :=
  mkUser (name u) (email u) (password u) (isActive u) (isFirstLogin u)
    (resetPasswordToken u) (resetPasswordExpires u) (lastLoginAt u)
    (createdAt u) v.

#[global] Instance User_eq_dec : EqDecision User.
Proof. solve_decision. Defined.

(** A Mongoose document: the loaded record, where it lives in the
    collection, and the paths modified since it was loaded. *)
Record Doc : Type := mkDoc {
  doc_id : nat;
  data : User;
  modifiedPaths : list string
}.

(** A document as [findOne] hands it out: nothing modified yet. *)
Definition hydrate (i : nat) (u : User) : Doc := mkDoc i u [].

(** [doc.<path> = v], where [f] sets the field of the path to [v]: the
    field takes the value, and the path is marked modified when the value
    differs from the one the document held; assigning the value that is
    already there marks nothing. *)
Definition assign (path : string) (f : User -> User) (d : Doc) : Doc :=
  let assigned := f (data d) in
  mkDoc (doc_id d) assigned
    (if bool_decide (assigned = data d) then modifiedPaths d
     else path :: modifiedPaths d).

Arguments assign : simpl never.

Definition isModified (path : string) (d : Doc) : bool :=
  existsb (String.eqb path) (modifiedPaths d).

(** ** The process: collection, storage log and console *)

Inductive StorageOp : Type :=
| OpFindOne
| OpSave (id : nat).

Record World : Type := mkWorld {
  docs : list User;
  ops : list StorageOp;
  console : list string
}.

(** Computations of a handler: they read and change the world, and return
    or throw. The world reached at a throw is kept, as in JavaScript. *)
Definition M (A : Type) : Type := World -> outcome A * World.

Definition ret {A : Type} (a : A) : M A := fun w => (Ok a, w).

Definition bind {A B : Type} (c : M A) (k : A -> M B) : M B :=
  fun w =>
    match c w with
    | (Ok a, w') => k a w'
    | (Throw e, w') => (Throw e, w')
    end.

(** [try { c } catch (error) { h error }] *)
Definition try_catch {A : Type} (c : M A) (h : string -> M A) : M A :=
  fun w =>
    match c w with
    | (Ok a, w') => (Ok a, w')
    | (Throw e, w') => h e w'
    end.

(** A promise that settled with [o], awaited. *)
Definition await {A : Type} (o : outcome A) : M A := fun w => (o, w).

Declare Scope handler_scope.
Delimit Scope handler_scope with handler.
Notation "x <- c ;; k" := (bind c (fun x => k))
  (at level 100, c at next level, right associativity) : handler_scope.
Notation "c ;;; k" := (bind c (fun _ => k))
  (at level 100, right associativity) : handler_scope.
Local Open Scope handler_scope.

Definition console_log (line : string) : M unit :=
  fun w => (Ok tt, mkWorld (docs w) (ops w) (console w ++ [line])).

(** [connectToDatabase()] of [@/lib/mongodb]: the connection is taken as
    established. *)
Definition connectToDatabase : M unit := ret tt.

(** [User.findOne(filter)]: the first document that satisfies the filter. *)
Definition findOne (filter : User -> bool) : M (option Doc) :=
  fun w =>
    (Ok (match list_find (fun u => Is_true (filter u)) (docs w) with
         | Some (i, u) => Some (hydrate i u)
         | None => None
         end),
     mkWorld (docs w) (ops w ++ [OpFindOne]) (console w)).

Section Model.
Context {C : Crypto}.

(** [UserSchema.pre('save')]: hash the password if it was modified. *)
Definition pre_save (env : Env) (d : Doc) : outcome Doc :=
  if negb (isModified "password" d) then Ok d
  else
    match bcrypt_genSalt 12 (entropy env) with
    | Throw e => Throw e
    | Ok salt =>
        match bcrypt_hash (password (data d)) salt with
        | Throw e => Throw e
        | Ok hashed =>
            Ok (mkDoc (doc_id d) (with_password hashed (data d))
                  (modifiedPaths d))
        end
    end.

(** [timestamps: true]: a save of a modified document stamps it. *)
Definition stamp (env : Env) (d : Doc) : User :=
  match modifiedPaths d with
  | [] => data d
  | _ :: _ => with_updatedAt (now env) (data d)
  end.

(** [doc.save()]: the hook runs first; the record is then written where
    the document was loaded from. A document that is no longer there is
    an error. *)
Definition save (env : Env) (d : Doc) : M unit :=
  d' <- await (pre_save env d) ;;
  fun w =>
    if (doc_id d' <? length (docs w))%nat then
      (Ok tt,
       mkWorld (<[doc_id d' := stamp env d']> (docs w))
         (ops w ++ [OpSave (doc_id d')]) (console w))
    else (Throw "DocumentNotFoundError", w).

(** [UserSchema.methods.comparePassword] *)
Definition comparePassword (d : Doc) (candidatePassword : string) : bool :=
  bcrypt_compare candidatePassword (password (data d)).

(** [UserSchema.methods.generatePasswordResetToken]: returns the
    plaintext token and the document as the method leaves it. *)
Definition generatePasswordResetToken (env : Env) (d : Doc) : string * Doc :=
  let resetToken := toString_hex (randomBytes 32 (entropy env)) in
  let d1 := assign "resetPasswordToken"
              (with_resetPasswordToken (Some (sha256_hex resetToken))) d in
  let d2 := assign "resetPasswordExpires"
              (with_resetPasswordExpires (Some (now env + 10 * 60 * 1000))) d1 in
  (resetToken, d2).

(** [UserSchema.methods.clearPasswordResetToken] *)
Definition clearPasswordResetToken (d : Doc) : Doc :=
  let d1 := assign "resetPasswordToken" (with_resetPasswordToken None) d in
  assign "resetPasswordExpires" (with_resetPasswordExpires None) d1.

End Model.

(** ** Responses of the two routes *)

(** The JSON body of a [NextResponse] and its status; a key whose value is
    [undefined] is left out of the body, which is [None] here. *)
Record Response : Type := mkResponse {
  status : Z;
  success : bool;
  message : option string;
  error : option string;
  resetToken : option string
}.

(** [NextResponse.json({ success: false, error }, { status })] *)
Definition failure (st : Z) (err : string) : Response :=
  mkResponse st false None (Some err) None.

(** ** [POST /api/auth/forgot-password] *)

Module ForgotPassword.

Record Body : Type := mkBody { body_email : option string }.

Definition generic_message : string :=
  "If an account with that email exists, a password reset link has been sent.".

(** The answer that names no account. *)
Definition generic : Response :=
  mkResponse 200 true (Some generic_message) None None.

Section Route.
Context {C : Crypto}.

(** The handler. The email is as the login page sends it, the value of an
    input of type [email], which carries no white space at either end; the
    [trim] setter that the schema applies to the filter of the lookup then
    changes nothing and is left out, and the filter compares with the
    lower-cased email. *)
Definition POST (env : Env) (body : Body) : M Response :=
  try_catch
    (connectToDatabase ;;;
     if negb (truthy (body_email body)) then
       ret (failure 400 "Email is required")
     else
       let email_ := default "" (body_email body) in
       user <- findOne (fun u => String.eqb (email u) (toLowerCase email_)) ;;
       match user with
       | None => ret generic
       | Some user =>
           if negb (isActive (data user)) then ret generic
           else
             let '(resetToken_, user) := generatePasswordResetToken env user in
             save env user ;;;
             console_log ("Password reset token for " ++ email_ ++ " : " ++ resetToken_) ;;;
             ret (mkResponse 200 true (Some generic_message) None
                    (if bool_decide (NODE_ENV env = Some "development")
                     then Some resetToken_ else None))
       end)
    (fun e =>
       console_log ("Error in forgot password: " ++ e) ;;;
       ret (failure 500 "Failed to process forgot password request")).

End Route.

End ForgotPassword.

(** ** [POST /api/auth/reset-password] *)

Module ResetPassword.

Record Body : Type := mkBody {
  body_token : option string;
  body_password : option string;
  body_confirmPassword : option string
}.

Definition invalid_token_error : string := "Invalid or expired reset token".

(** The filter of the lookup: the stored hash is the presented one and
    the stored expiry is after [t] ([$gt]). A missing field matches
    neither condition. *)
Definition valid_reset_token (hashedToken : string) (t : Z) (u : User) : bool :=
  match resetPasswordToken u with
  | Some h => String.eqb h hashedToken
  | None => false
  end
  &&
  match resetPasswordExpires u with
  | Some e => t <? e
  | None => false
  end.

Section Route.
Context {C : Crypto}.

Definition POST (env : Env) (body : Body) : M Response :=
  try_catch
    (connectToDatabase ;;;
     if negb (truthy (body_token body)) || negb (truthy (body_password body))
        || negb (truthy (body_confirmPassword body)) then
       ret (failure 400 "Token, password, and confirm password are required")
     else
       let token := default "" (body_token body) in
       let password_ := default "" (body_password body) in
       let confirmPassword := default "" (body_confirmPassword body) in
       if negb (String.eqb password_ confirmPassword) then
         ret (failure 400 "Passwords do not match")
       else if (String.length password_ <? 6)%nat then
         ret (failure 400 "Password must be at least 6 characters long")
       else
         let hashedToken := sha256_hex token in
         user <- findOne (valid_reset_token hashedToken (now env)) ;;
         match user with
         | None => ret (failure 400 invalid_token_error)
         | Some user =>
             let user := assign "password" (with_password password_) user in
             let user := assign "isFirstLogin" (with_isFirstLogin false) user in
             let user := clearPasswordResetToken user in
             let user := assign "lastLoginAt" (with_lastLoginAt (Some (now env))) user in
             save env user ;;;
             ret (mkResponse 200 true
                    (Some "Password has been reset successfully") None None)
         end)
    (fun e =>
       console_log ("Error resetting password: " ++ e) ;;;
       ret (failure 500 "Failed to reset password")).

End Route.

End ResetPassword.

(** ** Histories of requests *)

Inductive Request : Type :=
| Forgot (env : Env) (body : ForgotPassword.Body)
| Reset (env : Env) (body : ResetPassword.Body).

Section Histories.
Context {C : Crypto}.

Definition handle (r : Request) : M Response :=
  match r with
  | Forgot env body => ForgotPassword.POST env body
  | Reset env body => ResetPassword.POST env body
  end.

(** The world after the requests of [rs], served one after the other. *)
Fixpoint run (rs : list Request) (w : World) : World :=
  match rs with
  | [] => w
  | r :: rest => run rest (snd (handle r w))
  end.

(** The hash that serving [r] may store: that of the token its
    environment would generate. A reset stores none. *)
Definition issues (r : Request) : option string :=
  match r with
  | Forgot env _ => Some (sha256_hex (toString_hex (randomBytes 32 (entropy env))))
  | Reset _ _ => None
  end.

(** None of the requests of [rs] may store the hash [h]. *)
Definition never_issues (h : string) (rs : list Request) : bool :=
  forallb (fun r => match issues r with
                    | Some h' => negb (String.eqb h' h)
                    | None => true
                    end) rs.

End Histories.

(** ** [POST /api/auth/login] and the login page *)

Module Login.

(** [response.data] as the login page reads it. [login_data] is the
    [data] object: absent, or holding a [token] that may be absent. *)
Record Data : Type := mkData {
  login_success : bool;
  requiresPasswordReset : bool;
  login_resetToken : option string;
  login_data : option (option string);
  login_error : option string
}.

(** Modelled from the spec: the uniform 'login failed' answer of
    [authenticate], the same for an unknown email, an inactive account and
    a wrong password. *)
Definition login_failed : Data :=
  mkData false false None None (Some "Login failed").

(** The bearer token a response carries, if any. *)
Definition bearer (d : Data) : option string :=
  match login_data d with
  | Some t => t
  | None => None
  end.

Section Route.
Context {C : Crypto}.

(** Modelled from the spec: the route handler of [POST /api/auth/login]
    ([authenticate] of section 4.3), whose file is not among the
    sources. Lookup by lower-cased email; an absent or inactive account
    or a failed verification give the same failure; a first login
    issues a reset token instead of a session token; otherwise
    [lastLoginAt] is updated and a bearer token bound to the identity
    is issued. *)
Definition authenticate (env : Env) (email_ password_ : string) : M Data :=
  user <- findOne (fun u => String.eqb (email u) (toLowerCase email_)) ;;
  match user with
  | None => ret login_failed
  | Some user =>
      if negb (isActive (data user)) then ret login_failed
      else if negb (comparePassword user password_) then ret login_failed
      else if isFirstLogin (data user) then
        let '(resetToken_, user) := generatePasswordResetToken env user in
        save env user ;;;
        ret (mkData true true (Some resetToken_) None None)
      else
        let user := assign "lastLoginAt" (with_lastLoginAt (Some (now env))) user in
        save env user ;;;
        ret (mkData true false None
               (Some (Some (sign_token (email (data user))))) None)
  end.

End Route.

End Login.

Module LoginPage.

(** How [axios.post] settles: with the body of a 2xx response, or
    rejected, with the body of the error response when there is one. *)
Inductive AxiosResult : Type :=
| Resolved (d : Login.Data)
| Rejected (d : option Login.Data).

Record FormData : Type := mkFormData {
  form_email : string;
  form_password : string
}.

(** What the page holds and can reach: the browser's [localStorage], the
    default [Authorization] header of axios, the routes pushed so far
    (latest last), and the two pieces of component state. *)
Record Page : Type := mkPage {
  localStorage : gmap string string;
  Authorization : option string;
  pushed : list string;
  formError : string;
  loading : bool
}.

Definition setFormError (e : string) (p : Page) : Page :=
  mkPage (localStorage p) (Authorization p) (pushed p) e (loading p).

Definition setLoading (b : bool) (p : Page) : Page :=
  mkPage (localStorage p) (Authorization p) (pushed p) (formError p) b.

Definition router_push (url : string) (p : Page) : Page :=
  mkPage (localStorage p) (Authorization p) (pushed p ++ [url])
    (formError p) (loading p).

(** A value inside a template literal or stored by [setItem]. *)
Definition show (x : option string) : string := default "undefined" x.

(** [x || fallback] *)
Definition or_else (x : option string) (fallback : string) : string :=
  if truthy x then default "" x else fallback.

(** [handleSubmit]; [post email password] is how the request
    [axios.post('/api/auth/login', { email, password })] settles. *)
Definition handleSubmit (form : FormData)
    (post : string -> string -> AxiosResult) (p : Page) : Page :=
  if (String.eqb (form_email form) "" || String.eqb (form_password form) "")%bool then
    setFormError "Please fill in all fields" p
  else
    let p := setFormError "" (setLoading true p) in
    let p :=
      match post (form_email form) (form_password form) with
      | Resolved d =>
          if Login.login_success d then
            if Login.requiresPasswordReset d then
              router_push ("/reset-password?token=" ++ show (Login.login_resetToken d)
                             ++ "&first=true") p
            else
              match Login.login_data d with
              | None => setFormError "Login failed" p
              | Some token =>
                  let p := mkPage (<["auth-token" := show token]> (localStorage p))
                             (Authorization p) (pushed p) (formError p) (loading p) in
                  let p := mkPage (localStorage p) (Some ("Bearer " ++ show token))
                             (pushed p) (formError p) (loading p) in
                  router_push "/dashboard" p
              end
          else setFormError (or_else (Login.login_error d) "Login failed") p
      | Rejected d =>
          setFormError
            (or_else (match d with Some d => Login.login_error d | None => None end)
               "Login failed") p
      end in
    setLoading false p.

End LoginPage.

(** ** Predicates on accounts and collections *)

(** Hash and expiry of the reset token are both absent or both present. *)
Definition token_fields_paired (u : User) : bool :=
  match resetPasswordToken u, resetPasswordExpires u with
  | None, None | Some _, Some _ => true
  | _, _ => false
  end.

(** The account stores the hash [h] as its reset token. *)
Definition stores (h : string) (u : User) : bool :=
  match resetPasswordToken u with
  | Some h' => String.eqb h' h
  | None => false
  end.

(** How many accounts of the collection store the hash [h]. *)
Definition holders (h : string) (us : list User) : nat :=
  length (List.filter (stores h) us).

(** The account stores the expiry [e]. *)
Definition expires_at (e : Z) (u : User) : bool :=
  match resetPasswordExpires u with
  | Some e' => Z.eqb e' e
  | None => false
  end.

(** The account [u] once a token with hash [h] was issued to it at [t]
    and saved. An account that already stored this hash and this expiry
    is saved unmodified, and keeps its [updatedAt]. *)
Definition issued_to (h : string) (t : Z) (u : User) : User :=
  mkUser (name u) (email u) (password u) (isActive u) (isFirstLogin u)
    (Some h) (Some (t + 600000)) (lastLoginAt u) (createdAt u)
    (if stores h u && expires_at (t + 600000) u then updatedAt u else t).

(** The account [u] once its password was reset at [t] and saved with the
    secret [hashed]. *)
Definition reset_to (hashed : string) (t : Z) (u : User) : User :=
  mkUser (name u) (email u) hashed (isActive u) false
    None None (Some t) (createdAt u) t.

(** ** Vocabulary of the statements *)

(** A body field that is absent or empty. *)
Definition missing (x : option string) : Prop := x = None \/ x = Some "".

(** The body passes the three checks of the route: token [t], and the
    password [p] given twice. *)
Definition validated (body : ResetPassword.Body) (t p : string) : Prop :=
  ResetPassword.body_token body = Some t /\ t <> ""
  /\ ResetPassword.body_password body = Some p
  /\ ResetPassword.body_confirmPassword body = Some p
  /\ (6 <= String.length p)%nat.

Definition reset_done : Response :=
  mkResponse 200 true (Some "Password has been reset successfully") None None.

(** The world after the lookup of a request. *)
Definition looked_up (w : World) : World :=
  mkWorld (docs w) (ops w ++ [OpFindOne]) (console w).

Definition reset_failed (e : string) (w : World) : outcome Response * World :=
  (Ok (failure 500 "Failed to reset password"),
   mkWorld (docs w) (ops w ++ [OpFindOne])
     (console w ++ ["Error resetting password: " ++ e])).

(** The token that a request served in [env] generates. *)
Definition token_of (env : Env) : string :=
  toString_hex (randomBytes 32 (entropy env)).

(** The answer to a request that issued the token [tok]. *)
Definition issued_answer (env : Env) (tok : string) : Response :=
  mkResponse 200 true (Some ForgotPassword.generic_message) None
    (if bool_decide (NODE_ENV env = Some "development") then Some tok else None).

(** ** Sample implementations of the external modules

    Stand-ins on which the statements below are exercised: a tagging
    "hash", and a [bcrypt] whose hashing always succeeds or always fails. *)

Definition sample_crypto : Crypto := {|
  sha256_hex s := "sha256:" ++ s;
  bcrypt_genSalt _ _ := Ok "$2a$12$salt";
  bcrypt_hash p salt := Ok (salt ++ "." ++ p);
  bcrypt_compare c h := String.eqb h ("$2a$12$salt." ++ c);
  sign_token e := "bearer." ++ e
|}.

Definition failing_crypto : Crypto := {|
  sha256_hex s := "sha256:" ++ s;
  bcrypt_genSalt _ _ := Ok "$2a$12$salt";
  bcrypt_hash _ _ := Throw "bcrypt: hashing failed";
  bcrypt_compare _ _ := false;
  sign_token e := "bearer." ++ e
|}.

Definition zeros : Entropy := fun _ => x00.
Definition ones : Entropy := fun _ => x01.

Definition sample_env (mode : option string) (t : Z) (src : Entropy) : Env :=
  mkEnv mode t src.

(** The token that [zeros] yields: 32 zero bytes in hexadecimal. *)
Definition zeros_token : string :=
  "0000000000000000000000000000000000000000000000000000000000000000".

Definition alice : User :=
  mkUser "Alice" "alice@x.com" "$2a$12$salt.hunter2x" true true None None None 0 0.

Definition bob_inactive : User :=
  mkUser "Bob" "bob@x.com" "$2a$12$salt.secret99" false false None None None 0 0.

(** Alice with the token of [zeros] issued to her at instant 1000. *)
Definition alice_pending : User :=
  issued_to (sha256_hex (Crypto := sample_crypto) zeros_token) 1000 alice.

(** Alice after she reset her password to "newpass1" at instant 5000. *)
Definition alice_reset : User :=
  reset_to "$2a$12$salt.newpass1" 5000 alice_pending.

Definition reset_body (token pw : string) : ResetPassword.Body :=
  ResetPassword.mkBody (Some token) (Some pw) (Some pw).

Definition world_of (us : list User) : World := mkWorld us [] [].

(** ** Further vocabulary *)

(** What identifies an account and is set when it is provisioned. *)
Definition identity (u : User) : string * string * bool * Z :=
  (name u, email u, isActive u, createdAt u).

(** The storage operations of one request: none, a lookup, or a lookup
    followed by the save of the document found. *)
Inductive access : list StorageOp -> Prop :=
| access_none : access []
| access_lookup : access [OpFindOne]
| access_update (i : nat) : access [OpFindOne; OpSave i].

(** Bob, deactivated after the token of [ones] was issued to him at
    instant 1000. *)
Definition bob_pending : User :=
  issued_to (sha256_hex (Crypto := sample_crypto)
               "0101010101010101010101010101010101010101010101010101010101010101")
    1000 bob_inactive.

(** A lowercase hexadecimal digit. *)
Definition is_hex_digit (c : ascii) : bool :=
  let n := nat_of_ascii c in
  (Nat.leb 48 n && Nat.leb n 57) || (Nat.leb 97 n && Nat.leb n 102).

(** ** The pages that call the two routes *)

Module Axios.

(** How a request of the browser settles: resolved with the body of the
    response, or rejected, with the body of the error response when there
    is one. *)
Inductive Result : Type :=
| Resolved (data : Response)
| Rejected (data : option Response).

(** The default [validateStatus]: a 2xx response resolves, any other
    rejects with the response attached. *)
Definition settle (r : Response) : Result :=
  if (200 <=? status r) && (status r <? 300) then Resolved r else Rejected (Some r).

(** [error.response?.data?.error] of a rejection. *)
Definition response_error (d : option Response) : option string :=
  match d with
  | Some r => error r
  | None => None
  end.

(** A request against a route handler that runs in the same world; a
    handler that throws leaves the browser without a response body. *)
Definition against (handler : M Response) : M Result :=
  fun w =>
    match handler w with
    | (Ok r, w') => (Ok (settle r), w')
    | (Throw _, w') => (Ok (Rejected None), w')
    end.

End Axios.

(** The reset-password page ([ResetPasswordPage], in the source file of
    the forgot-password route). *)
Module ResetPasswordPage.

(** What the component holds: the two query parameters, the form, the
    flags, the routes pushed so far and the timers set (delay in
    milliseconds and the route that the timer pushes). *)
Record Page : Type := mkPage {
  token : option string;
  first : bool;
  form_password : string;
  form_confirmPassword : string;
  loading : bool;
  page_error : string;
  page_success : bool;
  pushed : list string;
  timers : list (Z * string)
}.

Definition setError (e : string) (p : Page) : Page :=
  mkPage (token p) (first p) (form_password p) (form_confirmPassword p)
    (loading p) e (page_success p) (pushed p) (timers p).

Definition setLoading (b : bool) (p : Page) : Page :=
  mkPage (token p) (first p) (form_password p) (form_confirmPassword p)
    b (page_error p) (page_success p) (pushed p) (timers p).

Definition setSuccess (b : bool) (p : Page) : Page :=
  mkPage (token p) (first p) (form_password p) (form_confirmPassword p)
    (loading p) (page_error p) b (pushed p) (timers p).

(** [setTimeout(() => router.push(url), delay)] *)
Definition setTimeout_push (url : string) (delay : Z) (p : Page) : Page :=
  mkPage (token p) (first p) (form_password p) (form_confirmPassword p)
    (loading p) (page_error p) (page_success p) (pushed p) (timers p ++ [(delay, url)]).

(** [handleSubmit]; [post body] is the request
    [axios.post('/api/auth/reset-password', body)]. *)
Definition handleSubmit (post : ResetPassword.Body -> M Axios.Result) (p : Page) : M Page :=
  if String.eqb (form_password p) "" || String.eqb (form_confirmPassword p) "" then
    ret (setError "Please fill in all fields" p)
  else if negb (String.eqb (form_password p) (form_confirmPassword p)) then
    ret (setError "Passwords do not match" p)
  else if (String.length (form_password p) <? 6)%nat then
    ret (setError "Password must be at least 6 characters long" p)
  else
    let p := setError "" (setLoading true p) in
    response <- post (ResetPassword.mkBody (token p) (Some (form_password p))
                        (Some (form_confirmPassword p))) ;;
    let p :=
      match response with
      | Axios.Resolved d =>
          if success d then setTimeout_push "/login" 3000 (setSuccess true p)
          else setError (LoginPage.or_else (error d) "Failed to reset password") p
      | Axios.Rejected d =>
          setError (LoginPage.or_else (Axios.response_error d) "Failed to reset password") p
      end in
    ret (setLoading false p).

End ResetPasswordPage.

(** The forgot-password form of the login page. *)
Module ForgotPasswordForm.

(** The state that [handleForgotPassword] reads and writes, and the
    console of the browser. *)
Record Form : Type := mkForm {
  forgotPasswordEmail : string;
  forgotPasswordLoading : bool;
  forgotPasswordMessage : option string;
  formError : string;
  browser_console : list string
}.

Definition setFormError (e : string) (f : Form) : Form :=
  mkForm (forgotPasswordEmail f) (forgotPasswordLoading f) (forgotPasswordMessage f)
    e (browser_console f).

Definition setForgotPasswordLoading (b : bool) (f : Form) : Form :=
  mkForm (forgotPasswordEmail f) b (forgotPasswordMessage f)
    (formError f) (browser_console f).

Definition setForgotPasswordMessage (m : option string) (f : Form) : Form :=
  mkForm (forgotPasswordEmail f) (forgotPasswordLoading f) m
    (formError f) (browser_console f).

Definition browser_log (line : string) (f : Form) : Form :=
  mkForm (forgotPasswordEmail f) (forgotPasswordLoading f) (forgotPasswordMessage f)
    (formError f) (browser_console f ++ [line]).

(** [handleForgotPassword]; [post body] is the request
    [axios.post('/api/auth/forgot-password', body)]. *)
Definition handleForgotPassword (post : ForgotPassword.Body -> M Axios.Result) (f : Form)
    : M Form :=
  if String.eqb (forgotPasswordEmail f) "" then
    ret (setFormError "Please enter your email address" f)
  else
    let f := setFormError "" (setForgotPasswordLoading true f) in
    response <- post (ForgotPassword.mkBody (Some (forgotPasswordEmail f))) ;;
    let f :=
      match response with
      | Axios.Resolved d =>
          if success d then
            let f := setForgotPasswordMessage (message d) f in
            if truthy (resetToken d) then
              let f := browser_log ("Reset token: " ++ LoginPage.show (resetToken d)) f in
              setForgotPasswordMessage
                (Some (LoginPage.show (message d)
                       ++ " (Development: Reset link: /reset-password?token="
                       ++ LoginPage.show (resetToken d) ++ ")")) f
            else f
          else setFormError (LoginPage.or_else (error d) "Failed to send reset email") f
      | Axios.Rejected d =>
          setFormError
            (LoginPage.or_else (Axios.response_error d) "Failed to send reset email") f
      end in
    ret (setForgotPasswordLoading false f).

End ForgotPasswordForm.

Section Browser.
Context {C : Crypto}.

(** The reset page submitted against the reset route. *)
Definition submit_reset (env : Env) (p : ResetPasswordPage.Page) : M ResetPasswordPage.Page :=
  ResetPasswordPage.handleSubmit
    (fun body => Axios.against (ResetPassword.POST env body)) p.

(** The forgot-password form submitted against the forgot route. *)
Definition submit_forgot (env : Env) (f : ForgotPasswordForm.Form)
    : M ForgotPasswordForm.Form :=
  ForgotPasswordForm.handleForgotPassword
    (fun body => Axios.against (ForgotPassword.POST env body)) f.

End Browser.

(** A reset page opened with [token], both fields filled with [pw]. *)
Definition reset_page (token : option string) (pw confirm : string)
    : ResetPasswordPage.Page :=
  ResetPasswordPage.mkPage token false pw confirm false "" false [] [].

Definition forgot_form (email_ : string) : ForgotPasswordForm.Form :=
  ForgotPasswordForm.mkForm email_ false (Some "") "" [].

(** ** The tag context ([src/context/TagContext.tsx]) *)

Module TagContext.

Record Tag : Type := mkTag {
  tag_id : string;
  tag_name : string;
  createdBy : string;
  tag_isActive : bool;
  tag_createdAt : Z;
  tag_updatedAt : Z
}.

Record TagState : Type := mkTagState {
  tags : list string;
  allTags : list Tag;
  loading : bool;
  error : option string
}.

Inductive TagAction : Type :=
| SET_LOADING (payload : bool)
| SET_ERROR (payload : option string)
| SET_TAGS (payload : list string)
| SET_ALL_TAGS (payload : list Tag)
| ADD_TAG (payload : string).

Definition initialState : TagState := mkTagState [] [] false None.

Definition tagReducer (state : TagState) (action : TagAction) : TagState :=
  match action with
  | SET_LOADING payload => mkTagState (tags state) (allTags state) payload (error state)
  | SET_ERROR payload => mkTagState (tags state) (allTags state) false payload
  | SET_TAGS payload => mkTagState payload (allTags state) false None
  | SET_ALL_TAGS payload => mkTagState (tags state) payload false None
  | ADD_TAG payload => mkTagState (tags state ++ [payload]) (allTags state) false None
  end.

(** The state after the actions of [actions], dispatched in order. *)
Definition dispatch_all (actions : list TagAction) (state : TagState) : TagState :=
  fold_left tagReducer actions state.

(** What a [catch] receives: an error of axios, with the [error] of the
    response body when there is one and its own message, or another
    [Error]. *)
Inductive JsError : Type :=
| AxiosError (response_error : option string) (message : string)
| Error (message : string).

(** The body of an API response: [{ success: true, data }] or
    [{ success: false, error }]. *)
Inductive ApiBody (A : Type) : Type :=
| Success (data : A)
| Failure (error : option string).
Arguments Success {A} data.
Arguments Failure {A} error.

(** How a request settles. *)
Inductive Settled (A : Type) : Type :=
| Fulfilled (body : ApiBody A)
| Failed (e : JsError).
Arguments Fulfilled {A} body.
Arguments Failed {A} e.

(** How a call of an async function ends. *)
Inductive Completion (A : Type) : Type :=
| Returns (a : A)
| Throws (e : JsError).
Arguments Returns {A} a.
Arguments Throws {A} e.

(** The awaited request and the test of [response.data.success]: the data
    of a successful body, or what is thrown, the rejection itself or a new
    [Error] with the error of the body or the fallback text. *)
Definition data_or_throw {A : Type} (fallback : string) (r : Settled A) : A + JsError :=
  match r with
  | Fulfilled (Success data) => inl data
  | Fulfilled (Failure err) => inr (Error (LoginPage.or_else err fallback))
  | Failed e => inr e
  end.

(** [axios.isAxiosError(error) ? error.response?.data?.error || error.message
     : 'An unexpected error occurred'] *)
Definition errorMessage (e : JsError) : string :=
  match e with
  | AxiosError response_error message => LoginPage.or_else response_error message
  | Error _ => "An unexpected error occurred"
  end.

(** [getTags]; [r] is how [axios.get('/api/tags')] settles. *)
Definition getTags (r : Settled (list string)) (state : TagState)
    : TagState * Completion unit :=
  let state := tagReducer state (SET_LOADING true) in
  let state := tagReducer state (SET_ERROR None) in
  match data_or_throw "Failed to fetch tags" r with
  | inl data => (tagReducer state (SET_TAGS data), Returns tt)
  | inr e => (tagReducer state (SET_ERROR (Some (errorMessage e))), Throws e)
  end.

(** [getAllTags]; [r] is how [axios.get('/api/tags/all')] settles. *)
Definition getAllTags (r : Settled (list Tag)) (state : TagState)
    : TagState * Completion unit :=
  let state := tagReducer state (SET_LOADING true) in
  let state := tagReducer state (SET_ERROR None) in
  match data_or_throw "Failed to fetch all tags" r with
  | inl data => (tagReducer state (SET_ALL_TAGS data), Returns tt)
  | inr e => (tagReducer state (SET_ERROR (Some (errorMessage e))), Throws e)
  end.

(** [createTag]; [post tagName] is how
    [axios.post('/api/tags', { tag: tagName })] settles. *)
Definition createTag (post : string -> Settled string) (tagName : string)
    (state : TagState) : TagState * Completion string :=
  let state := tagReducer state (SET_LOADING true) in
  let state := tagReducer state (SET_ERROR None) in
  match data_or_throw "Failed to create tag" (post tagName) with
  | inl data => (tagReducer state (ADD_TAG data), Returns data)
  | inr e => (tagReducer state (SET_ERROR (Some (errorMessage e))), Throws e)
  end.

(** [getTagsByTaskId]; the data of the response is the task, of which the
    [tags] may be absent. It dispatches nothing. *)
Definition getTagsByTaskId (get : string -> Settled (option (list string)))
    (taskId : string) : Completion (list string) :=
  match data_or_throw "Failed to fetch task tags" (get taskId) with
  | inl task_tags => Returns (default [] task_tags)
  | inr e => Throws (Error (errorMessage e))
  end.

End TagContext.

(** ** The tags page ([TagsPage], in the source file of the tag context) *)

Module TagsPage.

(** White space as [String.prototype.trim] removes it, among the code
    units below 256: tab, line feed, vertical tab, form feed, carriage
    return, space and no-break space. *)
Definition is_space (c : ascii) : bool :=
  let n := nat_of_ascii c in
  (Nat.leb 9 n && Nat.leb n 13) || Nat.eqb n 32 || Nat.eqb n 160.

Fixpoint trimStart (s : string) : string :=
  match s with
  | EmptyString => EmptyString
  | String c r => if is_space c then trimStart r else s
  end.

(** [s] without its trailing white space. *)
Fixpoint trimEnd (s : string) : string :=
  match s with
  | EmptyString => EmptyString
  | String c r =>
      match trimEnd r with
      | EmptyString => if is_space c then EmptyString else String c EmptyString
      | r' => String c r'
      end
  end.

Definition trim (s : string) : string := trimEnd (trimStart s).



Record Page : Type := mkPage {
  newTagName : string;
  searchTerm : string;
  createLoading : bool;
  createError : string;
  successMessage : string;
  timers : list (Z * string)
}.

Definition setCreateError (e : string) (p : Page) : Page :=
  mkPage (newTagName p) (searchTerm p) (createLoading p) e (successMessage p) (timers p).

Definition setCreateLoading (b : bool) (p : Page) : Page :=
  mkPage (newTagName p) (searchTerm p) b (createError p) (successMessage p) (timers p).

Definition setSuccessMessage (m : string) (p : Page) : Page :=
  mkPage (newTagName p) (searchTerm p) (createLoading p) (createError p) m (timers p).

Definition setNewTagName (n : string) (p : Page) : Page :=
  mkPage n (searchTerm p) (createLoading p) (createError p) (successMessage p) (timers p).

(** [setTimeout(() => setSuccessMessage(m), delay)] *)
Definition setTimeout_message (m : string) (delay : Z) (p : Page) : Page :=
  mkPage (newTagName p) (searchTerm p) (createLoading p) (createError p)
    (successMessage p) (timers p ++ [(delay, m)]).

(** [handleCreateTag], with the [createTag] of the context: the page and
    the state of the context afterwards. *)
Definition handleCreateTag (post : string -> TagContext.Settled string)
    (p : Page) (state : TagContext.TagState) : Page * TagContext.TagState :=
  if String.eqb (trim (newTagName p)) "" then
    (setCreateError "Tag name is required" p, state)
  else
    let p := setSuccessMessage "" (setCreateError "" (setCreateLoading true p)) in
    match TagContext.createTag post (trim (newTagName p)) state with
    | (state, TagContext.Returns _) =>
        let p := setNewTagName "" p in
        let p := setSuccessMessage "Tag created successfully!" p in
        let p := setTimeout_message "" 3000 p in
        (setCreateLoading false p, state)
    | (state, TagContext.Throws _) =>
        (setCreateLoading false (setCreateError "Failed to create tag" p), state)
    end.

End TagsPage.

(** The tags that the ADD_TAG actions of a list carry, in order. *)
Definition added (actions : list TagContext.TagAction) : list string :=
  flat_map (fun a => match a with TagContext.ADD_TAG t => [t] | _ => [] end) actions.

Definition is_SET_TAGS (a : TagContext.TagAction) : bool :=
  match a with TagContext.SET_TAGS _ => true | _ => false end.

Definition is_SET_ALL_TAGS (a : TagContext.TagAction) : bool :=
  match a with TagContext.SET_ALL_TAGS _ => true | _ => false end.

(** ** The test-execution form ([src/components/TestExecutionForm.tsx]) *)

Module TestExecutionForm.

Definition upper_ascii (c : ascii) : ascii :=
  let n := nat_of_ascii c in
  if (Nat.leb 97 n && Nat.leb n 122)%bool then ascii_of_nat (n - 32) else c.

(** [String.prototype.toUpperCase] on the ASCII range. *)
Fixpoint toUpperCase (s : string) : string :=
  match s with
  | EmptyString => EmptyString
  | String c r => String (upper_ascii c) (toUpperCase r)
  end.

(** [s.slice(-n)]: the last [n] characters, or all of a shorter string. *)
Definition slice_last (n : nat) (s : string) : string :=
  substring (String.length s - n) n s.

(** What the browser supplies to [generateTestId]: the clock, and the
    text of [Math.random().toString(36)]. *)
Record Browser : Type := mkBrowser {
  Date_now : Z;
  random_base36 : string
}.

(** [generateTestId] *)
Definition generateTestId (b : Browser) : string :=
  let prefix := "TEST" in
  let timestamp :=
    slice_last 6 (DecimalString.NilZero.string_of_int (Z.to_int (Date_now b))) in
  let random := toUpperCase (substring 2 3 (random_base36 b)) in
  prefix ++ "-" ++ timestamp ++ "-" ++ random.

Inductive Status : Type := pass | fail.

Record Task : Type := mkTask {
  task_id : option string;
  unitTestLabel : string;
  description : string;
  task_tags : option (list string)
}.

Record FormData : Type := mkFormData {
  taskId : string;
  status : Status;
  feedback : string;
  attachedImages : list string
}.

Record TestCase : Type := mkTestCase {
  testCase : string;
  passed : bool;
  notes : string
}.

(** [testExecutionData]: the form data, with the feedback replaced, and
    the fields added. *)
Record TestExecutionData : Type := mkTestExecutionData {
  data_taskId : string;
  data_status : Status;
  data_feedback : string;
  data_attachedImages : list string;
  testId : string;
  testerName : string;
  testCases : list TestCase
}.

(** A call of the test-execution context. *)
Inductive Call : Type :=
| updateTestExecution (id : string) (data : TestExecutionData)
| createTestExecution (data : TestExecutionData).

(** The component: its state, and what it did to the outside (calls of
    the context, calls of [onSuccess], lines of [console.error]). *)
Record Form : Type := mkForm {
  formData : FormData;
  selectedTask : option Task;
  taskTags : list string;
  selectedTags : list string;
  errors : gmap string string;
  calls : list Call;
  onSuccess_calls : nat;
  console_error : list string
}.

Definition initial_formData : FormData := mkFormData "" fail "" [].

(** [validateForm]: the new errors and whether there is none. [user_name]
    is [user?.name]. *)
Definition validateForm (fd : FormData) (user_name : option string)
    : gmap string string * bool :=
  let newErrors : gmap string string := ∅ in
  let newErrors :=
    if String.eqb (taskId fd) "" then
      <["taskId" := "Task selection is required"]> newErrors
    else newErrors in
  let newErrors :=
    if String.eqb (TagsPage.trim (feedback fd)) "" then
      <["feedback" := "Feedback is required"]> newErrors
    else newErrors in
  let newErrors :=
    if negb (truthy user_name) then <["user" := "User not authenticated"]> newErrors
    else newErrors in
  (newErrors, Nat.eqb (size newErrors) 0).

(** [handleSubmit]. [edit] is [editTestExecution], with its [_id];
    [api call] is how the call of the context settles. *)
Definition handleSubmit (user_name : option string) (edit : option (option string))
    (api : Call -> outcome unit) (b : Browser) (f : Form) : Form :=
  let '(newErrors, valid) := validateForm (formData f) user_name in
  let f := mkForm (formData f) (selectedTask f) (taskTags f) (selectedTags f)
             newErrors (calls f) (onSuccess_calls f) (console_error f) in
  if negb valid then f
  else
    let fd := formData f in
    let testExecutionData :=
      mkTestExecutionData (taskId fd) (status fd) (TagsPage.trim (feedback fd))
        (attachedImages fd) (generateTestId b) (LoginPage.or_else user_name "")
        [mkTestCase "Default test case"
           (match status fd with pass => true | fail => false end) (feedback fd)] in
    let call :=
      match edit with
      | Some (Some id) =>
          if String.eqb id "" then createTestExecution testExecutionData
          else updateTestExecution id testExecutionData
      | _ => createTestExecution testExecutionData
      end in
    let f := mkForm (formData f) (selectedTask f) (taskTags f) (selectedTags f)
               (errors f) (calls f ++ [call]) (onSuccess_calls f) (console_error f) in
    match api call with
    | Ok _ =>
        let f :=
          match edit with
          | None =>
              mkForm initial_formData None [] [] (errors f) (calls f)
                (onSuccess_calls f) (console_error f)
          | Some _ => f
          end in
        mkForm (formData f) (selectedTask f) (taskTags f) (selectedTags f)
          (errors f) (calls f) (S (onSuccess_calls f)) (console_error f)
    | Throw e =>
        mkForm (formData f) (selectedTask f) (taskTags f) (selectedTags f)
          (errors f) (calls f) (onSuccess_calls f)
          (console_error f ++ ["Error saving test execution: " ++ e])
    end.

Definition error_text (e : TagContext.JsError) : string :=
  match e with
  | TagContext.AxiosError _ m => m
  | TagContext.Error m => m
  end.

(** [handleTaskSelect], with the [getTagsByTaskId] of the tag context. *)
Definition handleTaskSelect (tasks : list Task)
    (get : string -> TagContext.Settled (option (list string)))
    (taskId_ : string) (f : Form) : Form :=
  match List.find (fun t => match task_id t with
                            | Some i => String.eqb i taskId_
                            | None => false
                            end) tasks with
  | None => f
  | Some task =>
      let fd := formData f in
      let f := mkForm (mkFormData taskId_ (status fd) (feedback fd) (attachedImages fd))
                 (Some task) (taskTags f) (selectedTags f)
                 (errors f) (calls f) (onSuccess_calls f) (console_error f) in
      match TagContext.getTagsByTaskId get taskId_ with
      | TagContext.Returns tags_ =>
          mkForm (formData f) (selectedTask f) tags_ tags_
            (errors f) (calls f) (onSuccess_calls f) (console_error f)
      | TagContext.Throws e =>
          mkForm (formData f) (selectedTask f)
            (default [] (task_tags task)) (default [] (task_tags task))
            (errors f) (calls f) (onSuccess_calls f)
            (console_error f ++ ["Error fetching task tags: " ++ error_text e])
      end
  end.

End TestExecutionForm.

(** ** Absent and empty body fields *)

Lemma truthy_false (x : option string) : truthy x = false <-> missing x.
Proof.
  unfold missing. destruct x as [s|]; simpl.
  - rewrite negb_false_iff, String.eqb_eq. split.
    + intros ->. now right.
    + intros [H|H]; congruence.
  - split; [now left | reflexivity].
Qed.

Lemma truthy_true (x : option string) :
  truthy x = true <-> exists s, x = Some s /\ s <> "".
Proof.
  destruct x as [s|]; simpl.
  - rewrite negb_true_iff, String.eqb_neq. split.
    + intros H. now exists s.
    + intros (s' & [= ->] & H). exact H.
  - split; [discriminate | intros (s & H & _); discriminate].
Qed.

Lemma missing_dec (x : option string) : {missing x} + {~ missing x}.
Proof.
  destruct (truthy x) eqn:E.
  - right. intros H%truthy_false. congruence.
  - left. now apply truthy_false.
Qed.

Lemma classic_absent (a b c : option string) :
  (missing a \/ missing b \/ missing c) \/ ~ (missing a \/ missing b \/ missing c).
Proof.
  destruct (missing_dec a), (missing_dec b), (missing_dec c); tauto.
Qed.

(** ** Validation comes before storage *)

Section Validation.
Context {C : Crypto}.

(** C10: a request to [POST /forgot-password] whose body has no email, or
    an empty one, is answered with status 400, [success: false] and the
    error 'Email is required'; the collection is neither queried nor
    changed. *)
Theorem forgot_password_requires_email (env : Env) (body : ForgotPassword.Body) (w : World) :
  missing (ForgotPassword.body_email body) ->
  let '(r, w') := ForgotPassword.POST env body w in
  r = Ok (mkResponse 400 false None (Some "Email is required") None)
  /\ ops w' = ops w /\ docs w' = docs w /\ w' = w.
Proof.
  intros H%truthy_false.
  unfold ForgotPassword.POST, try_catch, bind, connectToDatabase, ret. simpl.
  rewrite H. simpl. auto.
Qed.


(** C8: [POST /reset-password] answers a request whose token, password or
    confirmation is missing, whose password differs from its confirmation,
    or whose password has fewer than 6 characters, with status 400,
    [success: false] and the reason of the first check that fails, in that
    order; the collection is neither queried nor changed. *)
Theorem reset_password_validates_first (env : Env) (body : ResetPassword.Body) (w : World) :
  let token := ResetPassword.body_token body in
  let pw := ResetPassword.body_password body in
  let confirm := ResetPassword.body_confirmPassword body in
  let absent := missing token \/ missing pw \/ missing confirm in
  let too_short := exists p, pw = Some p /\ (String.length p < 6)%nat in
  let rejected reason :=
    ResetPassword.POST env body w
    = (Ok (mkResponse 400 false None (Some reason) None), w) in
  (absent -> rejected "Token, password, and confirm password are required")
  /\ (~ absent -> pw <> confirm -> rejected "Passwords do not match")
  /\ (~ absent -> pw = confirm -> too_short ->
      rejected "Password must be at least 6 characters long")
  /\ (absent \/ pw <> confirm \/ too_short ->
      exists reason, rejected reason
        /\ ops (snd (ResetPassword.POST env body w)) = ops w
        /\ docs (snd (ResetPassword.POST env body w)) = docs w).
Proof.
  intros token pw confirm absent too_short rejected.
  assert (Habs : absent -> rejected "Token, password, and confirm password are required").
  { intros H. unfold rejected, ResetPassword.POST, try_catch, bind, connectToDatabase, ret.
    simpl. fold token pw confirm.
    assert (E : negb (truthy token) || negb (truthy pw) || negb (truthy confirm) = true).
    { destruct H as [H|[H|H]]; apply truthy_false in H; rewrite H; simpl;
        rewrite ?orb_true_r; reflexivity. }
    rewrite E. reflexivity. }
  assert (Hpresent : ~ absent ->
            negb (truthy token) || negb (truthy pw) || negb (truthy confirm) = false).
  { intros H. apply not_true_is_false. intros E. apply H.
    apply orb_true_iff in E as [E|E]; [apply orb_true_iff in E as [E|E]|];
      apply negb_true_iff, truthy_false in E; unfold absent; tauto. }
  assert (Hmis : ~ absent -> pw <> confirm -> rejected "Passwords do not match").
  { intros Hp Hne. unfold rejected, ResetPassword.POST, try_catch, bind, connectToDatabase, ret.
    simpl. fold token pw confirm. rewrite (Hpresent Hp).
    assert (Hpw : ~ missing pw) by (unfold absent in Hp; tauto).
    assert (Hc : ~ missing confirm) by (unfold absent in Hp; tauto).
    unfold missing in Hpw, Hc.
    destruct pw as [p|]; [|tauto]. destruct confirm as [c|]; [|tauto]. simpl.
    assert (E : String.eqb p c = false) by (apply String.eqb_neq; congruence).
    rewrite E. reflexivity. }
  assert (Hshort : ~ absent -> pw = confirm -> too_short ->
            rejected "Password must be at least 6 characters long").
  { intros Hp Heq (p & Hpw & Hlen).
    unfold rejected, ResetPassword.POST, try_catch, bind, connectToDatabase, ret.
    simpl. fold token pw confirm. rewrite (Hpresent Hp), <- Heq, Hpw. simpl.
    rewrite String.eqb_refl. simpl.
    apply Nat.ltb_lt in Hlen. rewrite Hlen. reflexivity. }
  repeat split; try assumption.
  intros H. unfold rejected in *.
  destruct (classic_absent token pw confirm) as [Ha|Ha].
  - eexists. rewrite (Habs Ha). auto.
  - destruct (decide (pw = confirm)) as [He|Hne].
    + destruct H as [H|[H|H]]; [tauto|tauto|]. eexists. rewrite (Hshort Ha He H). auto.
    + eexists. rewrite (Hmis Ha Hne). auto.
Qed.

End Validation.

Lemma forgot_password_requires_email_witness :
  ForgotPassword.POST (C := sample_crypto) (sample_env None 0 zeros)
    (ForgotPassword.mkBody (Some "")) (world_of [alice])
  = (Ok (failure 400 "Email is required"), world_of [alice]).
Proof.
  pose proof (forgot_password_requires_email (C := sample_crypto)
                (sample_env None 0 zeros) (ForgotPassword.mkBody (Some ""))
                (world_of [alice]) (or_intror eq_refl)) as H.
  destruct (ForgotPassword.POST _ _ _) as [r w'].
  destruct H as (-> & _ & _ & ->). reflexivity.
Defined.

Lemma reset_password_validates_first_witness :
  let env := sample_env None 0 zeros in
  let w := world_of [alice] in
  let rejected body reason :=
    ResetPassword.POST (C := sample_crypto) env body w = (Ok (failure 400 reason), w) in
  rejected (ResetPassword.mkBody None (Some "secret1") (Some "secret1"))
    "Token, password, and confirm password are required"
  /\ rejected (ResetPassword.mkBody (Some zeros_token) (Some "secret1") (Some "secret2"))
       "Passwords do not match"
  /\ rejected (ResetPassword.mkBody (Some zeros_token) (Some "abc") (Some "abc"))
       "Password must be at least 6 characters long".
Proof.
  intros env w rejected. unfold rejected. split; [|split].
  - apply (reset_password_validates_first (C := sample_crypto)).
    left. left. reflexivity.
  - apply (reset_password_validates_first (C := sample_crypto)).
    + unfold missing. simpl. intros [[H|H]|[[H|H]|[H|H]]]; discriminate.
    + simpl. discriminate.
  - apply (reset_password_validates_first (C := sample_crypto)).
    + unfold missing. simpl. intros [[H|H]|[[H|H]|[H|H]]]; discriminate.
    + reflexivity.
    + exists "abc". simpl. split; [reflexivity | lia].
Defined.

(** ** The storage primitives *)

Section Storage.
Context {C : Crypto}.

Lemma save_clean (env : Env) (d : Doc) (w : World) :
  isModified "password" d = false ->
  (doc_id d < length (docs w))%nat ->
  save env d w
  = (Ok tt, mkWorld (<[doc_id d := stamp env d]> (docs w))
              (ops w ++ [OpSave (doc_id d)]) (console w)).
Proof.
  intros Hm Hlt. unfold save, bind, await, pre_save. rewrite Hm. simpl.
  apply Nat.ltb_lt in Hlt. rewrite Hlt. reflexivity.
Qed.

Lemma save_hashes (env : Env) (d : Doc) (w : World) (salt hashed : string) :
  isModified "password" d = true ->
  bcrypt_genSalt 12 (entropy env) = Ok salt ->
  bcrypt_hash (password (data d)) salt = Ok hashed ->
  (doc_id d < length (docs w))%nat ->
  save env d w
  = (Ok tt,
     mkWorld (<[doc_id d := stamp env (mkDoc (doc_id d) (with_password hashed (data d))
                                          (modifiedPaths d))]> (docs w))
       (ops w ++ [OpSave (doc_id d)]) (console w)).
Proof.
  intros Hm Hs Hh Hlt. unfold save, bind, await, pre_save.
  rewrite Hm, Hs, Hh. simpl. apply Nat.ltb_lt in Hlt. rewrite Hlt. reflexivity.
Qed.

Lemma save_hash_failure (env : Env) (d : Doc) (w : World) (e : string) :
  isModified "password" d = true ->
  bcrypt_genSalt 12 (entropy env) = Throw e
  \/ (exists salt, bcrypt_genSalt 12 (entropy env) = Ok salt
                   /\ bcrypt_hash (password (data d)) salt = Throw e) ->
  save env d w = (Throw e, w).
Proof.
  intros Hm [Hs | (salt & Hs & Hh)]; unfold save, bind, await, pre_save;
    rewrite Hm, Hs; simpl; [|rewrite Hh]; reflexivity.
Qed.

Lemma assign_changed (path : string) (f : User -> User) (d : Doc) :
  f (data d) <> data d ->
  assign path f d = mkDoc (doc_id d) (f (data d)) (path :: modifiedPaths d).
Proof. intros H. unfold assign. now rewrite bool_decide_eq_false_2. Qed.

Lemma assign_unchanged (path : string) (f : User -> User) (d : Doc) :
  f (data d) = data d ->
  assign path f d = mkDoc (doc_id d) (f (data d)) (modifiedPaths d).
Proof. intros H. unfold assign. now rewrite bool_decide_eq_true_2. Qed.

Lemma assign_data (path : string) (f : User -> User) (d : Doc) :
  data (assign path f d) = f (data d) /\ doc_id (assign path f d) = doc_id d.
Proof. split; reflexivity. Qed.

Lemma isModified_assign (path other : string) (f : User -> User) (d : Doc) :
  isModified path (assign other f d)
  = (negb (bool_decide (f (data d) = data d)) && String.eqb path other)
    || isModified path d.
Proof.
  unfold assign, isModified. cbn [modifiedPaths].
  destruct (bool_decide (f (data d) = data d)); reflexivity.
Qed.

Lemma with_password_same (p : string) (u : User) :
  with_password p u = u <-> p = password u.
Proof. destruct u. cbn. split; [intros [= ->] | intros ->]; reflexivity. Qed.

Lemma token_assigned (h : string) (u : User) :
  bool_decide (with_resetPasswordToken (Some h) u = u) = stores h u.
Proof.
  destruct u as [n e p a f tok ex ll c up]. unfold stores. cbn.
  destruct tok as [h'|]; [|now rewrite bool_decide_eq_false_2].
  destruct (String.eqb h' h) eqn:E.
  - apply String.eqb_eq in E. subst. now rewrite bool_decide_eq_true_2.
  - apply String.eqb_neq in E. rewrite bool_decide_eq_false_2; [reflexivity|].
    intros [= ->]. now apply E.
Qed.

Lemma expiry_assigned (e : Z) (u : User) :
  bool_decide (with_resetPasswordExpires (Some e) u = u) = expires_at e u.
Proof.
  destruct u as [n em p a f tok ex ll c up]. unfold expires_at. cbn.
  destruct ex as [e'|]; [|now rewrite bool_decide_eq_false_2].
  destruct (Z.eqb e' e) eqn:E.
  - apply Z.eqb_eq in E. subst. now rewrite bool_decide_eq_true_2.
  - apply Z.eqb_neq in E. rewrite bool_decide_eq_false_2; [reflexivity|].
    intros [= ->]. now apply E.
Qed.

(** The document that the reset route saves, for an account that holds a
    token: its fields, and that the password counts as modified exactly
    when the new one differs from the stored string. *)
Lemma reset_document (env : Env) (i : nat) (u : User) (p : string) :
  resetPasswordToken u <> None ->
  let d := assign "lastLoginAt" (with_lastLoginAt (Some (now env)))
             (clearPasswordResetToken
                (assign "isFirstLogin" (with_isFirstLogin false)
                   (assign "password" (with_password p) (hydrate i u)))) in
  doc_id d = i
  /\ isModified "password" d = negb (String.eqb p (password u))
  /\ password (data d) = p
  /\ forall q, stamp env (mkDoc (doc_id d) (with_password q (data d)) (modifiedPaths d))
               = reset_to q (now env) u.
Proof.
  intros Htok d.
  assert (Hmod : modifiedPaths d <> []).
  { unfold d, clearPasswordResetToken.
    set (d2 := assign "isFirstLogin" _ _).
    assert (H1 : with_resetPasswordToken None (data d2) <> data d2).
    { intros H. apply (f_equal resetPasswordToken) in H.
      unfold d2, assign in H. cbn in H. congruence. }
    rewrite (assign_changed "resetPasswordToken" _ d2 H1).
    unfold assign. cbn [modifiedPaths data doc_id].
    repeat case_bool_decide; discriminate. }
  split; [reflexivity|]. split; [|split; [reflexivity|]].
  - unfold d, clearPasswordResetToken. rewrite !isModified_assign. cbn [data hydrate].
    unfold isModified. cbn [modifiedPaths hydrate existsb].
    rewrite !andb_false_r, !orb_false_l, orb_false_r, andb_true_r.
    destruct (String.eqb p (password u)) eqn:E.
    + apply String.eqb_eq in E. rewrite bool_decide_eq_true_2; [reflexivity|].
      now apply with_password_same.
    + apply String.eqb_neq in E. rewrite bool_decide_eq_false_2; [reflexivity|].
      now rewrite with_password_same.
  - intros q. unfold stamp. cbn [modifiedPaths].
    destruct (modifiedPaths d) as [|x l]; [congruence|]. reflexivity.
Qed.

(** The document that an issue saves: the password is not modified, and
    the record written is [issued_to]. *)
Lemma issued_document (env : Env) (i : nat) (u : User) :
  let d := snd (generatePasswordResetToken env (hydrate i u)) in
  fst (generatePasswordResetToken env (hydrate i u))
  = toString_hex (randomBytes 32 (entropy env))
  /\ doc_id d = i
  /\ isModified "password" d = false
  /\ stamp env d
     = issued_to (sha256_hex (toString_hex (randomBytes 32 (entropy env)))) (now env) u.
Proof.
  cbv zeta. unfold generatePasswordResetToken. cbn [fst snd].
  set (h := sha256_hex _). split; [reflexivity|]. split; [reflexivity|]. split.
  - rewrite !isModified_assign. unfold isModified. cbn [modifiedPaths hydrate existsb].
    now rewrite !andb_false_r.
  - unfold stamp, assign. cbn [data hydrate modifiedPaths doc_id].
    change (10 * 60 * 1000) with 600000.
    rewrite token_assigned, expiry_assigned.
    unfold issued_to.
    replace (expires_at (now env + 600000) (with_resetPasswordToken (Some h) u))
      with (expires_at (now env + 600000) u) by reflexivity.
    destruct (stores h u), (expires_at (now env + 600000) u); reflexivity.
Qed.

End Storage.

(** ** The reset route, branch by branch *)

Section ResetRoute.
Context {C : Crypto}.

Lemma reset_validated (env : Env) (body : ResetPassword.Body) (w : World) (t p : string) :
  validated body t p ->
  ResetPassword.POST env body w
  = match list_find (fun u => Is_true (ResetPassword.valid_reset_token
                                         (sha256_hex t) (now env) u)) (docs w) with
    | None => (Ok (failure 400 ResetPassword.invalid_token_error), looked_up w)
    | Some (i, u) =>
        if String.eqb p (password u) then
          (Ok reset_done,
           mkWorld (<[i := reset_to p (now env) u]> (docs w))
             ((ops w ++ [OpFindOne]) ++ [OpSave i]) (console w))
        else
          match bcrypt_genSalt 12 (entropy env) with
          | Throw e => reset_failed e w
          | Ok salt =>
              match bcrypt_hash p salt with
              | Throw e => reset_failed e w
              | Ok hashed =>
                  (Ok reset_done,
                   mkWorld (<[i := reset_to hashed (now env) u]> (docs w))
                     ((ops w ++ [OpFindOne]) ++ [OpSave i]) (console w))
              end
          end
    end.
Proof.
  intros (Ht & Hne & Hp & Hc & Hlen).
  assert (Hpne : p <> "") by (intros ->; simpl in Hlen; lia).
  unfold ResetPassword.POST, try_catch, bind, connectToDatabase, ret, findOne. simpl.
  rewrite Ht, Hp, Hc. simpl.
  apply String.eqb_neq in Hne, Hpne. rewrite Hne, Hpne. simpl.
  rewrite String.eqb_refl. simpl.
  assert (Hl : (String.length p <? 6)%nat = false) by (apply Nat.ltb_ge; lia).
  rewrite Hl.
  destruct (list_find _ (docs w)) as [[i u]|] eqn:Hfind; [|reflexivity].
  apply list_find_Some in Hfind as (Hi & Hvalid & _).
  apply lookup_lt_Some in Hi.
  assert (Htok : resetPasswordToken u <> None).
  { apply Is_true_true in Hvalid. unfold ResetPassword.valid_reset_token in Hvalid.
    destruct (resetPasswordToken u); [discriminate | discriminate Hvalid]. }
  destruct (reset_document env i u p Htok) as (Hid & Hmod & Hpw & Hstamp).
  change (hydrate i u) with (hydrate (i, u).1 (i, u).2) in Hid, Hmod, Hpw, Hstamp.
  set (d := assign "lastLoginAt" _ _) in *.
  unfold save, bind, await, pre_save. rewrite Hmod, Hpw.
  destruct (String.eqb p (password u)) eqn:Epw; cbn [negb].
  - assert (Hsd : stamp env d = reset_to p (now env) u).
    { rewrite <- (Hstamp p). reflexivity. }
    cbn [docs ops console]. rewrite Hid, Hsd.
    apply Nat.ltb_lt in Hi. rewrite Hi. reflexivity.
  - destruct (bcrypt_genSalt 12 (entropy env)) as [salt|e]; [|reflexivity].
    destruct (bcrypt_hash p salt) as [hashed|e]; [|reflexivity].
    cbn [docs ops console doc_id]. rewrite (Hstamp hashed), Hid.
    apply Nat.ltb_lt in Hi. rewrite Hi. reflexivity.
Qed.

(** A request that is not validated is answered 400 without a lookup. *)
Lemma reset_not_validated (env : Env) (body : ResetPassword.Body) (w : World) :
  (forall t p, ~ validated body t p) ->
  exists reason, ResetPassword.POST env body w = (Ok (failure 400 reason), w).
Proof.
  intros Hnv.
  unfold ResetPassword.POST, try_catch, bind, connectToDatabase, ret. simpl.
  destruct (truthy (ResetPassword.body_token body)) eqn:Et; simpl; [|eauto].
  destruct (truthy (ResetPassword.body_password body)) eqn:Ep; simpl; [|eauto].
  destruct (truthy (ResetPassword.body_confirmPassword body)) eqn:Ec; simpl; [|eauto].
  apply truthy_true in Et as (t & Et & Hne).
  apply truthy_true in Ep as (p & Ep & _).
  apply truthy_true in Ec as (c & Ec & _).
  rewrite Ep, Ec. simpl.
  destruct (String.eqb p c) eqn:Epc; simpl; [|eauto].
  apply String.eqb_eq in Epc as <-.
  destruct (String.length p <? 6)%nat eqn:El; [eauto|].
  apply Nat.ltb_ge in El. exfalso. apply (Hnv t p). unfold validated. auto.
Qed.

Lemma validated_dec (body : ResetPassword.Body) :
  (exists t p, validated body t p) \/ (forall t p, ~ validated body t p).
Proof.
  destruct body as [[t|] [p|] [c|]]; unfold validated; simpl;
    try (right; intros t' p' (H1 & _ & H2 & H3 & _); discriminate).
  destruct (decide (t = "")) as [->|Ht].
  { right. intros t' p' ([= <-] & H & _). congruence. }
  destruct (decide (p = c)) as [<-|Hpc].
  2:{ right. intros t' p' (_ & _ & [= <-] & [= <-] & _). congruence. }
  destruct (le_lt_dec 6 (String.length p)) as [Hl|Hl].
  - left. exists t, p. auto.
  - right. intros t' p' (_ & _ & [= <-] & _ & H). lia.
Qed.

End ResetRoute.

(** ** Counting the holders of a hash *)

Lemma holders_cons (h : string) (u : User) (us : list User) :
  holders h (u :: us) = ((if stores h u then 1 else 0) + holders h us)%nat.
Proof. unfold holders. simpl. destruct (stores h u); reflexivity. Qed.

Lemma holders_insert (h : string) (us : list User) (i : nat) (u v : User) :
  us !! i = Some u ->
  (holders h (<[i := v]> us) + (if stores h u then 1 else 0)
   = holders h us + (if stores h v then 1 else 0))%nat.
Proof.
  revert i. induction us as [|x us IH]; intros [|i] Hi; simpl in Hi; try discriminate.
  - injection Hi as ->. simpl. rewrite !holders_cons. lia.
  - simpl. rewrite !holders_cons. specialize (IH i Hi). lia.
Qed.

Lemma holders_none (h : string) (us : list User) :
  holders h us = 0%nat <-> Forall (fun u => stores h u = false) us.
Proof.
  induction us as [|x us IH].
  - split; [constructor | reflexivity].
  - rewrite holders_cons, Forall_cons. destruct (stores h x); split.
    + discriminate.
    + intros [? _]. discriminate.
    + intros H. split; [reflexivity | now apply IH].
    + intros [_ H]. now apply IH.
Qed.

Lemma holders_unique (h : string) (us : list User) (i j : nat) (u v : User) :
  (holders h us <= 1)%nat ->
  us !! i = Some u -> stores h u = true ->
  us !! j = Some v -> stores h v = true ->
  i = j.
Proof.
  revert i j. induction us as [|x us IH]; intros [|i] [|j] Hle Hi Hu Hj Hv;
    simpl in Hi, Hj; try discriminate; rewrite holders_cons in Hle.
  - reflexivity.
  - injection Hi as ->. rewrite Hu in Hle.
    assert (H0 : holders h us = 0%nat) by lia.
    apply holders_none in H0. rewrite Forall_lookup in H0.
    specialize (H0 j v Hj). simpl in H0. congruence.
  - injection Hj as ->. rewrite Hv in Hle.
    assert (H0 : holders h us = 0%nat) by lia.
    apply holders_none in H0. rewrite Forall_lookup in H0.
    specialize (H0 i u Hi). simpl in H0. congruence.
  - f_equal. apply IH; auto. destruct (stores h x); lia.
Qed.

Lemma valid_reset_token_spec (h : string) (t : Z) (u : User) :
  ResetPassword.valid_reset_token h t u = true
  <-> resetPasswordToken u = Some h
      /\ exists e, resetPasswordExpires u = Some e /\ t < e.
Proof.
  unfold ResetPassword.valid_reset_token.
  destruct (resetPasswordToken u) as [h'|], (resetPasswordExpires u) as [e|]; simpl.
  - rewrite andb_true_iff, String.eqb_eq, Z.ltb_lt. split.
    + intros [-> H]. split; [reflexivity | eauto].
    + intros ([= ->] & e' & [= <-] & H). auto.
  - rewrite andb_false_r. split; [discriminate | intros (_ & e & H & _); discriminate].
  - split; [discriminate | intros (H & _); discriminate].
  - split; [discriminate | intros (H & _); discriminate].
Qed.

Lemma valid_reset_token_stores (h : string) (t : Z) (u : User) :
  ResetPassword.valid_reset_token h t u = true -> stores h u = true.
Proof.
  intros (H & _)%valid_reset_token_spec. unfold stores. rewrite H.
  apply String.eqb_refl.
Qed.

(** Nobody holds the hash: the lookup of the reset route finds nothing. *)
Lemma no_holder_no_match (h : string) (t : Z) (us : list User) :
  holders h us = 0%nat ->
  list_find (fun u => Is_true (ResetPassword.valid_reset_token h t u)) us = None.
Proof.
  intros H%holders_none. apply list_find_None.
  eapply Forall_impl; [exact H|]. intros u Hu Hv.
  apply Is_true_true, valid_reset_token_stores in Hv. congruence.
Qed.

(** ** A successful reset *)

Section ResetSuccess.
Context {C : Crypto}.

(** What a success of the reset route tells: the body was validated, the
    lookup found an account, the hashing went through, and the world
    differs by one lookup and one save of that account. *)
Lemma reset_success_inv (env : Env) (body : ResetPassword.Body) (w w' : World) (r : Response) :
  ResetPassword.POST env body w = (Ok r, w') ->
  success r = true ->
  exists t p i u stored,
    validated body t p
    /\ list_find (fun u => Is_true (ResetPassword.valid_reset_token
                                      (sha256_hex t) (now env) u)) (docs w) = Some (i, u)
    /\ ((p = password u /\ stored = p)
        \/ (p <> password u
            /\ exists salt, bcrypt_genSalt 12 (entropy env) = Ok salt
                            /\ bcrypt_hash p salt = Ok stored))
    /\ r = reset_done
    /\ w' = mkWorld (<[i := reset_to stored (now env) u]> (docs w))
              ((ops w ++ [OpFindOne]) ++ [OpSave i]) (console w).
Proof.
  intros HP Hs.
  destruct (validated_dec body) as [(t & p & Hv) | Hnv].
  2:{ destruct (reset_not_validated env body w Hnv) as (reason & E).
      rewrite E in HP. injection HP as <- <-. discriminate. }
  rewrite (reset_validated env body w t p Hv) in HP.
  exists t, p.
  destruct (list_find _ (docs w)) as [[i u]|].
  2:{ injection HP as <- <-. discriminate. }
  exists i, u.
  destruct (String.eqb p (password u)) eqn:Epw.
  { apply String.eqb_eq in Epw. injection HP as <- <-. exists p. auto 10. }
  apply String.eqb_neq in Epw.
  destruct (bcrypt_genSalt 12 (entropy env)) as [salt|e].
  2:{ injection HP as <- <-. discriminate. }
  destruct (bcrypt_hash p salt) as [hashed|e] eqn:Hh.
  2:{ injection HP as <- <-. discriminate. }
  injection HP as <- <-. exists hashed. eauto 10.
Qed.

(** C5, as amended: when [POST /reset-password] succeeds, the body passed
    the checks, the matched account held the presented token unexpired, and
    the world changed by exactly one lookup followed by one save of that
    account; the saved record has [isFirstLogin] false, no reset-token hash
    and no expiry, and [lastLoginAt] at the instant of the request. When the
    new password differs from the string the account stored, the save
    hashes it and the record holds its bcrypt hash (cost 12); when it is
    that very string, the password is not modified, the hook does not hash,
    and the record keeps the stored string. Identity and activation are as
    before, and no other account changes. *)
Theorem reset_password_updates_in_one_save
    (env : Env) (body : ResetPassword.Body) (w w' : World) (r : Response) :
  ResetPassword.POST env body w = (Ok r, w') ->
  success r = true ->
  exists t p i u u',
    validated body t p
    /\ docs w !! i = Some u
    /\ ResetPassword.valid_reset_token (sha256_hex t) (now env) u = true
    /\ ops w' = (ops w ++ [OpFindOne; OpSave i])%list
    /\ docs w' !! i = Some u'
    /\ (forall j, j <> i -> docs w' !! j = docs w !! j)
    /\ isFirstLogin u' = false
    /\ (p <> password u ->
        exists salt hashed,
          bcrypt_genSalt 12 (entropy env) = Ok salt
          /\ bcrypt_hash p salt = Ok hashed
          /\ password u' = hashed)
    /\ (p = password u -> password u' = password u)
    /\ resetPasswordToken u' = None
    /\ resetPasswordExpires u' = None
    /\ lastLoginAt u' = Some (now env)
    /\ name u' = name u /\ email u' = email u /\ isActive u' = isActive u.
Proof.
  intros HP Hs.
  destruct (reset_success_inv env body w w' r HP Hs)
    as (t & p & i & u & stored & Hv & Hf & Hsec & _ & ->).
  apply list_find_Some in Hf as (Hi & Hvalid & _).
  exists t, p, i, u, (reset_to stored (now env) u). simpl.
  repeat match goal with |- _ /\ _ => split end; try reflexivity; try assumption.
  - now apply Is_true_true.
  - now rewrite <- app_assoc.
  - apply list_lookup_insert_eq. eapply lookup_lt_Some, Hi.
  - intros j Hj. apply list_lookup_insert_ne. congruence.
  - intros Hne. destruct Hsec as [(Heq & _) | (_ & salt & Hsalt & Hh)]; [contradiction|].
    exists salt, stored. auto.
  - intros Heq. destruct Hsec as [(_ & ->) | (Hne & _)]; [assumption | contradiction].
Qed.

(** C1: a reset token is used up by the reset it completes. When
    [POST /reset-password] succeeds with token [t], the matched account
    loses hash and expiry in the one save of that request. If at most one
    account stored the hash of [t], no account stores it afterwards, so
    any later request presenting [t] fails: it is never a success and never
    changes the collection, and with well-formed passwords (in particular
    as a replay of the same body) the answer is status 400 with
    'Invalid or expired reset token'. *)
Theorem reset_token_single_use
    (env : Env) (body : ResetPassword.Body) (w w1 : World) (r : Response) (t : string) :
  ResetPassword.POST env body w = (Ok r, w1) ->
  success r = true ->
  ResetPassword.body_token body = Some t ->
  (holders (sha256_hex t) (docs w) <= 1)%nat ->
  (exists i u u',
      docs w !! i = Some u /\ stores (sha256_hex t) u = true
      /\ docs w1 !! i = Some u'
      /\ resetPasswordToken u' = None /\ resetPasswordExpires u' = None
      /\ ops w1 = (ops w ++ [OpFindOne; OpSave i])%list)
  /\ holders (sha256_hex t) (docs w1) = 0%nat
  /\ (forall env2,
        ResetPassword.POST env2 body w1
        = (Ok (mkResponse 400 false None (Some "Invalid or expired reset token") None),
           looked_up w1))
  /\ (forall env2 body2,
        ResetPassword.body_token body2 = Some t ->
        (exists r2, fst (ResetPassword.POST env2 body2 w1) = Ok r2
                    /\ success r2 = false /\ status r2 = 400)
        /\ docs (snd (ResetPassword.POST env2 body2 w1)) = docs w1
        /\ (forall p2, validated body2 t p2 ->
              fst (ResetPassword.POST env2 body2 w1)
              = Ok (failure 400 ResetPassword.invalid_token_error))).
Proof.
  intros HP Hs Ht Hle.
  destruct (reset_success_inv env body w w1 r HP Hs)
    as (t' & p & i & u & hashed & Hv & Hf & _ & _ & Hw1).
  assert (t' = t) as -> by (destruct Hv as (Ht' & _); congruence).
  apply list_find_Some in Hf as (Hi & Hvalid & _).
  apply Is_true_true, valid_reset_token_stores in Hvalid.
  assert (Hdocs : docs w1 = <[i := reset_to hashed (now env) u]> (docs w))
    by (rewrite Hw1; reflexivity).
  assert (H0 : holders (sha256_hex t) (docs w1) = 0%nat).
  { pose proof (holders_insert (sha256_hex t) (docs w) i u
                  (reset_to hashed (now env) u) Hi) as H.
    rewrite Hvalid in H. simpl in H. rewrite Hdocs. lia. }
  assert (Hreplay : forall env2 body2 p2, validated body2 t p2 ->
            ResetPassword.POST env2 body2 w1
            = (Ok (failure 400 ResetPassword.invalid_token_error), looked_up w1)).
  { intros env2 body2 p2 Hv2. rewrite (reset_validated env2 body2 w1 t p2 Hv2).
    now rewrite (no_holder_no_match _ _ _ H0). }
  split; [|split; [|split]].
  - exists i, u, (reset_to hashed (now env) u). rewrite Hdocs.
    repeat match goal with |- _ /\ _ => split end; try reflexivity; try assumption.
    + apply list_lookup_insert_eq. eapply lookup_lt_Some, Hi.
    + rewrite Hw1. simpl. now rewrite <- app_assoc.
  - exact H0.
  - intros env2. apply (Hreplay env2 body p Hv).
  - intros env2 body2 Ht2.
    destruct (validated_dec body2) as [(t2 & p2 & Hv2) | Hnv].
    + assert (t2 = t) as -> by (destruct Hv2 as (Ht' & _); congruence).
      rewrite (Hreplay env2 body2 p2 Hv2). simpl.
      split; [eexists; repeat split; reflexivity|]. split; [reflexivity|].
      intros _ _. reflexivity.
    + destruct (reset_not_validated env2 body2 w1 Hnv) as (reason & ->). simpl.
      split; [eexists; repeat split; reflexivity|]. split; [reflexivity|].
      intros p2 Hv2. destruct (Hnv t p2 Hv2).
Qed.

End ResetSuccess.

Lemma reset_password_updates_in_one_save_witness :
  exists t p i u u',
    validated (reset_body zeros_token "newpass1") t p
    /\ [alice_pending] !! i = Some u
    /\ ResetPassword.valid_reset_token (sha256_hex (Crypto := sample_crypto) t) 5000 u = true
    /\ [OpFindOne; OpSave 0] = ([] ++ [OpFindOne; OpSave i])%list
    /\ [alice_reset] !! i = Some u'
    /\ (forall j, j <> i -> [alice_reset] !! j = [alice_pending] !! j)
    /\ isFirstLogin u' = false
    /\ (p <> password u ->
        exists salt hashed,
          bcrypt_genSalt (Crypto := sample_crypto) 12 zeros = Ok salt
          /\ bcrypt_hash (Crypto := sample_crypto) p salt = Ok hashed
          /\ password u' = hashed)
    /\ (p = password u -> password u' = password u)
    /\ resetPasswordToken u' = None
    /\ resetPasswordExpires u' = None
    /\ lastLoginAt u' = Some 5000
    /\ name u' = name u /\ email u' = email u /\ isActive u' = isActive u.
Proof.
  apply (reset_password_updates_in_one_save (C := sample_crypto)
           (sample_env None 5000 zeros) (reset_body zeros_token "newpass1")
           (world_of [alice_pending])
           (mkWorld [alice_reset] [OpFindOne; OpSave 0%nat] []) reset_done).
  - vm_compute. reflexivity.
  - reflexivity.
Defined.

(** C5, as stated, fails when the new password is the string that the
    account already stores: the password is then not modified, the hook
    does not hash (here every hashing would throw, and the route still
    answers a success), and the record keeps the string as it was. *)
Lemma reset_password_same_secret_not_rehashed :
  let env := sample_env None 5000 zeros in
  let body := reset_body zeros_token "$2a$12$salt.hunter2x" in
  password alice_pending = "$2a$12$salt.hunter2x"
  /\ (forall p salt, bcrypt_hash (Crypto := failing_crypto) p salt
                     = Throw "bcrypt: hashing failed")
  /\ ResetPassword.POST (C := failing_crypto) env body (world_of [alice_pending])
     = (Ok reset_done,
        mkWorld [reset_to "$2a$12$salt.hunter2x" 5000 alice_pending]
          [OpFindOne; OpSave 0%nat] [])
  /\ ~ (exists salt hashed,
          bcrypt_genSalt (Crypto := failing_crypto) 12 zeros = Ok salt
          /\ bcrypt_hash (Crypto := failing_crypto) "$2a$12$salt.hunter2x" salt = Ok hashed).
Proof.
  split; [reflexivity|]. split; [reflexivity|]. split; [vm_compute; reflexivity|].
  intros (salt & hashed & _ & H). discriminate H.
Qed.

Lemma reset_token_single_use_witness :
  ResetPassword.POST (C := sample_crypto) (sample_env None 6000 zeros)
    (reset_body zeros_token "newpass1")
    (mkWorld [alice_reset] [OpFindOne; OpSave 0%nat] [])
  = (Ok (failure 400 "Invalid or expired reset token"),
     mkWorld [alice_reset] [OpFindOne; OpSave 0%nat; OpFindOne] []).
Proof.
  apply (reset_token_single_use (C := sample_crypto)
           (sample_env None 5000 zeros) (reset_body zeros_token "newpass1")
           (world_of [alice_pending])
           (mkWorld [alice_reset] [OpFindOne; OpSave 0%nat] []) reset_done zeros_token).
  - vm_compute. reflexivity.
  - reflexivity.
  - reflexivity.
  - vm_compute. lia.
Defined.

(** ** The forgot-password route, branch by branch *)

Section ForgotRoute.
Context {C : Crypto}.

Lemma forgot_with_email (env : Env) (body : ForgotPassword.Body) (w : World) (e : string) :
  ForgotPassword.body_email body = Some e -> e <> "" ->
  ForgotPassword.POST env body w
  = match list_find (fun u => Is_true (String.eqb (email u) (toLowerCase e))) (docs w) with
    | None => (Ok ForgotPassword.generic, looked_up w)
    | Some (i, u) =>
        if isActive u then
          (Ok (issued_answer env (token_of env)),
           mkWorld (<[i := issued_to (sha256_hex (token_of env)) (now env) u]> (docs w))
             ((ops w ++ [OpFindOne]) ++ [OpSave i])
             (console w ++ ["Password reset token for " ++ e ++ " : " ++ token_of env]))
        else (Ok ForgotPassword.generic, looked_up w)
    end.
Proof.
  intros He Hne.
  unfold ForgotPassword.POST, try_catch, bind, connectToDatabase, ret, findOne.
  cbn -[generatePasswordResetToken save Nat.ltb toString_hex token_of].
  rewrite He. cbn -[generatePasswordResetToken save Nat.ltb toString_hex token_of].
  apply String.eqb_neq in Hne. rewrite Hne. cbn -[generatePasswordResetToken save Nat.ltb toString_hex token_of].
  destruct (list_find _ (docs w)) as [[i u]|] eqn:Hfind; [|reflexivity].
  apply list_find_Some in Hfind as (Hi & _ & _). apply lookup_lt_Some in Hi.
  cbn -[generatePasswordResetToken save Nat.ltb toString_hex token_of]. destruct (isActive u); [|reflexivity].
  cbn -[generatePasswordResetToken save Nat.ltb toString_hex token_of].
  destruct (issued_document env i u) as (Htok & Hid & Hmod & Hstamp).
  destruct (generatePasswordResetToken env (hydrate i u)) as [tok d].
  cbn [fst snd] in Htok, Hid, Hmod, Hstamp. subst tok.
  unfold save, bind, await, pre_save, console_log. rewrite Hmod.
  cbn [negb docs ops console]. rewrite Hid, Hstamp.
  apply Nat.ltb_lt in Hi. rewrite Hi. reflexivity.
Qed.

Lemma forgot_without_email (env : Env) (body : ForgotPassword.Body) (w : World) :
  missing (ForgotPassword.body_email body) ->
  ForgotPassword.POST env body w = (Ok (failure 400 "Email is required"), w).
Proof.
  intros H%truthy_false.
  unfold ForgotPassword.POST, try_catch, bind, connectToDatabase, ret. simpl.
  now rewrite H.
Qed.

(** The collection after a request: as before, or with a token issued to
    one account. *)
Lemma forgot_docs (env : Env) (body : ForgotPassword.Body) (w : World) :
  docs (snd (ForgotPassword.POST env body w)) = docs w
  \/ exists i u, docs w !! i = Some u
       /\ docs (snd (ForgotPassword.POST env body w))
          = <[i := issued_to (sha256_hex (token_of env)) (now env) u]> (docs w).
Proof.
  destruct (missing_dec (ForgotPassword.body_email body)) as [Hm|Hm].
  { rewrite (forgot_without_email env body w Hm). now left. }
  destruct (ForgotPassword.body_email body) as [e|] eqn:He.
  2:{ destruct Hm. now left. }
  assert (Hne : e <> "") by (intros ->; apply Hm; now right).
  rewrite (forgot_with_email env body w e He Hne).
  destruct (list_find _ (docs w)) as [[i u]|] eqn:Hfind; [|now left].
  apply list_find_Some in Hfind as (Hi & _ & _).
  destruct (isActive u); [|now left].
  right. exists i, u. auto.
Qed.

(** The collection after a reset request: as before, or with one account
    reset. *)
Lemma reset_docs (env : Env) (body : ResetPassword.Body) (w : World) :
  docs (snd (ResetPassword.POST env body w)) = docs w
  \/ exists i u hashed, docs w !! i = Some u
       /\ docs (snd (ResetPassword.POST env body w))
          = <[i := reset_to hashed (now env) u]> (docs w).
Proof.
  destruct (validated_dec body) as [(t & p & Hv) | Hnv].
  2:{ destruct (reset_not_validated env body w Hnv) as (reason & ->). now left. }
  rewrite (reset_validated env body w t p Hv).
  destruct (list_find _ (docs w)) as [[i u]|] eqn:Hfind; [|now left].
  apply list_find_Some in Hfind as (Hi & _ & _).
  destruct (String.eqb p (password u)); [right; exists i, u, p; auto|].
  destruct (bcrypt_genSalt 12 (entropy env)) as [salt|e]; [|now left].
  destruct (bcrypt_hash p salt) as [hashed|e]; [|now left].
  right. exists i, u, hashed. auto.
Qed.

(** A property of accounts that issuing and resetting keep holds of the
    whole collection after any request. *)
Lemma handle_Forall (P : User -> Prop) (r : Request) (w : World) :
  (forall h t u, issues r = Some h -> P u -> P (issued_to h t u)) ->
  (forall hashed t u, P u -> P (reset_to hashed t u)) ->
  Forall P (docs w) ->
  Forall P (docs (snd (handle r w))).
Proof.
  intros Hissue Hreset HP. destruct r as [env body | env body]; simpl.
  - destruct (forgot_docs env body w) as [-> | (i & u & Hi & ->)]; [exact HP|].
    apply Forall_insert; [exact HP|]. apply Hissue; [reflexivity|].
    rewrite Forall_lookup in HP. exact (HP i u Hi).
  - destruct (reset_docs env body w) as [-> | (i & u & hashed & Hi & ->)]; [exact HP|].
    apply Forall_insert; [exact HP|]. apply Hreset.
    rewrite Forall_lookup in HP. exact (HP i u Hi).
Qed.

End ForgotRoute.

(** ** What the caller of the forgot-password route can tell *)

Section Enumeration.
Context {C : Crypto}.


End Enumeration.



(** ** Expiry of a reset token *)

Section Expiry.
Context {C : Crypto}.

Lemma valid_issued (h : string) (t t2 : Z) (u : User) :
  ResetPassword.valid_reset_token h t2 (issued_to h t u) = (t2 <? t + 600000).
Proof.
  unfold ResetPassword.valid_reset_token. simpl. now rewrite String.eqb_refl.
Qed.

(** C2: the forgot-password route issues a token to an active account at
    instant [T]; the account then stores the hash of the token and the
    expiry [T + 10 * 60 * 1000]. The lookup of the reset route selects an
    account exactly when its stored hash is the SHA-256 of the presented
    token and its stored expiry is after the instant of the request. So a
    well-formed reset presenting the token before [T + 10min] is not
    rejected as invalid, and succeeds when the hashing does; one at
    [T + 10min] or later is rejected with 'Invalid or expired reset token',
    given that no other account stores the same hash. *)
Theorem reset_token_valid_for_ten_minutes
    (env : Env) (body : ForgotPassword.Body) (w : World) (e : string) (i : nat) (u : User) :
  ForgotPassword.body_email body = Some e -> e <> "" ->
  list_find (fun v => Is_true (String.eqb (email v) (toLowerCase e))) (docs w) = Some (i, u) ->
  isActive u = true ->
  let T := now env in
  let tok := toString_hex (randomBytes 32 (entropy env)) in
  let w1 := snd (ForgotPassword.POST env body w) in
  (forall d, resetPasswordExpires (data (snd (generatePasswordResetToken env d)))
             = Some (T + 10 * 60 * 1000))
  /\ (exists u1, docs w1 !! i = Some u1
        /\ resetPasswordToken u1 = Some (sha256_hex tok)
        /\ resetPasswordExpires u1 = Some (T + 10 * 60 * 1000))
  /\ (forall h t v,
        ResetPassword.valid_reset_token h t v = true
        <-> resetPasswordToken v = Some h
            /\ exists x, resetPasswordExpires v = Some x /\ t < x)
  /\ (forall env2 body2 p2,
        validated body2 tok p2 ->
        (now env2 < T + 10 * 60 * 1000 ->
           fst (ResetPassword.POST env2 body2 w1)
           <> Ok (failure 400 "Invalid or expired reset token")
           /\ (forall salt hashed,
                 bcrypt_genSalt 12 (entropy env2) = Ok salt ->
                 bcrypt_hash p2 salt = Ok hashed ->
                 fst (ResetPassword.POST env2 body2 w1) = Ok reset_done))
        /\ (T + 10 * 60 * 1000 <= now env2 ->
            (holders (sha256_hex tok) (docs w1) <= 1)%nat ->
            ResetPassword.POST env2 body2 w1
            = (Ok (failure 400 "Invalid or expired reset token"), looked_up w1))).
Proof.
  intros He Hne Hfind Hact T tok w1.
  assert (Hi : docs w !! i = Some u) by (apply list_find_Some in Hfind; tauto).
  assert (Hw1 : docs w1 !! i = Some (issued_to (sha256_hex tok) T u)).
  { unfold w1. rewrite (forgot_with_email env body w e He Hne), Hfind, Hact. simpl.
    apply list_lookup_insert_eq. eapply lookup_lt_Some, Hi. }
  split; [reflexivity|]. split.
  { eexists. split; [exact Hw1|]. split; reflexivity. }
  split; [apply valid_reset_token_spec|].
  intros env2 body2 p2 Hv. rewrite (reset_validated env2 body2 w1 tok p2 Hv). split.
  - intros Hlt.
    assert (Hsome : is_Some (list_find
              (fun v => Is_true (ResetPassword.valid_reset_token (sha256_hex tok) (now env2) v))
              (docs w1))).
    { eapply list_find_elem_of; [eapply list_elem_of_lookup_2, Hw1|].
      rewrite valid_issued. apply Is_true_true, Z.ltb_lt. lia. }
    destruct Hsome as [[j v] ->].
    destruct (String.eqb p2 (password v)); [split; [discriminate | reflexivity]|].
    split.
    + destruct (bcrypt_genSalt 12 (entropy env2)) as [salt|x]; [|discriminate].
      destruct (bcrypt_hash p2 salt) as [hashed|x]; discriminate.
    + intros salt hashed -> ->. reflexivity.
  - intros Hge Hle.
    replace (list_find _ (docs w1)) with (@None (nat * User)); [reflexivity|].
    symmetry. apply list_find_None, Forall_lookup. intros j v Hj Hv'.
    apply Is_true_true in Hv'.
    assert (j = i) as ->.
    { eapply (holders_unique (sha256_hex tok) (docs w1)); eauto.
      - now apply valid_reset_token_stores in Hv'.
      - unfold stores. simpl. apply String.eqb_refl. }
    rewrite Hw1 in Hj. injection Hj as <-.
    rewrite valid_issued in Hv'. apply Z.ltb_lt in Hv'. lia.
Qed.

End Expiry.

Lemma reset_token_valid_for_ten_minutes_witness :
  let T := 1000 in
  let w1 := snd (ForgotPassword.POST (C := sample_crypto) (sample_env None T zeros)
                   (ForgotPassword.mkBody (Some "alice@x.com")) (world_of [alice])) in
  let present t :=
    fst (ResetPassword.POST (C := sample_crypto) (sample_env None t zeros)
           (reset_body zeros_token "newpass1") w1) in
  present (T + 9 * 60 * 1000) = Ok reset_done
  /\ present (T + 10 * 60 * 1000) = Ok (failure 400 "Invalid or expired reset token")
  /\ present (T + 10 * 60 * 1000 + 1000) = Ok (failure 400 "Invalid or expired reset token").
Proof.
  intros T w1 present.
  pose proof (reset_token_valid_for_ten_minutes (C := sample_crypto)
                (sample_env None T zeros) (ForgotPassword.mkBody (Some "alice@x.com"))
                (world_of [alice]) "alice@x.com" 0%nat alice
                eq_refl ltac:(discriminate) eq_refl eq_refl) as (_ & _ & _ & H).
  assert (Hv : validated (reset_body zeros_token "newpass1") zeros_token "newpass1").
  { unfold validated. simpl. repeat split; try discriminate. lia. }
  split; [|split].
  - destruct (H (sample_env None (T + 9 * 60 * 1000) zeros) _ _ Hv) as [Hin _].
    destruct Hin as [_ Hok]; [vm_compute; reflexivity|].
    apply (Hok "$2a$12$salt" "$2a$12$salt.newpass1"); reflexivity.
  - destruct (H (sample_env None (T + 10 * 60 * 1000) zeros) _ _ Hv) as [_ Hout].
    unfold present, w1. rewrite Hout; [reflexivity | vm_compute; discriminate | vm_compute; lia].
  - destruct (H (sample_env None (T + 10 * 60 * 1000 + 1000) zeros) _ _ Hv) as [_ Hout].
    unfold present, w1. rewrite Hout; [reflexivity | vm_compute; discriminate | vm_compute; lia].
Defined.

(** ** Histories: what every request preserves *)

Section Invariants.
Context {C : Crypto}.

Lemma run_cons (r : Request) (rs : list Request) (w : World) :
  run (r :: rs) w = run rs (snd (handle r w)).
Proof. reflexivity. Qed.

Lemma run_no_holder (h : string) (rs : list Request) (w : World) :
  never_issues h rs = true ->
  holders h (docs w) = 0%nat ->
  holders h (docs (run rs w)) = 0%nat.
Proof.
  revert w. induction rs as [|r rs IH]; intros w Hn H0; [exact H0|].
  simpl in Hn. apply andb_true_iff in Hn as [Hr Hrs].
  rewrite run_cons. apply IH; [exact Hrs|].
  apply holders_none. apply handle_Forall.
  - intros h' t u Hh' _. rewrite Hh' in Hr. unfold stores. simpl.
    now apply negb_true_iff in Hr.
  - intros hashed t u _. reflexivity.
  - now apply holders_none.
Qed.

Lemma run_paired (rs : list Request) (w : World) :
  Forall (fun u => token_fields_paired u = true) (docs w) ->
  Forall (fun u => token_fields_paired u = true) (docs (run rs w)).
Proof.
  revert w. induction rs as [|r rs IH]; intros w H; [exact H|].
  rewrite run_cons. apply IH. apply handle_Forall; [| |exact H]; reflexivity.
Qed.

(** C9: issuing a token to an account that still holds the hash of an
    earlier token [old] replaces hash and expiry by those of the new token.
    Given that the two tokens differ in hash and that no other account
    stored the hash of [old], no account stores it afterwards, nor after
    any further requests that do not issue that hash again: a well-formed
    reset presenting [old] is then rejected with
    'Invalid or expired reset token', at any instant. *)
Theorem reissue_invalidates_previous_token
    (env : Env) (body : ForgotPassword.Body) (w : World)
    (e : string) (i : nat) (u : User) (old : string) :
  ForgotPassword.body_email body = Some e -> e <> "" ->
  list_find (fun v => Is_true (String.eqb (email v) (toLowerCase e))) (docs w) = Some (i, u) ->
  isActive u = true ->
  resetPasswordToken u = Some (sha256_hex old) ->
  sha256_hex (toString_hex (randomBytes 32 (entropy env))) <> sha256_hex old ->
  (holders (sha256_hex old) (docs w) <= 1)%nat ->
  let w1 := snd (ForgotPassword.POST env body w) in
  (exists u1, docs w1 !! i = Some u1
     /\ resetPasswordToken u1 = Some (sha256_hex (toString_hex (randomBytes 32 (entropy env))))
     /\ resetPasswordExpires u1 = Some (now env + 10 * 60 * 1000))
  /\ holders (sha256_hex old) (docs w1) = 0%nat
  /\ (forall rs, never_issues (sha256_hex old) rs = true ->
      forall env2 body2 p2,
        validated body2 old p2 ->
        ResetPassword.POST env2 body2 (run rs w1)
        = (Ok (failure 400 "Invalid or expired reset token"), looked_up (run rs w1))).
Proof.
  intros He Hne Hfind Hact Hold Hdiff Hle w1.
  assert (Hi : docs w !! i = Some u) by (apply list_find_Some in Hfind; tauto).
  assert (Hd : docs w1 = <[i := issued_to (sha256_hex (token_of env)) (now env) u]> (docs w)).
  { unfold w1. now rewrite (forgot_with_email env body w e He Hne), Hfind, Hact. }
  assert (H0 : holders (sha256_hex old) (docs w1) = 0%nat).
  { pose proof (holders_insert (sha256_hex old) (docs w) i u
                  (issued_to (sha256_hex (token_of env)) (now env) u) Hi) as H.
    unfold stores in H. rewrite Hold, String.eqb_refl in H. simpl in H.
    apply String.eqb_neq in Hdiff. unfold token_of in H. rewrite Hdiff in H.
    rewrite Hd. unfold token_of. lia. }
  split; [|split].
  - exists (issued_to (sha256_hex (token_of env)) (now env) u).
    split; [|split; reflexivity]. rewrite Hd.
    apply list_lookup_insert_eq. eapply lookup_lt_Some, Hi.
  - exact H0.
  - intros rs Hrs env2 body2 p2 Hv.
    rewrite (reset_validated env2 body2 (run rs w1) old p2 Hv).
    rewrite no_holder_no_match; [reflexivity|].
    now apply run_no_holder.
Qed.

End Invariants.

Lemma reissue_invalidates_previous_token_witness :
  let w1 := snd (ForgotPassword.POST (C := sample_crypto) (sample_env None 2000 ones)
                   (ForgotPassword.mkBody (Some "alice@x.com")) (world_of [alice_pending])) in
  let later := [Reset (sample_env None 2500 zeros) (reset_body "guess" "secret1");
                Forgot (sample_env None 3000 ones) (ForgotPassword.mkBody (Some "alice@x.com"))] in
  ResetPassword.POST (C := sample_crypto) (sample_env None 3500 zeros)
    (reset_body zeros_token "newpass1") (run (C := sample_crypto) later w1)
  = (Ok (failure 400 "Invalid or expired reset token"),
     looked_up (run (C := sample_crypto) later w1)).
Proof.
  intros w1 later.
  assert (Hdiff : sha256_hex (Crypto := sample_crypto)
                    (toString_hex (randomBytes 32 (entropy (sample_env None 2000 ones))))
                  <> sha256_hex (Crypto := sample_crypto) zeros_token)
    by (vm_compute; discriminate).
  assert (Hle : (holders (sha256_hex (Crypto := sample_crypto) zeros_token)
                   (docs (world_of [alice_pending])) <= 1)%nat)
    by (vm_compute; lia).
  pose proof (reissue_invalidates_previous_token (C := sample_crypto)
                (sample_env None 2000 ones) (ForgotPassword.mkBody (Some "alice@x.com"))
                (world_of [alice_pending]) "alice@x.com" 0%nat alice_pending zeros_token
                eq_refl ltac:(discriminate) eq_refl eq_refl eq_refl Hdiff Hle)
    as (_ & _ & H).
  apply (H later) with (p2 := "newpass1").
  - reflexivity.
  - unfold validated. simpl. repeat split; try discriminate. lia.
Defined.

(** ** The reset-token fields of an account *)

Lemma length_toString_hex (bs : list byte) :
  String.length (toString_hex bs) = (2 * length bs)%nat.
Proof. induction bs as [|b bs IH]; simpl; [reflexivity | rewrite IH; lia]. Qed.

Lemma length_randomBytes (n : nat) (src : Entropy) : length (randomBytes n src) = n.
Proof. unfold randomBytes. now rewrite length_map, length_seq. Qed.

Section TokenFields.
Context {C : Crypto}.

(** C7: [generatePasswordResetToken] draws 32 random bytes, returns their
    64 hexadecimal digits as the plaintext token, and changes the account
    in the two reset-token fields only: the hash becomes the SHA-256 of the
    plaintext and the expiry the current instant plus ten minutes, so both
    are present. [clearPasswordResetToken] removes both and nothing else.
    The account after an issue depends on the plaintext through its hash
    alone. And in a collection where hash and expiry of every account are
    both absent or both present, they remain so after any history of
    requests to the two routes. *)
Theorem reset_token_fields_paired :
  (forall env d,
      let '(tok, d') := generatePasswordResetToken env d in
      tok = toString_hex (randomBytes 32 (entropy env))
      /\ length (randomBytes 32 (entropy env)) = 32%nat
      /\ String.length tok = 64%nat
      /\ data d' = with_resetPasswordExpires (Some (now env + 10 * 60 * 1000))
                     (with_resetPasswordToken (Some (sha256_hex tok)) (data d))
      /\ resetPasswordToken (data d') = Some (sha256_hex tok)
      /\ resetPasswordExpires (data d') = Some (now env + 10 * 60 * 1000)
      /\ token_fields_paired (data d') = true)
  /\ (forall d,
        data (clearPasswordResetToken d)
        = with_resetPasswordExpires None (with_resetPasswordToken None (data d))
        /\ resetPasswordToken (data (clearPasswordResetToken d)) = None
        /\ resetPasswordExpires (data (clearPasswordResetToken d)) = None
        /\ token_fields_paired (data (clearPasswordResetToken d)) = true)
  /\ (forall env1 env2 d,
        now env1 = now env2 ->
        sha256_hex (fst (generatePasswordResetToken env1 d))
        = sha256_hex (fst (generatePasswordResetToken env2 d)) ->
        snd (generatePasswordResetToken env1 d) = snd (generatePasswordResetToken env2 d))
  /\ (forall rs w,
        Forall (fun u => token_fields_paired u = true) (docs w) ->
        Forall (fun u => token_fields_paired u = true) (docs (run rs w))).
Proof.
  split; [|split; [|split]].
  - intros env d. cbv beta iota zeta delta [generatePasswordResetToken].
    split; [reflexivity|]. split; [apply length_randomBytes|].
    split; [now rewrite length_toString_hex, length_randomBytes|].
    repeat split.
  - intros d. repeat split.
  - intros env1 env2 d Hnow Hhash. unfold generatePasswordResetToken in *. simpl in *.
    unfold assign. simpl. now rewrite Hnow, Hhash.
  - apply run_paired.
Qed.

End TokenFields.

Lemma reset_token_fields_paired_witness :
  Forall (fun u => token_fields_paired u = true)
    (docs (run (C := sample_crypto)
             [Forgot (sample_env None 1000 zeros) (ForgotPassword.mkBody (Some "alice@x.com"));
              Reset (sample_env None 5000 zeros) (reset_body zeros_token "newpass1");
              Forgot (sample_env None 7000 ones) (ForgotPassword.mkBody (Some "Bob@x.com"))]
             (world_of [alice; bob_inactive]))).
Proof.
  apply (reset_token_fields_paired (C := sample_crypto)).
  simpl. repeat constructor.
Defined.

(** ** Hashing on save *)

Section Hashing.
Context {C : Crypto}.

Lemma password_stamp (env : Env) (d : Doc) : password (stamp env d) = password (data d).
Proof. unfold stamp. destruct (modifiedPaths d); reflexivity. Qed.

Lemma forgot_keeps_passwords (env : Env) (body : ForgotPassword.Body) (w : World) :
  map password (docs (snd (ForgotPassword.POST env body w))) = map password (docs w).
Proof.
  destruct (forgot_docs env body w) as [-> | (i & u & Hi & ->)]; [reflexivity|].
  change (password <$> <[i := issued_to (sha256_hex (token_of env)) (now env) u]> (docs w)
          = password <$> docs w).
  rewrite list_fmap_insert. apply list_insert_id.
  rewrite list_lookup_fmap, Hi. reflexivity.
Qed.

(** C6, as amended: what a save stores as the password of a document that
    is in the collection. Assigning a password that differs from the one
    the document holds marks the password modified; assigning the string it
    already holds marks nothing. If the password is not modified, the
    stored password is the loaded one, with no hashing (as for every
    account after a forgot-password request). If it is modified, the stored
    password is the bcrypt hash of the assigned value under a salt of cost
    12; and when the salt or the hash fails, the save throws that error and
    the world is as before, so the reset route, given a password that
    differs from the stored one, answers 500 and the collection keeps the
    former secret. When bcrypt never returns its own input, the secret
    that a successful reset stores in the matched account differs from the
    submitted password if that password differs from the string stored
    before; a submitted password that is the stored string stays as it is. *)
Theorem password_hashed_on_save (env : Env) (d : Doc) (w : World) :
  (doc_id d < length (docs w))%nat ->
  (forall p,
      isModified "password" (assign "password" (with_password p) d)
      = if String.eqb p (password (data d)) then isModified "password" d else true)
  /\ (isModified "password" d = false ->
     pre_save env d = Ok d
     /\ exists w' u', save env d w = (Ok tt, w')
          /\ docs w' !! doc_id d = Some u' /\ password u' = password (data d))
  /\ (isModified "password" d = true ->
      (forall salt hashed,
          bcrypt_genSalt 12 (entropy env) = Ok salt ->
          bcrypt_hash (password (data d)) salt = Ok hashed ->
          exists w' u', save env d w = (Ok tt, w')
            /\ docs w' !! doc_id d = Some u' /\ password u' = hashed)
      /\ (forall e,
            bcrypt_genSalt 12 (entropy env) = Throw e
            \/ (exists salt, bcrypt_genSalt 12 (entropy env) = Ok salt
                  /\ bcrypt_hash (password (data d)) salt = Throw e) ->
            pre_save env d = Throw e /\ save env d w = (Throw e, w)))
  /\ (forall body, map password (docs (snd (ForgotPassword.POST env body w)))
                   = map password (docs w))
  /\ (forall body t p i u e,
        validated body t p ->
        list_find (fun v => Is_true (ResetPassword.valid_reset_token
                                       (sha256_hex t) (now env) v)) (docs w) = Some (i, u) ->
        p <> password u ->
        bcrypt_genSalt 12 (entropy env) = Throw e
        \/ (exists salt, bcrypt_genSalt 12 (entropy env) = Ok salt
              /\ bcrypt_hash p salt = Throw e) ->
        fst (ResetPassword.POST env body w) = Ok (failure 500 "Failed to reset password")
        /\ docs (snd (ResetPassword.POST env body w)) = docs w)
  /\ ((forall p salt hashed, bcrypt_hash p salt = Ok hashed -> hashed <> p) ->
      forall body t p i u r w',
        validated body t p ->
        list_find (fun v => Is_true (ResetPassword.valid_reset_token
                                       (sha256_hex t) (now env) v)) (docs w) = Some (i, u) ->
        ResetPassword.POST env body w = (Ok r, w') -> success r = true ->
        ops w' = (ops w ++ [OpFindOne; OpSave i])%list
        /\ exists u',
            docs w' !! i = Some u'
            /\ (p <> password u -> password u' <> p)
            /\ (p = password u -> password u' = p)).
Proof.
  intros Hlt. split; [|split; [|split; [|split; [|split]]]].
  - intros p. rewrite isModified_assign, String.eqb_refl, andb_true_r.
    destruct (String.eqb p (password (data d))) eqn:E.
    + apply String.eqb_eq in E. rewrite bool_decide_eq_true_2; [reflexivity|].
      now apply with_password_same.
    + apply String.eqb_neq in E. rewrite bool_decide_eq_false_2; [reflexivity|].
      now rewrite with_password_same.
  - intros Hm. split.
    + unfold pre_save. now rewrite Hm.
    + rewrite (save_clean env d w Hm Hlt). do 2 eexists. split; [reflexivity|]. simpl.
      split; [now apply list_lookup_insert_eq | apply password_stamp].
  - intros Hm. split.
    + intros salt hashed Hs Hh. rewrite (save_hashes env d w salt hashed Hm Hs Hh Hlt).
      do 2 eexists. split; [reflexivity|]. simpl.
      split; [now apply list_lookup_insert_eq | now rewrite password_stamp].
    + intros e He. split; [|now apply save_hash_failure].
      unfold pre_save. rewrite Hm. simpl.
      destruct He as [-> | (salt & -> & ->)]; reflexivity.
  - intros body. apply forgot_keeps_passwords.
  - intros body t p i u e Hv Hf Hne He.
    rewrite (reset_validated env body w t p Hv), Hf.
    apply String.eqb_neq in Hne. rewrite Hne.
    destruct He as [-> | (salt & -> & ->)]; split; reflexivity.
  - intros Hfix body t p i u r w' Hv Hf HP Hs.
    rewrite (reset_validated env body w t p Hv), Hf in HP.
    apply list_find_Some in Hf as (Hi & _ & _). apply lookup_lt_Some in Hi.
    destruct (String.eqb p (password u)) eqn:E.
    + apply String.eqb_eq in E. injection HP as <- <-. cbn [ops docs].
      split; [now rewrite <- app_assoc|].
      exists (reset_to p (now env) u).
      split; [now apply list_lookup_insert_eq|]. split; [congruence | reflexivity].
    + apply String.eqb_neq in E.
      destruct (bcrypt_genSalt 12 (entropy env)) as [salt|x].
      2:{ injection HP as <- <-. discriminate. }
      destruct (bcrypt_hash p salt) as [hashed|x] eqn:Hh.
      2:{ injection HP as <- <-. discriminate. }
      injection HP as <- <-. cbn [ops docs].
      split; [now rewrite <- app_assoc|].
      exists (reset_to hashed (now env) u).
      split; [now apply list_lookup_insert_eq|].
      split; [intros _; apply (Hfix p salt hashed Hh) | congruence].
Qed.

End Hashing.

Lemma length_append (s1 s2 : string) :
  String.length (s1 ++ s2) = (String.length s1 + String.length s2)%nat.
Proof. induction s1 as [|c s1 IH]; simpl; [reflexivity | now rewrite IH]. Qed.

Lemma sample_bcrypt_no_fixpoint (p salt hashed : string) :
  bcrypt_hash (Crypto := sample_crypto) p salt = Ok hashed -> hashed <> p.
Proof.
  simpl. intros [= <-] E. apply (f_equal String.length) in E.
  rewrite !length_append in E. simpl in E. lia.
Qed.

Lemma password_hashed_on_save_witness :
  let d := assign "password" (with_password "newpass1") (hydrate 0 alice_pending) in
  let w := world_of [alice_pending] in
  let env := sample_env None 5000 zeros in
  save (C := failing_crypto) env d w = (Throw "bcrypt: hashing failed", w)
  /\ (exists w' u', save (C := sample_crypto) env d w = (Ok tt, w')
        /\ docs w' !! 0%nat = Some u' /\ password u' = "$2a$12$salt.newpass1")
  /\ [OpFindOne; OpSave 0%nat] = ([] ++ [OpFindOne; OpSave 0%nat])%list
  /\ (exists u',
        [alice_reset] !! 0%nat = Some u'
        /\ ("newpass1" <> password alice_pending -> password u' <> "newpass1")
        /\ ("newpass1" = password alice_pending -> password u' = "newpass1")).
Proof.
  intros d w env.
  assert (Hlt : (doc_id d < length (docs w))%nat) by (simpl; lia).
  pose proof (password_hashed_on_save (C := failing_crypto) env d w Hlt)
    as (_ & _ & Hfail & _).
  pose proof (password_hashed_on_save (C := sample_crypto) env d w Hlt)
    as (_ & _ & Hok & _ & _ & Hplain).
  split; [|split].
  - apply (Hfail eq_refl). right. exists "$2a$12$salt". split; reflexivity.
  - apply (proj1 (Hok eq_refl) "$2a$12$salt"); reflexivity.
  - apply (Hplain sample_bcrypt_no_fixpoint (reset_body zeros_token "newpass1")
             zeros_token "newpass1" 0%nat alice_pending reset_done
             (mkWorld [alice_reset] [OpFindOne; OpSave 0%nat] [])).
    + unfold validated. cbn. repeat split; try discriminate. lia.
    + vm_compute. reflexivity.
    + vm_compute. reflexivity.
    + reflexivity.
Defined.

(** C6, as stated, fails when the password assigned is the string that the
    account already stores: the assignment marks nothing, the save does
    not hash, and the secret stored after a successful reset is the
    submitted password itself. *)
Lemma reset_password_same_secret_stored_as_sent :
  let env := sample_env None 5000 zeros in
  let p := "$2a$12$salt.hunter2x" in
  let d := assign "password" (with_password p) (hydrate 0 alice_pending) in
  let w := world_of [alice_pending] in
  isModified "password" d = false
  /\ pre_save (C := sample_crypto) env d = Ok d
  /\ bcrypt_hash (Crypto := sample_crypto) p "$2a$12$salt" = Ok ("$2a$12$salt." ++ p)
  /\ ResetPassword.POST (C := sample_crypto) env (reset_body zeros_token p) w
     = (Ok reset_done, mkWorld [reset_to p 5000 alice_pending] [OpFindOne; OpSave 0%nat] [])
  /\ password (reset_to p 5000 alice_pending) = p.
Proof.
  repeat split; vm_compute; reflexivity.
Qed.

(** ** First login *)

Section FirstLogin.
Context {C : Crypto}.

Lemma authenticate_first_login (env : Env) (e pw : string) (w : World) (i : nat) (u : User) :
  list_find (fun v => Is_true (String.eqb (email v) (toLowerCase e))) (docs w) = Some (i, u) ->
  isFirstLogin u = true ->
  Login.authenticate env e pw w
  = if isActive u && bcrypt_compare pw (password u) then
      (Ok (Login.mkData true true (Some (token_of env)) None None),
       mkWorld (<[i := issued_to (sha256_hex (token_of env)) (now env) u]> (docs w))
         ((ops w ++ [OpFindOne]) ++ [OpSave i]) (console w))
    else (Ok Login.login_failed, looked_up w).
Proof.
  intros Hfind Hfirst.
  unfold Login.authenticate, bind, ret, findOne.
  cbn -[generatePasswordResetToken save Nat.ltb toString_hex token_of].
  rewrite Hfind. cbn -[generatePasswordResetToken save Nat.ltb toString_hex token_of].
  apply list_find_Some in Hfind as (Hi & _ & _). apply lookup_lt_Some in Hi.
  destruct (isActive u); [|reflexivity].
  cbn -[generatePasswordResetToken save Nat.ltb toString_hex token_of].
  unfold comparePassword. cbn [data hydrate].
  destruct (bcrypt_compare pw (password u)); [|reflexivity].
  cbn -[generatePasswordResetToken save Nat.ltb toString_hex token_of].
  rewrite Hfirst.
  destruct (issued_document env i u) as (Htok & Hid & Hmod & Hstamp).
  destruct (generatePasswordResetToken env (hydrate i u)) as [tok d].
  cbn [fst snd] in Htok, Hid, Hmod, Hstamp. subst tok.
  unfold save, bind, await, pre_save. rewrite Hmod.
  cbn [negb docs ops console]. rewrite Hid, Hstamp.
  apply Nat.ltb_lt in Hi. rewrite Hi. reflexivity.
Qed.

(** The page on a resolved answer that requires a password reset. *)
Lemma handleSubmit_reset_required
    (form : LoginPage.FormData) (post : string -> string -> LoginPage.AxiosResult)
    (page : LoginPage.Page) (d : Login.Data) :
  LoginPage.form_email form <> "" -> LoginPage.form_password form <> "" ->
  post (LoginPage.form_email form) (LoginPage.form_password form) = LoginPage.Resolved d ->
  Login.login_success d = true -> Login.requiresPasswordReset d = true ->
  LoginPage.handleSubmit form post page
  = LoginPage.mkPage (LoginPage.localStorage page) (LoginPage.Authorization page)
      (LoginPage.pushed page
         ++ ["/reset-password?token=" ++ LoginPage.show (Login.login_resetToken d)
               ++ "&first=true"])
      "" false.
Proof.
  intros He Hp Hpost Hs Hr. unfold LoginPage.handleSubmit.
  apply String.eqb_neq in He, Hp. rewrite He, Hp, Hpost, Hs, Hr. reflexivity.
Qed.

(** C4: for an account whose [isFirstLogin] is true, the answer of
    [authenticate] never carries a bearer token. When the account is active
    and the password verifies, the answer is a success that requires a
    password reset and carries a freshly issued reset token, whose hash and
    expiry the account now stores. On such an answer the login page leaves
    [localStorage] and the Authorization header as they were, and pushes
    the reset-password route with that token. *)
Theorem first_login_requires_reset
    (env : Env) (e pw : string) (w : World) (i : nat) (u : User) :
  list_find (fun v => Is_true (String.eqb (email v) (toLowerCase e))) (docs w) = Some (i, u) ->
  isFirstLogin u = true ->
  let tok := toString_hex (randomBytes 32 (entropy env)) in
  let answer := fst (Login.authenticate env e pw w) in
  let w' := snd (Login.authenticate env e pw w) in
  (exists d, answer = Ok d /\ Login.login_data d = None /\ Login.bearer d = None)
  /\ (isActive u = true -> bcrypt_compare pw (password u) = true ->
      answer = Ok (Login.mkData true true (Some tok) None None)
      /\ docs w' !! i = Some (issued_to (sha256_hex tok) (now env) u)
      /\ forall form post page,
           LoginPage.form_email form = e -> LoginPage.form_password form = pw ->
           e <> "" -> pw <> "" ->
           (forall d, answer = Ok d -> post e pw = LoginPage.Resolved d) ->
           let page' := LoginPage.handleSubmit form post page in
           LoginPage.localStorage page' = LoginPage.localStorage page
           /\ LoginPage.Authorization page' = LoginPage.Authorization page
           /\ LoginPage.pushed page'
              = (LoginPage.pushed page
                   ++ [("/reset-password?token=" ++ tok ++ "&first=true")%string])%list)
  /\ (forall form post page d,
        LoginPage.form_email form <> "" -> LoginPage.form_password form <> "" ->
        post (LoginPage.form_email form) (LoginPage.form_password form)
        = LoginPage.Resolved d ->
        Login.login_success d = true -> Login.requiresPasswordReset d = true ->
        LoginPage.localStorage (LoginPage.handleSubmit form post page)
        = LoginPage.localStorage page
        /\ LoginPage.Authorization (LoginPage.handleSubmit form post page)
           = LoginPage.Authorization page).
Proof.
  intros Hfind Hfirst tok answer w'. unfold answer, w'.
  rewrite (authenticate_first_login env e pw w i u Hfind Hfirst).
  assert (Hi : docs w !! i = Some u) by (apply list_find_Some in Hfind; tauto).
  split; [|split].
  - destruct (isActive u && bcrypt_compare pw (password u)); simpl; eauto.
  - intros -> ->. simpl. split; [reflexivity|]. split.
    { apply list_lookup_insert_eq. eapply lookup_lt_Some, Hi. }
    intros form post page Hfe Hfp He Hp Hpost.
    specialize (Hpost _ eq_refl).
    rewrite (handleSubmit_reset_required form post page
               (Login.mkData true true (Some tok) None None)).
    + simpl. auto.
    + now rewrite Hfe.
    + now rewrite Hfp.
    + now rewrite Hfe, Hfp.
    + reflexivity.
    + reflexivity.
  - intros form post page d He Hp Hpost Hs Hr.
    rewrite (handleSubmit_reset_required form post page d He Hp Hpost Hs Hr). auto.
Qed.

End FirstLogin.

Lemma first_login_requires_reset_witness :
  let env := sample_env None 1000 zeros in
  let form := LoginPage.mkFormData "alice@x.com" "hunter2x" in
  let page := LoginPage.mkPage ∅ None [] "" false in
  let answer := fst (Login.authenticate (C := sample_crypto) env "alice@x.com" "hunter2x"
                       (world_of [alice])) in
  let page' := LoginPage.handleSubmit form
                 (fun _ _ => match answer with
                             | Ok d => LoginPage.Resolved d
                             | Throw _ => LoginPage.Rejected None
                             end) page in
  answer = Ok (Login.mkData true true (Some zeros_token) None None)
  /\ LoginPage.localStorage page' = ∅
  /\ LoginPage.Authorization page' = None
  /\ LoginPage.pushed page'
     = ["/reset-password?token=" ++ zeros_token ++ "&first=true"].
Proof.
  intros env form page answer page'.
  pose proof (first_login_requires_reset (C := sample_crypto) env "alice@x.com" "hunter2x"
                (world_of [alice]) 0%nat alice eq_refl eq_refl) as (_ & H & _).
  destruct (H eq_refl eq_refl) as (Ha & _ & Hpage).
  split; [exact Ha|].
  apply (Hpage form _ page eq_refl eq_refl); try discriminate.
  intros d Hd. unfold answer. rewrite Hd. reflexivity.
Defined.

(** * Further properties of the two routes *)

Section Answers.
Context {C : Crypto}.

(** The four ways a request to the two routes can end: rejected before
    any storage access, answered after a lookup that changed nothing,
    failed after a lookup, or answered after the save of one account. *)
Lemma handle_cases (r : Request) (w : World) :
  (exists reason, handle r w = (Ok (failure 400 reason), w))
  \/ (exists resp, handle r w = (Ok resp, looked_up w)
        /\ (resp = ForgotPassword.generic
            \/ resp = failure 400 ResetPassword.invalid_token_error))
  \/ (exists e, handle r w = reset_failed e w)
  \/ (exists resp i u u',
        handle r w
        = (Ok resp, mkWorld (<[i := u']> (docs w)) ((ops w ++ [OpFindOne]) ++ [OpSave i])
                      (console (snd (handle r w))))
        /\ docs w !! i = Some u /\ identity u' = identity u
        /\ status resp = 200 /\ success resp = true /\ error resp = None
        /\ is_Some (message resp)).
Proof.
  destruct r as [env body | env body]; simpl.
  - destruct (missing_dec (ForgotPassword.body_email body)) as [Hm|Hm].
    { left. eexists. now apply forgot_without_email. }
    destruct (ForgotPassword.body_email body) as [e|] eqn:He.
    2:{ destruct Hm. now left. }
    assert (Hne : e <> "") by (intros ->; apply Hm; now right).
    rewrite (forgot_with_email env body w e He Hne).
    destruct (list_find _ (docs w)) as [[i u]|] eqn:Hfind.
    2:{ right. left. eexists. split; [reflexivity | now left]. }
    apply list_find_Some in Hfind as (Hi & _ & _).
    destruct (isActive u) eqn:Hact.
    2:{ right. left. eexists. split; [reflexivity | now left]. }
    right. right. right. do 4 eexists. split; [reflexivity|].
    split; [exact Hi|]. simpl. unfold identity. simpl. rewrite Hact. eauto 10.
  - destruct (validated_dec body) as [(t & p & Hv) | Hnv].
    2:{ left. now apply reset_not_validated. }
    rewrite (reset_validated env body w t p Hv).
    destruct (list_find _ (docs w)) as [[i u]|] eqn:Hfind.
    2:{ right. left. eexists. split; [reflexivity | now right]. }
    apply list_find_Some in Hfind as (Hi & _ & _).
    destruct (String.eqb p (password u)).
    { right. right. right. do 4 eexists. split; [reflexivity|].
      split; [exact Hi|]. simpl. unfold reset_done. simpl. eauto 10. }
    destruct (bcrypt_genSalt 12 (entropy env)) as [salt|e]; [|right; right; left; eauto].
    destruct (bcrypt_hash p salt) as [hashed|e]; [|right; right; left; eauto].
    right. right. right. do 4 eexists. split; [reflexivity|].
    split; [exact Hi|]. simpl. unfold reset_done. simpl. eauto 10.
Qed.

(** X1: both routes always answer, whatever the body, the collection and
    the outcome of bcrypt: no exception leaves a handler. The status is
    200, 400 or 500; [success] is true exactly for status 200; a failure
    carries an error and neither message nor token, a success a message
    and no error. *)
Theorem routes_always_answer (r : Request) (w : World) :
  exists resp,
    fst (handle r w) = Ok resp
    /\ (status resp = 200 \/ status resp = 400 \/ status resp = 500)
    /\ (success resp = true <-> status resp = 200)
    /\ (success resp = false ->
        is_Some (error resp) /\ message resp = None /\ resetToken resp = None)
    /\ (success resp = true -> error resp = None /\ is_Some (message resp)).
Proof.
  destruct (handle_cases r w)
    as [(reason & ->) | [(resp & -> & [-> | ->]) | [(e & ->) |
        (resp & i & u & u' & -> & _ & _ & Hst & Hs & He & Hm)]]];
    simpl; eexists; (split; [reflexivity|]); simpl;
    try (repeat split; intros; try discriminate; try lia; eauto; fail).
  rewrite Hst, Hs. repeat split; intros; try discriminate; eauto.
Qed.

(** X2: a request reads the collection at most once and writes it at most
    once, in that order: its storage operations are none, one lookup, or
    one lookup followed by one save. The collection changes only with a
    save, in the one account saved, and only a request answered with
    [success: true] saves; a refused or failed request leaves every
    account as it was. *)
Theorem one_lookup_then_one_save (r : Request) (w : World) :
  let w' := snd (handle r w) in
  exists l, ops w' = (ops w ++ l)%list /\ access l
    /\ ((forall i, l <> [OpFindOne; OpSave i]) -> docs w' = docs w)
    /\ (forall i, l = [OpFindOne; OpSave i] ->
          (i < length (docs w))%nat
          /\ fst (handle r w) <> Ok (failure 400 ResetPassword.invalid_token_error)
          /\ (exists resp, fst (handle r w) = Ok resp /\ success resp = true)
          /\ forall j, j <> i -> docs w' !! j = docs w !! j)
    /\ (forall resp, fst (handle r w) = Ok resp -> success resp = false ->
          docs w' = docs w).
Proof.
  destruct (handle_cases r w)
    as [(reason & E) | [(resp & E & _) | [(e & E) |
        (resp & i & u & u' & E & Hi & _ & _ & Hs & _)]]]; rewrite E; simpl.
  - exists []. rewrite app_nil_r. repeat split; try constructor; try discriminate; auto.
  - exists [OpFindOne]. repeat split; try constructor; try discriminate; auto.
  - exists [OpFindOne]. repeat split; try constructor; try discriminate; auto.
  - exists [OpFindOne; OpSave i]. rewrite <- app_assoc. split; [reflexivity|].
    split; [constructor|]. split; [intros H; now destruct (H i)|]. split.
    + intros i' [= <-]. split; [eapply lookup_lt_Some, Hi|].
      split; [intros [= ->]; discriminate|]. split; [eauto|].
      intros j Hj. apply list_lookup_insert_ne. congruence.
    + intros resp' [= <-] Hf. congruence.
Qed.

End Answers.

Section Accounts.
Context {C : Crypto}.

Lemma handle_identity (r : Request) (w : World) :
  map identity (docs (snd (handle r w))) = map identity (docs w).
Proof.
  destruct (handle_cases r w)
    as [(reason & ->) | [(resp & -> & _) | [(e & ->) |
        (resp & i & u & u' & -> & Hi & Hid & _)]]]; try reflexivity.
  change (identity <$> <[i := u']> (docs w) = identity <$> docs w).
  rewrite list_fmap_insert. apply list_insert_id.
  rewrite list_lookup_fmap, Hi, Hid. reflexivity.
Qed.

(** X3: no history of requests to the two routes adds or removes an
    account, and none changes the name, the email, the activation flag or
    the creation instant of an account: these are the same, position by
    position, before and after. *)
Theorem identities_never_change (rs : list Request) (w : World) :
  map identity (docs (run rs w)) = map identity (docs w)
  /\ length (docs (run rs w)) = length (docs w)
  /\ forall i u', docs (run rs w) !! i = Some u' ->
       exists u, docs w !! i = Some u
         /\ name u' = name u /\ email u' = email u
         /\ isActive u' = isActive u /\ createdAt u' = createdAt u.
Proof.
  assert (H : map identity (docs (run rs w)) = map identity (docs w)).
  { revert w. induction rs as [|r rs IH]; intros w; [reflexivity|].
    rewrite run_cons, IH. apply handle_identity. }
  split; [exact H|]. split.
  - apply (f_equal length) in H. now rewrite !length_map in H.
  - intros i u' Hi.
    assert (Hm : map identity (docs w) !! i = Some (identity u')).
    { rewrite <- H. change ((identity <$> docs (run rs w)) !! i = Some (identity u')).
      now rewrite list_lookup_fmap, Hi. }
    change ((identity <$> docs w) !! i = Some (identity u')) in Hm.
    rewrite list_lookup_fmap in Hm.
    destruct (docs w !! i) as [u|]; [|discriminate].
    exists u. split; [reflexivity|]. injection Hm as H1 H2 H3 H4. auto.
Qed.

(** X4: the reset route does not consult [isActive]. An account that was
    deactivated while it held an unexpired token still completes the
    reset: the request succeeds, the account loses the token and stays
    inactive; it gets the hash of the new password when that password
    differs from the string it stored, and keeps the string otherwise. *)
Theorem inactive_account_can_reset
    (env : Env) (body : ResetPassword.Body) (w : World)
    (t p : string) (i : nat) (u : User) (salt hashed : string) :
  validated body t p ->
  list_find (fun v => Is_true (ResetPassword.valid_reset_token
                                 (sha256_hex t) (now env) v)) (docs w) = Some (i, u) ->
  isActive u = false ->
  bcrypt_genSalt 12 (entropy env) = Ok salt ->
  bcrypt_hash p salt = Ok hashed ->
  exists u',
    fst (ResetPassword.POST env body w) = Ok reset_done
    /\ docs (snd (ResetPassword.POST env body w)) !! i = Some u'
    /\ isActive u' = false
    /\ (p <> password u -> password u' = hashed)
    /\ (p = password u -> password u' = password u)
    /\ resetPasswordToken u' = None /\ isFirstLogin u' = false.
Proof.
  intros Hv Hf Hact Hs Hh.
  rewrite (reset_validated env body w t p Hv), Hf, Hs, Hh.
  apply list_find_Some in Hf as (Hi & _ & _). apply lookup_lt_Some in Hi.
  destruct (String.eqb p (password u)) eqn:E; cbn [fst snd docs].
  - apply String.eqb_eq in E.
    exists (reset_to p (now env) u). split; [reflexivity|].
    split; [now apply list_lookup_insert_eq|].
    simpl. repeat split; [assumption | congruence | congruence].
  - apply String.eqb_neq in E.
    exists (reset_to hashed (now env) u). split; [reflexivity|].
    split; [now apply list_lookup_insert_eq|].
    simpl. repeat split; [assumption | congruence].
Qed.

(** X5: the token that the forgot-password route issues resets the
    account it was issued to. When no other account stores the same hash,
    a well-formed reset presenting the token before its expiry succeeds,
    clears the token and the first-login flag of that account, and leaves
    every other account as the issue left it. The account gets the hash of
    the new password, unless that password is the very string the account
    stored, which then stays. *)
Theorem issued_token_resets_its_account
    (env env2 : Env) (body : ForgotPassword.Body) (body2 : ResetPassword.Body)
    (w : World) (e : string) (i : nat) (u : User) (p2 salt hashed : string) :
  ForgotPassword.body_email body = Some e -> e <> "" ->
  list_find (fun v => Is_true (String.eqb (email v) (toLowerCase e))) (docs w) = Some (i, u) ->
  isActive u = true ->
  let tok := toString_hex (randomBytes 32 (entropy env)) in
  let w1 := snd (ForgotPassword.POST env body w) in
  validated body2 tok p2 ->
  now env2 < now env + 10 * 60 * 1000 ->
  (holders (sha256_hex tok) (docs w1) <= 1)%nat ->
  bcrypt_genSalt 12 (entropy env2) = Ok salt ->
  bcrypt_hash p2 salt = Ok hashed ->
  let w2 := snd (ResetPassword.POST env2 body2 w1) in
  fst (ResetPassword.POST env2 body2 w1) = Ok reset_done
  /\ docs w2 !! i
     = Some (mkUser (name u) (email u)
               (if String.eqb p2 (password u) then password u else hashed)
               true false None None (Some (now env2)) (createdAt u) (now env2))
  /\ (forall j, j <> i -> docs w2 !! j = docs w !! j)
  /\ holders (sha256_hex tok) (docs w2) = 0%nat.
Proof.
  intros He Hne Hfind Hact tok w1 Hv Hlt Hle Hs Hh w2.
  assert (Hi : docs w !! i = Some u) by (apply list_find_Some in Hfind; tauto).
  assert (Hd1 : docs w1 = <[i := issued_to (sha256_hex tok) (now env) u]> (docs w)).
  { unfold w1. now rewrite (forgot_with_email env body w e He Hne), Hfind, Hact. }
  assert (Hw1 : docs w1 !! i = Some (issued_to (sha256_hex tok) (now env) u)).
  { rewrite Hd1. apply list_lookup_insert_eq. eapply lookup_lt_Some, Hi. }
  assert (Hsome : is_Some (list_find
            (fun v => Is_true (ResetPassword.valid_reset_token (sha256_hex tok) (now env2) v))
            (docs w1))).
  { eapply list_find_elem_of; [eapply list_elem_of_lookup_2, Hw1|].
    rewrite valid_issued. apply Is_true_true, Z.ltb_lt. lia. }
  destruct Hsome as [[j v] Hj].
  assert (j = i) as ->.
  { apply list_find_Some in Hj as (Hj & Hvj & _). apply Is_true_true in Hvj.
    eapply (holders_unique (sha256_hex tok) (docs w1)); eauto.
    - now apply valid_reset_token_stores in Hvj.
    - unfold stores. simpl. apply String.eqb_refl. }
  assert (v = issued_to (sha256_hex tok) (now env) u) as ->.
  { apply list_find_Some in Hj as (Hj & _). congruence. }
  set (stored := if String.eqb p2 (password u) then password u else hashed).
  assert (Hpost : ResetPassword.POST env2 body2 w1
                  = (Ok reset_done,
                     mkWorld (<[i := reset_to stored (now env2)
                                       (issued_to (sha256_hex tok) (now env) u)]> (docs w1))
                       ((ops w1 ++ [OpFindOne]) ++ [OpSave i]) (console w1))).
  { rewrite (reset_validated env2 body2 w1 tok p2 Hv), Hj, Hs, Hh.
    change (password (issued_to (sha256_hex tok) (now env) u)) with (password u).
    unfold stored. destruct (String.eqb p2 (password u)) eqn:E; [|reflexivity].
    apply String.eqb_eq in E. now rewrite E. }
  unfold w2. rewrite Hpost. cbn [fst snd docs].
  split; [reflexivity|]. split.
  { rewrite list_lookup_insert_eq by (eapply lookup_lt_Some, Hw1).
    unfold reset_to. simpl. now rewrite Hact. }
  split.
  { intros j Hj'. rewrite list_lookup_insert_ne by congruence.
    rewrite Hd1. apply list_lookup_insert_ne. congruence. }
  pose proof (holders_insert (sha256_hex tok) (docs w1) i _
                (reset_to stored (now env2) (issued_to (sha256_hex tok) (now env) u)) Hw1) as H.
  unfold stores in H. simpl in H. rewrite String.eqb_refl in H. lia.
Qed.

(** X6: after a successful reset with a password that differs from the
    string the matched account stored, [comparePassword] on the saved
    account accepts the password that was submitted, given that bcrypt
    verifies what it hashed under a salt of cost 12. *)
Theorem reset_password_then_compare
    (env : Env) (body : ResetPassword.Body) (w w' : World) (r : Response)
    (t p : string) (i : nat) (u : User) :
  (forall p src salt hashed,
      bcrypt_genSalt 12 src = Ok salt -> bcrypt_hash p salt = Ok hashed ->
      bcrypt_compare p hashed = true) ->
  validated body t p ->
  list_find (fun v => Is_true (ResetPassword.valid_reset_token
                                 (sha256_hex t) (now env) v)) (docs w) = Some (i, u) ->
  p <> password u ->
  ResetPassword.POST env body w = (Ok r, w') ->
  success r = true ->
  exists u',
    docs w' !! i = Some u'
    /\ comparePassword (hydrate i u') p = true.
Proof.
  intros Hbcrypt Hv Hf Hne HP Hs.
  rewrite (reset_validated env body w t p Hv), Hf in HP.
  apply list_find_Some in Hf as (Hi & _ & _). apply lookup_lt_Some in Hi.
  apply String.eqb_neq in Hne. rewrite Hne in HP.
  destruct (bcrypt_genSalt 12 (entropy env)) as [salt|x] eqn:Hsalt.
  2:{ injection HP as <- <-. discriminate. }
  destruct (bcrypt_hash p salt) as [hashed|x] eqn:Hh.
  2:{ injection HP as <- <-. discriminate. }
  injection HP as <- <-. cbn [docs].
  exists (reset_to hashed (now env) u).
  split; [now apply list_lookup_insert_eq|].
  unfold comparePassword. cbn [data hydrate password reset_to].
  exact (Hbcrypt p (entropy env) salt hashed Hsalt Hh).
Qed.

End Accounts.

Lemma inactive_account_can_reset_witness :
  let body := reset_body "0101010101010101010101010101010101010101010101010101010101010101"
                "newpass1" in
  let answer := ResetPassword.POST (C := sample_crypto) (sample_env None 5000 zeros) body
                  (world_of [alice; bob_pending]) in
  exists u',
    fst answer = Ok reset_done
    /\ docs (snd answer) !! 1%nat = Some u'
    /\ isActive u' = false
    /\ ("newpass1" <> password bob_pending -> password u' = "$2a$12$salt.newpass1")
    /\ ("newpass1" = password bob_pending -> password u' = password bob_pending)
    /\ resetPasswordToken u' = None /\ isFirstLogin u' = false.
Proof.
  intros body answer.
  apply (inactive_account_can_reset (C := sample_crypto) (sample_env None 5000 zeros) body
           (world_of [alice; bob_pending])
           "0101010101010101010101010101010101010101010101010101010101010101" "newpass1"
           1%nat bob_pending "$2a$12$salt" "$2a$12$salt.newpass1").
  - unfold validated. simpl. repeat split; try discriminate. lia.
  - reflexivity.
  - reflexivity.
  - reflexivity.
  - reflexivity.
Defined.

Lemma issued_token_resets_its_account_witness :
  let w1 := snd (ForgotPassword.POST (C := sample_crypto) (sample_env None 1000 zeros)
                   (ForgotPassword.mkBody (Some "ALICE@x.com"))
                   (world_of [bob_inactive; alice])) in
  let answer := ResetPassword.POST (C := sample_crypto) (sample_env None 9000 ones)
                  (reset_body zeros_token "newpass1") w1 in
  fst answer = Ok reset_done
  /\ docs (snd answer) !! 1%nat
     = Some (mkUser "Alice" "alice@x.com"
               (if String.eqb "newpass1" (password alice) then password alice
                else "$2a$12$salt.newpass1")
               true false None None (Some 9000) 0 9000)
  /\ (forall j, j <> 1%nat -> docs (snd answer) !! j = [bob_inactive; alice] !! j)
  /\ holders (sha256_hex (Crypto := sample_crypto) zeros_token) (docs (snd answer)) = 0%nat.
Proof.
  intros w1 answer.
  apply (issued_token_resets_its_account (C := sample_crypto)
           (sample_env None 1000 zeros) (sample_env None 9000 ones)
           (ForgotPassword.mkBody (Some "ALICE@x.com")) (reset_body zeros_token "newpass1")
           (world_of [bob_inactive; alice]) "ALICE@x.com" 1%nat alice
           "newpass1" "$2a$12$salt" "$2a$12$salt.newpass1").
  - reflexivity.
  - discriminate.
  - reflexivity.
  - reflexivity.
  - unfold validated. simpl. repeat split; try discriminate. lia.
  - simpl. lia.
  - vm_compute. lia.
  - reflexivity.
  - reflexivity.
Defined.

Lemma sample_bcrypt_verifies (p : string) (src : Entropy) (salt hashed : string) :
  bcrypt_genSalt (Crypto := sample_crypto) 12 src = Ok salt ->
  bcrypt_hash (Crypto := sample_crypto) p salt = Ok hashed ->
  bcrypt_compare (Crypto := sample_crypto) p hashed = true.
Proof.
  simpl. intros [= <-] [= <-]. apply String.eqb_refl.
Qed.

Lemma reset_password_then_compare_witness :
  exists u',
    [alice_reset] !! 0%nat = Some u'
    /\ comparePassword (C := sample_crypto) (hydrate 0 u') "newpass1" = true.
Proof.
  apply (reset_password_then_compare (C := sample_crypto)
           (sample_env None 5000 zeros) (reset_body zeros_token "newpass1")
           (world_of [alice_pending])
           (mkWorld [alice_reset] [OpFindOne; OpSave 0%nat] []) reset_done
           zeros_token "newpass1" 0%nat alice_pending).
  - apply sample_bcrypt_verifies.
  - unfold validated. cbn. repeat split; try discriminate. lia.
  - vm_compute. reflexivity.
  - discriminate.
  - vm_compute. reflexivity.
  - reflexivity.
Defined.

(** ** Emails and tokens as strings *)

Lemma lower_ascii_idem (c : ascii) : lower_ascii (lower_ascii c) = lower_ascii c.
Proof. destruct c as [[] [] [] [] [] [] [] []]; reflexivity. Qed.

Lemma toLowerCase_idem (s : string) : toLowerCase (toLowerCase s) = toLowerCase s.
Proof.
  induction s as [|c s IH]; simpl; [reflexivity|]. now rewrite lower_ascii_idem, IH.
Qed.

Lemma toLowerCase_nonempty (s : string) : s <> "" -> toLowerCase s <> "".
Proof. destruct s; [congruence | discriminate]. Qed.

Section EmailCase.
Context {C : Crypto}.

(** X7: the forgot-password route looks the account up by the lower-cased
    email, so two spellings of an email that differ only in letter case
    are served alike: same answer, same collection and same storage
    operations afterwards. In particular an email and its lower-case form
    are interchangeable. *)
Theorem forgot_password_ignores_case (env : Env) (e1 e2 : string) (w : World) :
  e1 <> "" -> e2 <> "" ->
  toLowerCase e1 = toLowerCase e2 ->
  let ask e := ForgotPassword.POST env (ForgotPassword.mkBody (Some e)) w in
  fst (ask e1) = fst (ask e2)
  /\ docs (snd (ask e1)) = docs (snd (ask e2))
  /\ ops (snd (ask e1)) = ops (snd (ask e2))
  /\ fst (ask (toLowerCase e1)) = fst (ask e1)
  /\ docs (snd (ask (toLowerCase e1))) = docs (snd (ask e1)).
Proof.
  intros H1 H2 Hl ask. unfold ask.
  rewrite (forgot_with_email env (ForgotPassword.mkBody (Some e1)) w e1 eq_refl H1).
  rewrite (forgot_with_email env (ForgotPassword.mkBody (Some e2)) w e2 eq_refl H2).
  rewrite (forgot_with_email env (ForgotPassword.mkBody (Some (toLowerCase e1))) w
             (toLowerCase e1) eq_refl (toLowerCase_nonempty e1 H1)).
  rewrite toLowerCase_idem, <- Hl.
  destruct (list_find _ (docs w)) as [[i u]|]; [|auto].
  destruct (isActive u); auto.
Qed.

End EmailCase.

Lemma forgot_password_ignores_case_witness :
  let ask e := ForgotPassword.POST (C := sample_crypto) (sample_env None 1000 zeros)
                 (ForgotPassword.mkBody (Some e)) (world_of [alice]) in
  fst (ask "Alice@X.COM") = fst (ask "alice@x.com")
  /\ docs (snd (ask "Alice@X.COM")) = docs (snd (ask "alice@x.com"))
  /\ ops (snd (ask "Alice@X.COM")) = ops (snd (ask "alice@x.com"))
  /\ fst (ask (toLowerCase "Alice@X.COM")) = fst (ask "Alice@X.COM")
  /\ docs (snd (ask (toLowerCase "Alice@X.COM"))) = docs (snd (ask "Alice@X.COM")).
Proof.
  apply (forgot_password_ignores_case (C := sample_crypto) (sample_env None 1000 zeros)
           "Alice@X.COM" "alice@x.com" (world_of [alice])).
  - discriminate.
  - discriminate.
  - reflexivity.
Defined.

Lemma hex_digit_inj (a b : nat) :
  (a < 16)%nat -> (b < 16)%nat -> hex_digit a = hex_digit b -> a = b.
Proof.
  intros Ha Hb H.
  do 16 (destruct a as [|a];
         [do 16 (destruct b as [|b]; [first [reflexivity | discriminate H]|]); lia|]).
  lia.
Qed.

Lemma hex_digit_is_hex (n : nat) : is_hex_digit (hex_digit n) = true.
Proof. do 16 (destruct n as [|n]; [reflexivity|]). reflexivity. Qed.

Lemma byte_to_nat_inj (b1 b2 : byte) : Byte.to_nat b1 = Byte.to_nat b2 -> b1 = b2.
Proof.
  intros H. pose proof (Byte.of_to_nat b1) as H1. pose proof (Byte.of_to_nat b2) as H2.
  rewrite H in H1. congruence.
Qed.

Lemma hex_pair_inj (b1 b2 : byte) :
  hex_digit (Byte.to_nat b1 / 16) = hex_digit (Byte.to_nat b2 / 16) ->
  hex_digit (Byte.to_nat b1 mod 16) = hex_digit (Byte.to_nat b2 mod 16) ->
  b1 = b2.
Proof.
  intros Hhi Hlo.
  pose proof (Byte.to_nat_bounded b1) as B1. pose proof (Byte.to_nat_bounded b2) as B2.
  apply hex_digit_inj in Hhi;
    [|apply Nat.Div0.div_lt_upper_bound; lia | apply Nat.Div0.div_lt_upper_bound; lia].
  apply hex_digit_inj in Hlo; [|apply Nat.mod_upper_bound; lia | apply Nat.mod_upper_bound; lia].
  apply byte_to_nat_inj.
  rewrite (Nat.div_mod_eq (Byte.to_nat b1) 16), (Nat.div_mod_eq (Byte.to_nat b2) 16).
  now rewrite Hhi, Hlo.
Qed.

Lemma toString_hex_inj (bs1 bs2 : list byte) :
  toString_hex bs1 = toString_hex bs2 -> bs1 = bs2.
Proof.
  revert bs2. induction bs1 as [|b1 bs1 IH]; intros [|b2 bs2] H;
    cbn [toString_hex] in H; try discriminate; [reflexivity|].
  injection H as Hhi Hlo Hrest.
  f_equal; [|now apply IH]. now apply hex_pair_inj.
Qed.

Lemma toString_hex_digits (bs : list byte) :
  forallb is_hex_digit (list_ascii_of_string (toString_hex bs)) = true.
Proof.
  induction bs as [|b bs IH]; [reflexivity|].
  cbn [toString_hex list_ascii_of_string forallb].
  now rewrite !hex_digit_is_hex, IH.
Qed.

Lemma map_eq_pointwise {A B : Type} (f g : A -> B) (l : list A) :
  map f l = map g l -> forall x, In x l -> f x = g x.
Proof.
  induction l as [|a l IH]; intros H x Hx; [destruct Hx|].
  injection H as Ha Hl. destruct Hx as [<- | Hx]; auto.
Qed.

Section TokenFormat.
Context {C : Crypto}.

(** X8: the plaintext token that [generatePasswordResetToken] returns is
    made of 64 characters, each a digit or a letter from a to f, so it can
    be placed in a URL as it is. It determines the 32 random bytes it was
    made from: two draws that differ in one of these bytes give different
    tokens. *)
Theorem reset_token_is_hexadecimal (env : Env) (d : Doc) :
  let tok := fst (generatePasswordResetToken env d) in
  String.length tok = 64%nat
  /\ forallb is_hex_digit (list_ascii_of_string tok) = true
  /\ (forall env2 d2,
        fst (generatePasswordResetToken env2 d2) = tok <->
        forall k, (k < 32)%nat -> entropy env2 k = entropy env k).
Proof.
  cbv beta iota zeta delta [generatePasswordResetToken fst].
  split; [now rewrite length_toString_hex, length_randomBytes|].
  split; [apply toString_hex_digits|].
  intros env2 d2. split.
  - intros H%toString_hex_inj k Hk. unfold randomBytes in H.
    apply (map_eq_pointwise _ _ _ H). apply in_seq. lia.
  - intros H. f_equal. unfold randomBytes. apply map_ext_in.
    intros k Hk%in_seq. apply H. lia.
Qed.

End TokenFormat.

(** * The pages against the routes *)

Section ResetPage.
Context {C : Crypto}.

(** X9: every way a submission of the reset-password page can end, for a
    page opened with a token. Either a field is empty, the two fields
    differ or the password is shorter than 6 characters: the page shows the
    matching message and no request reaches the route. Or the request is
    sent, and it always passes the field checks of the route: the account
    holding the token is reset, the page shows success and sets the 3
    second timer to the login page; or the page shows
    'Invalid or expired reset token' or 'Failed to reset password' and the
    collection is unchanged. No outcome pushes a route at once. *)
Theorem reset_page_outcomes (env : Env) (p : ResetPasswordPage.Page) (w : World) (t : string) :
  ResetPasswordPage.token p = Some t -> t <> "" ->
  exists p',
    fst (submit_reset env p w) = Ok p'
    /\ ResetPasswordPage.pushed p' = ResetPasswordPage.pushed p
    /\ let w' := snd (submit_reset env p w) in
       let shows msg :=
         ResetPasswordPage.page_error p' = msg
         /\ ResetPasswordPage.page_success p' = ResetPasswordPage.page_success p
         /\ ResetPasswordPage.timers p' = ResetPasswordPage.timers p
         /\ docs w' = docs w in
       (w' = w
        /\ ((ResetPasswordPage.form_password p = ""
             \/ ResetPasswordPage.form_confirmPassword p = "")
            /\ shows "Please fill in all fields"
            \/ ResetPasswordPage.form_password p <> ResetPasswordPage.form_confirmPassword p
               /\ shows "Passwords do not match"
            \/ (String.length (ResetPasswordPage.form_password p) < 6)%nat
               /\ shows "Password must be at least 6 characters long"))
       \/ (validated (ResetPassword.mkBody (Some t)
                        (Some (ResetPasswordPage.form_password p))
                        (Some (ResetPasswordPage.form_confirmPassword p)))
             t (ResetPasswordPage.form_password p)
           /\ ResetPasswordPage.loading p' = false
           /\ ((exists i u hashed,
                   docs w !! i = Some u
                   /\ docs w' = <[i := reset_to hashed (now env) u]> (docs w)
                   /\ ResetPasswordPage.page_success p' = true
                   /\ ResetPasswordPage.page_error p' = ""
                   /\ ResetPasswordPage.timers p'
                      = (ResetPasswordPage.timers p ++ [(3000, "/login")])%list)
               \/ shows "Invalid or expired reset token"
               \/ shows "Failed to reset password")).
Proof.
  intros Ht Hne. unfold submit_reset, ResetPasswordPage.handleSubmit.
  destruct (String.eqb (ResetPasswordPage.form_password p) "") eqn:E1.
  { apply String.eqb_eq in E1. simpl. eexists. split; [reflexivity|]. split; [reflexivity|].
    left. split; [reflexivity|]. left. split; [now left|]. repeat split. }
  destruct (String.eqb (ResetPasswordPage.form_confirmPassword p) "") eqn:E2.
  { apply String.eqb_eq in E2. simpl. eexists. split; [reflexivity|]. split; [reflexivity|].
    left. split; [reflexivity|]. left. split; [now right|]. repeat split. }
  destruct (String.eqb (ResetPasswordPage.form_password p)
              (ResetPasswordPage.form_confirmPassword p)) eqn:E3.
  2:{ apply String.eqb_neq in E3. simpl. eexists. split; [reflexivity|]. split; [reflexivity|].
      left. split; [reflexivity|]. right. left. split; [exact E3|]. repeat split. }
  destruct (String.length (ResetPasswordPage.form_password p) <? 6)%nat eqn:E4.
  { apply Nat.ltb_lt in E4. simpl. eexists. split; [reflexivity|]. split; [reflexivity|].
    left. split; [reflexivity|]. right. right. split; [exact E4|]. repeat split. }
  apply String.eqb_eq in E3. apply Nat.ltb_ge in E4. simpl.
  assert (Hv : validated (ResetPassword.mkBody (Some t)
                            (Some (ResetPasswordPage.form_password p))
                            (Some (ResetPasswordPage.form_confirmPassword p)))
                 t (ResetPasswordPage.form_password p)).
  { unfold validated. simpl. rewrite <- E3. auto. }
  unfold bind, Axios.against. rewrite Ht.
  rewrite (reset_validated env _ w t _ Hv).
  destruct (list_find _ (docs w)) as [[i u]|] eqn:Hfind.
  2:{ simpl. eexists. split; [reflexivity|]. split; [reflexivity|].
      right. split; [exact Hv|]. split; [reflexivity|]. right. left. repeat split. }
  apply list_find_Some in Hfind as (Hi & _ & _).
  destruct (String.eqb (ResetPasswordPage.form_password p) (password u)).
  { simpl. eexists. split; [reflexivity|]. split; [reflexivity|].
    right. split; [exact Hv|]. split; [reflexivity|]. left.
    exists i, u, (ResetPasswordPage.form_password p). repeat split. exact Hi. }
  destruct (bcrypt_genSalt 12 (entropy env)) as [salt|e].
  2:{ simpl. eexists. split; [reflexivity|]. split; [reflexivity|].
      right. split; [exact Hv|]. split; [reflexivity|]. right. right. repeat split. }
  destruct (bcrypt_hash (ResetPasswordPage.form_password p) salt) as [hashed|e].
  2:{ simpl. eexists. split; [reflexivity|]. split; [reflexivity|].
      right. split; [exact Hv|]. split; [reflexivity|]. right. right. repeat split. }
  simpl. eexists. split; [reflexivity|]. split; [reflexivity|].
  right. split; [exact Hv|]. split; [reflexivity|]. left.
  exists i, u, hashed. repeat split. exact Hi.
Qed.

End ResetPage.

Lemma reset_page_outcomes_witness :
  exists p',
    fst (submit_reset (C := sample_crypto) (sample_env None 5000 zeros)
           (reset_page (Some zeros_token) "newpass1" "newpass1")
           (world_of [alice_pending])) = Ok p'
    /\ ResetPasswordPage.pushed p' = [].
Proof.
  destruct (reset_page_outcomes (C := sample_crypto) (sample_env None 5000 zeros)
              (reset_page (Some zeros_token) "newpass1" "newpass1")
              (world_of [alice_pending]) zeros_token eq_refl ltac:(discriminate))
    as (p' & H1 & H2 & _).
  exists p'. split; [exact H1 | exact H2].
Defined.

Section ForgotForm.
Context {C : Crypto}.

(** X10: every way a submission of the forgot-password form can end.
    With an empty email the form shows 'Please enter your email address'
    and no request reaches the route. Otherwise the request is sent and
    never fails: the form ends without an error and not loading. Outside
    development mode it shows the generic message and logs nothing,
    whatever the collection holds, so the form cannot tell an active
    account from an inactive or unknown one; in development mode, for an
    active account, it shows the generic message followed by the reset
    link with the plaintext token, and logs the token. *)
Theorem forgot_form_outcomes (env : Env) (f : ForgotPasswordForm.Form) (w : World) :
  let e := ForgotPasswordForm.forgotPasswordEmail f in
  (e = "" ->
   submit_forgot env f w
   = (Ok (ForgotPasswordForm.setFormError "Please enter your email address" f), w))
  /\ (e <> "" ->
      exists f',
        fst (submit_forgot env f w) = Ok f'
        /\ snd (submit_forgot env f w)
           = snd (ForgotPassword.POST env (ForgotPassword.mkBody (Some e)) w)
        /\ ForgotPasswordForm.formError f' = ""
        /\ ForgotPasswordForm.forgotPasswordLoading f' = false
        /\ (NODE_ENV env <> Some "development" ->
            ForgotPasswordForm.forgotPasswordMessage f' = Some ForgotPassword.generic_message
            /\ ForgotPasswordForm.browser_console f' = ForgotPasswordForm.browser_console f
            /\ forall w2, fst (submit_forgot env f w2) = Ok f')
        /\ (NODE_ENV env = Some "development" ->
            forall i u,
              list_find (fun v => Is_true (String.eqb (email v) (toLowerCase e))) (docs w)
              = Some (i, u) ->
              isActive u = true ->
              ForgotPasswordForm.forgotPasswordMessage f'
              = Some (ForgotPassword.generic_message
                      ++ " (Development: Reset link: /reset-password?token="
                      ++ toString_hex (randomBytes 32 (entropy env)) ++ ")")
              /\ ForgotPasswordForm.browser_console f'
                 = (ForgotPasswordForm.browser_console f
                      ++ [("Reset token: " ++ toString_hex (randomBytes 32 (entropy env)))%string]
                   )%list)).
Proof.
  intros e. unfold e. split.
  - intros He. unfold submit_forgot, ForgotPasswordForm.handleForgotPassword.
    rewrite He. reflexivity.
  - intros Hne.
    assert (Hgen : forall w0,
      (exists i u, list_find (fun v => Is_true (String.eqb (email v)
                     (toLowerCase (ForgotPasswordForm.forgotPasswordEmail f)))) (docs w0)
                   = Some (i, u) /\ isActive u = true
         /\ submit_forgot env f w0
            = (let f1 := ForgotPasswordForm.setFormError ""
                           (ForgotPasswordForm.setForgotPasswordLoading true f) in
               let a := issued_answer env (token_of env) in
               let f2 := ForgotPasswordForm.setForgotPasswordMessage (message a) f1 in
               Ok (ForgotPasswordForm.setForgotPasswordLoading false
                     (if truthy (resetToken a) then
                        ForgotPasswordForm.setForgotPasswordMessage
                          (Some (LoginPage.show (message a)
                                 ++ " (Development: Reset link: /reset-password?token="
                                 ++ LoginPage.show (resetToken a) ++ ")"))
                          (ForgotPasswordForm.browser_log
                             ("Reset token: " ++ LoginPage.show (resetToken a)) f2)
                      else f2)),
               snd (ForgotPassword.POST env
                      (ForgotPassword.mkBody (Some (ForgotPasswordForm.forgotPasswordEmail f)))
                      w0)))
      \/ ((forall i u, list_find (fun v => Is_true (String.eqb (email v)
                     (toLowerCase (ForgotPasswordForm.forgotPasswordEmail f)))) (docs w0)
                   = Some (i, u) -> isActive u = false)
          /\ submit_forgot env f w0
             = (Ok (ForgotPasswordForm.mkForm (ForgotPasswordForm.forgotPasswordEmail f)
                      false (Some ForgotPassword.generic_message) ""
                      (ForgotPasswordForm.browser_console f)),
                snd (ForgotPassword.POST env
                       (ForgotPassword.mkBody (Some (ForgotPasswordForm.forgotPasswordEmail f)))
                       w0)))).
    { intros w0. unfold submit_forgot, ForgotPasswordForm.handleForgotPassword.
      apply String.eqb_neq in Hne. rewrite Hne. apply String.eqb_neq in Hne.
      unfold bind, Axios.against. simpl.
      rewrite (forgot_with_email env
                 (ForgotPassword.mkBody (Some (ForgotPasswordForm.forgotPasswordEmail f)))
                 w0 (ForgotPasswordForm.forgotPasswordEmail f) eq_refl Hne).
      destruct (list_find _ (docs w0)) as [[i u]|] eqn:Hfind.
      - destruct (isActive u) eqn:Hact.
        + left. exists i, u. split; [reflexivity|]. split; [exact Hact|]. reflexivity.
        + right. split; [intros ? ? [= <- <-]; exact Hact | reflexivity].
      - right. split; [discriminate | reflexivity]. }
    destruct (Hgen w) as [(i & u & Hf & Hact & E) | (Hina & E)]; rewrite E; cbv zeta; simpl.
    + eexists. split; [reflexivity|]. split; [reflexivity|].
      destruct (bool_decide (NODE_ENV env = Some "development")) eqn:Hmode.
      * apply bool_decide_eq_true in Hmode.
        assert (Htr : truthy (Some (token_of env)) = true).
        { unfold token_of. reflexivity. }
        rewrite Htr. simpl. split; [reflexivity|]. split; [reflexivity|]. split.
        { intros Hn. congruence. }
        intros _ i' u' _ _. split; reflexivity.
      * apply bool_decide_eq_false in Hmode. simpl.
        split; [reflexivity|]. split; [reflexivity|]. split.
        { intros _. split; [reflexivity|]. split; [reflexivity|].
          intros w2. destruct (Hgen w2) as [(i2 & u2 & _ & _ & E2) | (_ & E2)];
            rewrite E2; cbv zeta; simpl; [|reflexivity].
          rewrite bool_decide_eq_false_2 by exact Hmode. reflexivity. }
        intros Hd. congruence.
    + eexists. split; [reflexivity|]. split; [reflexivity|].
      split; [reflexivity|]. split; [reflexivity|]. split.
      { intros Hmode. split; [reflexivity|]. split; [reflexivity|].
        intros w2. destruct (Hgen w2) as [(i2 & u2 & _ & _ & E2) | (_ & E2)];
          rewrite E2; cbv zeta; simpl; [|reflexivity].
        rewrite bool_decide_eq_false_2 by exact Hmode. reflexivity. }
      intros _ i u Hf Hact. rewrite (Hina i u Hf) in Hact. discriminate.
Qed.

End ForgotForm.

Lemma find_issued (h : string) (t t2 : Z) (us : list User) (i : nat) (u : User) :
  us !! i = Some (issued_to h t u) ->
  (holders h us <= 1)%nat ->
  t2 < t + 600000 ->
  list_find (fun v => Is_true (ResetPassword.valid_reset_token h t2 v)) us
  = Some (i, issued_to h t u).
Proof.
  intros Hi Hle Hlt.
  assert (Hsome : is_Some (list_find
            (fun v => Is_true (ResetPassword.valid_reset_token h t2 v)) us)).
  { eapply list_find_elem_of; [eapply list_elem_of_lookup_2, Hi|].
    rewrite valid_issued. apply Is_true_true, Z.ltb_lt. lia. }
  destruct Hsome as [[j v] Hj]. rewrite Hj.
  apply list_find_Some in Hj as (Hj & Hvj & _). apply Is_true_true in Hvj.
  assert (j = i) as ->.
  { eapply (holders_unique h us); eauto.
    - now apply valid_reset_token_stores in Hvj.
    - unfold stores. simpl. apply String.eqb_refl. }
  congruence.
Qed.

Lemma token_of_nonempty (env : Env) : token_of env <> "".
Proof.
  intros H. apply (f_equal String.length) in H. unfold token_of in H.
  rewrite length_toString_hex, length_randomBytes in H. discriminate.
Qed.

Section Journey.
Context {C : Crypto}.

(** X11: in development mode the link that the forgot-password form shows
    works. For an active account the form shows the generic message
    followed by the reset link; the reset page opened with the token of
    that link and submitted, before ten minutes have passed, with a
    password of at least 6 characters given twice, shows success, and the
    account then has no token and its first-login flag cleared; its secret
    is the hash of the new password, or, when the new password is the very
    string the account stored, that string; given that no other account
    stores the same hash and that the hashing succeeds. *)
Theorem development_link_resets_password
    (env env2 : Env) (f : ForgotPasswordForm.Form) (p : ResetPasswordPage.Page)
    (w : World) (i : nat) (u : User) (pw salt hashed : string) :
  let e := ForgotPasswordForm.forgotPasswordEmail f in
  let tok := toString_hex (randomBytes 32 (entropy env)) in
  let w1 := snd (submit_forgot env f w) in
  e <> "" ->
  NODE_ENV env = Some "development" ->
  list_find (fun v => Is_true (String.eqb (email v) (toLowerCase e))) (docs w) = Some (i, u) ->
  isActive u = true ->
  ResetPasswordPage.token p = Some tok ->
  ResetPasswordPage.form_password p = pw ->
  ResetPasswordPage.form_confirmPassword p = pw ->
  (6 <= String.length pw)%nat ->
  now env2 < now env + 10 * 60 * 1000 ->
  (holders (sha256_hex tok) (docs w1) <= 1)%nat ->
  bcrypt_genSalt 12 (entropy env2) = Ok salt ->
  bcrypt_hash pw salt = Ok hashed ->
  exists f' p' u',
    fst (submit_forgot env f w) = Ok f'
    /\ ForgotPasswordForm.forgotPasswordMessage f'
       = Some (ForgotPassword.generic_message
               ++ " (Development: Reset link: /reset-password?token=" ++ tok ++ ")")
    /\ fst (submit_reset env2 p w1) = Ok p'
    /\ ResetPasswordPage.page_success p' = true
    /\ ResetPasswordPage.page_error p' = ""
    /\ docs (snd (submit_reset env2 p w1)) !! i = Some u'
    /\ password u' = (if String.eqb pw (password u) then password u else hashed)
    /\ isFirstLogin u' = false
    /\ resetPasswordToken u' = None /\ resetPasswordExpires u' = None.
Proof.
  intros e tok w1 Hne Hdev Hfind Hact Htok Hpw Hcf Hlen Hlt Hle Hs Hh.
  assert (Hi : docs w !! i = Some u) by (apply list_find_Some in Hfind; tauto).
  assert (Hsub : submit_forgot env f w
                 = (Ok (ForgotPasswordForm.mkForm e false
                          (Some (ForgotPassword.generic_message
                                 ++ " (Development: Reset link: /reset-password?token="
                                 ++ tok ++ ")"))
                          ""
                          (ForgotPasswordForm.browser_console f
                             ++ [("Reset token: " ++ tok)%string])),
                    mkWorld (<[i := issued_to (sha256_hex tok) (now env) u]> (docs w))
                      ((ops w ++ [OpFindOne]) ++ [OpSave i])
                      (console w ++ ["Password reset token for " ++ e ++ " : " ++ tok]))).
  { unfold submit_forgot, ForgotPasswordForm.handleForgotPassword.
    pose proof Hne as Hne'. apply String.eqb_neq in Hne'. fold e. rewrite Hne'.
    unfold bind, Axios.against. simpl.
    rewrite (forgot_with_email env (ForgotPassword.mkBody (Some e)) w e eq_refl Hne).
    rewrite Hfind, Hact. unfold issued_answer.
    rewrite bool_decide_eq_true_2 by exact Hdev. reflexivity. }
  assert (Hw1 : docs w1 !! i = Some (issued_to (sha256_hex tok) (now env) u)).
  { unfold w1. rewrite Hsub. simpl. apply list_lookup_insert_eq. eapply lookup_lt_Some, Hi. }
  assert (Hv : validated (ResetPassword.mkBody (Some tok) (Some pw) (Some pw)) tok pw).
  { unfold validated. simpl. repeat split; auto; try apply token_of_nonempty. }
  assert (Hpne : pw <> "") by (intros ->; simpl in Hlen; lia).
  set (stored := if String.eqb pw (password u) then password u else hashed).
  assert (Hres : submit_reset env2 p w1
                 = (Ok (ResetPasswordPage.mkPage (Some tok) (ResetPasswordPage.first p) pw pw
                          false "" true (ResetPasswordPage.pushed p)
                          (ResetPasswordPage.timers p ++ [(3000, "/login")])),
                    mkWorld (<[i := reset_to stored (now env2)
                                      (issued_to (sha256_hex tok) (now env) u)]> (docs w1))
                      ((ops w1 ++ [OpFindOne]) ++ [OpSave i]) (console w1))).
  { destruct p as [ptok pfirst ppw pcf pl pe ps ppushed ptimers].
    cbn [ResetPasswordPage.token ResetPasswordPage.form_password
         ResetPasswordPage.form_confirmPassword ResetPasswordPage.first
         ResetPasswordPage.pushed ResetPasswordPage.timers] in *.
    rewrite Htok, Hpw, Hcf.
    unfold submit_reset, ResetPasswordPage.handleSubmit.
    cbn [ResetPasswordPage.token ResetPasswordPage.form_password
         ResetPasswordPage.form_confirmPassword].
    apply String.eqb_neq in Hpne. rewrite Hpne, String.eqb_refl.
    assert (Hl : (String.length pw <? 6)%nat = false) by (apply Nat.ltb_ge; lia).
    rewrite Hl. cbn [orb negb]. unfold bind, Axios.against.
    cbn [ResetPasswordPage.setError ResetPasswordPage.setLoading ResetPasswordPage.token
         ResetPasswordPage.form_password ResetPasswordPage.form_confirmPassword].
    rewrite (reset_validated env2 _ w1 tok pw Hv).
    rewrite (find_issued _ _ _ _ _ _ Hw1 Hle) by lia.
    rewrite Hs, Hh.
    change (password (issued_to (sha256_hex tok) (now env) u)) with (password u).
    unfold stored. destruct (String.eqb pw (password u)) eqn:E; [|reflexivity].
    apply String.eqb_eq in E. now rewrite <- E. }
  rewrite Hsub, Hres. simpl.
  do 3 eexists. split; [reflexivity|]. split; [reflexivity|]. split; [reflexivity|].
  split; [reflexivity|]. split; [reflexivity|]. split.
  { apply list_lookup_insert_eq. eapply lookup_lt_Some, Hw1. }
  repeat split.
Qed.

End Journey.

Lemma development_link_resets_password_witness :
  let env := sample_env (Some "development") 1000 zeros in
  let env2 := sample_env (Some "development") 61000 ones in
  let f := forgot_form "Alice@x.com" in
  let w1 := snd (submit_forgot (C := sample_crypto) env f (world_of [bob_inactive; alice])) in
  exists f' p' u',
    fst (submit_forgot (C := sample_crypto) env f (world_of [bob_inactive; alice])) = Ok f'
    /\ ForgotPasswordForm.forgotPasswordMessage f'
       = Some (ForgotPassword.generic_message
               ++ " (Development: Reset link: /reset-password?token=" ++ zeros_token ++ ")")
    /\ fst (submit_reset (C := sample_crypto) env2
              (reset_page (Some zeros_token) "newpass1" "newpass1") w1) = Ok p'
    /\ ResetPasswordPage.page_success p' = true
    /\ ResetPasswordPage.page_error p' = ""
    /\ docs (snd (submit_reset (C := sample_crypto) env2
                    (reset_page (Some zeros_token) "newpass1" "newpass1") w1)) !! 1%nat
       = Some u'
    /\ password u' = (if String.eqb "newpass1" (password alice) then password alice
                      else "$2a$12$salt.newpass1")
    /\ isFirstLogin u' = false
    /\ resetPasswordToken u' = None /\ resetPasswordExpires u' = None.
Proof.
  intros env env2 f w1.
  apply (development_link_resets_password (C := sample_crypto) env env2 f
           (reset_page (Some zeros_token) "newpass1" "newpass1")
           (world_of [bob_inactive; alice]) 1%nat alice "newpass1" "$2a$12$salt"
           "$2a$12$salt.newpass1").
  - discriminate.
  - reflexivity.
  - reflexivity.
  - reflexivity.
  - reflexivity.
  - reflexivity.
  - reflexivity.
  - simpl. lia.
  - simpl. lia.
  - vm_compute. lia.
  - reflexivity.
  - reflexivity.
Defined.

(** * The login page on its own *)

Lemma or_else_nonempty (x : option string) (fallback : string) :
  fallback <> "" -> LoginPage.or_else x fallback <> "".
Proof.
  intros Hf. unfold LoginPage.or_else. destruct (truthy x) eqn:E; [|exact Hf].
  apply truthy_true in E as (s & -> & Hs). exact Hs.
Qed.

(** X12: every way [handleSubmit] of the login page can end. With an
    empty field no request is made and the page asks to fill in all
    fields. A resolved success that does not require a reset and carries a
    [data] object stores its token under 'auth-token', sets the
    Authorization header to 'Bearer ' and that token, and pushes the
    dashboard. In every other case the stored token and the header are as
    before: a success that requires a reset pushes the reset page, and
    anything else pushes nothing and leaves a non-empty error. No other
    key of [localStorage] is ever touched, and after a request the page is
    not loading. *)
Theorem login_page_outcomes
    (form : LoginPage.FormData) (post : string -> string -> LoginPage.AxiosResult)
    (p : LoginPage.Page) :
  let p' := LoginPage.handleSubmit form post p in
  let filled := LoginPage.form_email form <> "" /\ LoginPage.form_password form <> "" in
  let answer := post (LoginPage.form_email form) (LoginPage.form_password form) in
  let untouched :=
    LoginPage.localStorage p' = LoginPage.localStorage p
    /\ LoginPage.Authorization p' = LoginPage.Authorization p in
  (forall k, k <> "auth-token" ->
             LoginPage.localStorage p' !! k = LoginPage.localStorage p !! k)
  /\ (~ filled ->
      p' = LoginPage.setFormError "Please fill in all fields" p
      /\ forall post2, LoginPage.handleSubmit form post2 p = p')
  /\ (filled ->
      LoginPage.loading p' = false
      /\ ((exists d token,
              answer = LoginPage.Resolved d
              /\ Login.login_success d = true /\ Login.requiresPasswordReset d = false
              /\ Login.login_data d = Some token
              /\ LoginPage.localStorage p'
                 = <["auth-token" := LoginPage.show token]> (LoginPage.localStorage p)
              /\ LoginPage.Authorization p' = Some ("Bearer " ++ LoginPage.show token)
              /\ LoginPage.pushed p' = (LoginPage.pushed p ++ ["/dashboard"])%list
              /\ LoginPage.formError p' = "")
          \/ (exists d,
                answer = LoginPage.Resolved d
                /\ Login.login_success d = true /\ Login.requiresPasswordReset d = true
                /\ untouched
                /\ LoginPage.pushed p'
                   = (LoginPage.pushed p
                        ++ [("/reset-password?token="
                             ++ LoginPage.show (Login.login_resetToken d)
                             ++ "&first=true")%string])%list
                /\ LoginPage.formError p' = "")
          \/ (untouched
              /\ LoginPage.pushed p' = LoginPage.pushed p
              /\ LoginPage.formError p' <> ""))).
Proof.
  cbv zeta. unfold LoginPage.handleSubmit.
  destruct (String.eqb (LoginPage.form_email form) "") eqn:E1.
  { apply String.eqb_eq in E1. simpl. split; [reflexivity|]. split; [auto|]. tauto. }
  destruct (String.eqb (LoginPage.form_password form) "") eqn:E2.
  { apply String.eqb_eq in E2. simpl. split; [reflexivity|]. split; [auto|]. tauto. }
  apply String.eqb_neq in E1, E2. simpl.
  destruct (post (LoginPage.form_email form) (LoginPage.form_password form)) as [d|d].
  - destruct (Login.login_success d) eqn:Hs.
    + destruct (Login.requiresPasswordReset d) eqn:Hr.
      * simpl. split; [reflexivity|]. split; [tauto|]. intros _. split; [reflexivity|].
        right. left. exists d. repeat split; auto.
      * destruct (Login.login_data d) as [token|] eqn:Hd; simpl.
        -- split; [intros k Hk; now apply lookup_insert_ne|]. split; [tauto|].
           intros _. split; [reflexivity|]. left. exists d, token. repeat split; auto.
        -- split; [reflexivity|]. split; [tauto|]. intros _. split; [reflexivity|].
           right. right. repeat split. discriminate.
    + simpl. split; [reflexivity|]. split; [tauto|]. intros _. split; [reflexivity|].
      right. right. repeat split. apply or_else_nonempty. discriminate.
  - simpl. split; [reflexivity|]. split; [tauto|]. intros _. split; [reflexivity|].
    right. right. repeat split. apply or_else_nonempty. discriminate.
Qed.

(** * The tag context *)

Lemma dispatch_all_cons (a : TagContext.TagAction) (actions : list TagContext.TagAction)
    (s : TagContext.TagState) :
  TagContext.dispatch_all (a :: actions) s
  = TagContext.dispatch_all actions (TagContext.tagReducer s a).
Proof. reflexivity. Qed.

Lemma dispatch_all_app (l1 l2 : list TagContext.TagAction) (s : TagContext.TagState) :
  TagContext.dispatch_all (l1 ++ l2) s
  = TagContext.dispatch_all l2 (TagContext.dispatch_all l1 s).
Proof. apply fold_left_app. Qed.

Lemma tags_without_SET_TAGS (actions : list TagContext.TagAction) (s : TagContext.TagState) :
  forallb (fun a => negb (is_SET_TAGS a)) actions = true ->
  TagContext.tags (TagContext.dispatch_all actions s) = (TagContext.tags s ++ added actions)%list.
Proof.
  revert s. induction actions as [|a actions IH]; intros s H.
  - simpl. now rewrite app_nil_r.
  - simpl in H. apply andb_true_iff in H as [Ha H].
    rewrite dispatch_all_cons, (IH _ H).
    destruct a; simpl in *; try reflexivity; [discriminate|].
    now rewrite <- app_assoc.
Qed.

(** X13: what a history of actions leaves in [tags] and [allTags]. The
    tags are those of the last SET_TAGS (or the initial ones when there is
    none), followed by the payloads of the ADD_TAG actions after it, in
    the order they were dispatched: a tag once added is not dropped,
    moved or merged with a duplicate. And [allTags] changes with
    SET_ALL_TAGS only. *)
Theorem tags_accumulate
    (before after : list TagContext.TagAction) (s : TagContext.TagState) :
  forallb (fun a => negb (is_SET_TAGS a)) after = true ->
  TagContext.tags (TagContext.dispatch_all after s)
  = (TagContext.tags s ++ added after)%list
  /\ (forall l,
        TagContext.tags (TagContext.dispatch_all (before ++ TagContext.SET_TAGS l :: after) s)
        = (l ++ added after)%list)
  /\ length (TagContext.tags (TagContext.dispatch_all after s))
     = (length (TagContext.tags s) + length (added after))%nat
  /\ (forallb (fun a => negb (is_SET_ALL_TAGS a)) before = true ->
      TagContext.allTags (TagContext.dispatch_all before s) = TagContext.allTags s).
Proof.
  intros H. split; [now apply tags_without_SET_TAGS|]. split; [|split].
  - intros l. rewrite dispatch_all_app, dispatch_all_cons.
    now rewrite (tags_without_SET_TAGS after _ H).
  - rewrite (tags_without_SET_TAGS after s H). apply length_app.
  - clear H. revert s. induction before as [|a before IH]; intros s H; [reflexivity|].
    simpl in H. apply andb_true_iff in H as [Ha H].
    rewrite dispatch_all_cons, (IH _ H). destruct a; simpl in *; try reflexivity.
    discriminate.
Qed.

Lemma tags_accumulate_witness :
  TagContext.tags
    (TagContext.dispatch_all
       [TagContext.ADD_TAG "smoke"; TagContext.SET_TAGS ["ui"; "api"];
        TagContext.SET_LOADING true; TagContext.ADD_TAG "ui";
        TagContext.SET_ERROR (Some "offline"); TagContext.ADD_TAG "db"]
       TagContext.initialState)
  = ["ui"; "api"; "ui"; "db"].
Proof.
  exact (proj1 (proj2 (tags_accumulate [TagContext.ADD_TAG "smoke"]
           [TagContext.SET_LOADING true; TagContext.ADD_TAG "ui";
            TagContext.SET_ERROR (Some "offline"); TagContext.ADD_TAG "db"]
           TagContext.initialState eq_refl)) ["ui"; "api"]).
Defined.

(** X14: how [getTags], [getAllTags] and [createTag] leave the context.
    Whatever the request does, the context is not loading afterwards. A
    call returns exactly when the body says success: then the error is
    cleared and the data replaces [tags], replaces [allTags], or is
    appended to [tags] and returned. Otherwise the call throws, the two
    lists are as before and the error holds the message chosen for what
    was thrown. A call never changes the list it is not about. *)
Theorem tag_requests_settle (s : TagContext.TagState) :
  (forall r,
      let '(s', c) := TagContext.getTags r s in
      TagContext.loading s' = false /\ TagContext.allTags s' = TagContext.allTags s
      /\ match c with
         | TagContext.Returns _ =>
             exists data, r = TagContext.Fulfilled (TagContext.Success data)
               /\ TagContext.tags s' = data /\ TagContext.error s' = None
         | TagContext.Throws e =>
             TagContext.tags s' = TagContext.tags s
             /\ TagContext.error s' = Some (TagContext.errorMessage e)
             /\ forall data, r <> TagContext.Fulfilled (TagContext.Success data)
         end)
  /\ (forall r,
        let '(s', c) := TagContext.getAllTags r s in
        TagContext.loading s' = false /\ TagContext.tags s' = TagContext.tags s
        /\ match c with
           | TagContext.Returns _ =>
               exists data, r = TagContext.Fulfilled (TagContext.Success data)
                 /\ TagContext.allTags s' = data /\ TagContext.error s' = None
           | TagContext.Throws e =>
               TagContext.allTags s' = TagContext.allTags s
               /\ TagContext.error s' = Some (TagContext.errorMessage e)
               /\ forall data, r <> TagContext.Fulfilled (TagContext.Success data)
           end)
  /\ (forall post tagName,
        let '(s', c) := TagContext.createTag post tagName s in
        TagContext.loading s' = false /\ TagContext.allTags s' = TagContext.allTags s
        /\ match c with
           | TagContext.Returns tag =>
               post tagName = TagContext.Fulfilled (TagContext.Success tag)
               /\ TagContext.tags s' = (TagContext.tags s ++ [tag])%list
               /\ TagContext.error s' = None
           | TagContext.Throws e =>
               TagContext.tags s' = TagContext.tags s
               /\ TagContext.error s' = Some (TagContext.errorMessage e)
               /\ forall tag, post tagName <> TagContext.Fulfilled (TagContext.Success tag)
           end).
Proof.
  split; [|split].
  - intros [[data|err]|e]; simpl; repeat split; eauto; discriminate.
  - intros [[data|err]|e]; simpl; repeat split; eauto; discriminate.
  - intros post tagName. unfold TagContext.createTag.
    destruct (post tagName) as [[data|err]|e]; simpl; repeat split; eauto; discriminate.
Qed.

(** X15: which error text a failed tag request leaves. When the request
    is rejected, the context shows the [error] of the response body if it
    has a non-empty one, and the message of axios otherwise. When the
    server answers with [success: false], the error thrown carries the
    [error] of the body, or the fallback text of the function, but the
    context shows 'An unexpected error occurred' whatever the body says;
    [getTagsByTaskId] loses the text altogether and throws that message.
    A task without tags gives the empty list. *)
Theorem tag_request_error_text (s : TagContext.TagState) :
  (forall m msg, m <> "" ->
      TagContext.error (fst (TagContext.getTags
                               (TagContext.Failed (TagContext.AxiosError (Some m) msg)) s))
      = Some m)
  /\ (forall r msg, r = None \/ r = Some "" ->
      TagContext.error (fst (TagContext.getTags
                               (TagContext.Failed (TagContext.AxiosError r msg)) s))
      = Some msg)
  /\ (forall err,
        TagContext.getTags (TagContext.Fulfilled (TagContext.Failure err)) s
        = (TagContext.mkTagState (TagContext.tags s) (TagContext.allTags s) false
             (Some "An unexpected error occurred"),
           TagContext.Throws
             (TagContext.Error (LoginPage.or_else err "Failed to fetch tags"))))
  /\ (forall post tagName err,
        post tagName = TagContext.Fulfilled (TagContext.Failure err) ->
        TagContext.createTag post tagName s
        = (TagContext.mkTagState (TagContext.tags s) (TagContext.allTags s) false
             (Some "An unexpected error occurred"),
           TagContext.Throws
             (TagContext.Error (LoginPage.or_else err "Failed to create tag"))))
  /\ (forall get taskId,
        match TagContext.getTagsByTaskId get taskId with
        | TagContext.Returns l =>
            exists t, get taskId = TagContext.Fulfilled (TagContext.Success t)
                      /\ l = default [] t
        | TagContext.Throws e =>
            (exists err, get taskId = TagContext.Fulfilled (TagContext.Failure err)
                         /\ e = TagContext.Error "An unexpected error occurred")
            \/ (exists e0, get taskId = TagContext.Failed e0
                           /\ e = TagContext.Error (TagContext.errorMessage e0))
        end).
Proof.
  split; [|split; [|split; [|split]]].
  - intros m msg Hm. simpl. unfold LoginPage.or_else. simpl.
    apply String.eqb_neq in Hm. now rewrite Hm.
  - intros r msg [-> | ->]; reflexivity.
  - intros err. reflexivity.
  - intros post tagName err H. unfold TagContext.createTag. now rewrite H.
  - intros get taskId. unfold TagContext.getTagsByTaskId.
    destruct (get taskId) as [[t|err]|e0]; simpl; eauto.
Qed.

(** * The tags page *)












Lemma trimEnd_idem (s : string) : TagsPage.trimEnd (TagsPage.trimEnd s) = TagsPage.trimEnd s.
Proof.
  induction s as [|c s IH]; [reflexivity|]. simpl.
  destruct (TagsPage.trimEnd s) as [|y r] eqn:E.
  - destruct (TagsPage.is_space c) eqn:Hc; [reflexivity|]. simpl. now rewrite Hc.
  - simpl. simpl in IH. destruct (TagsPage.trimEnd r) as [|z r'] eqn:Er.
    + destruct (TagsPage.is_space y) eqn:Hy; [discriminate|]. now rewrite IH.
    + now rewrite IH.
Qed.

Lemma trimStart_head (s : string) (c : ascii) (r : string) :
  TagsPage.trimStart s = String c r -> TagsPage.is_space c = false.
Proof.
  induction s as [|x s IH]; simpl; [discriminate|].
  destruct (TagsPage.is_space x) eqn:Hx; [exact IH|]. intros [= <- _]. exact Hx.
Qed.

Lemma trimEnd_head (s : string) (c : ascii) (r : string) :
  TagsPage.trimEnd s = String c r -> exists r0, s = String c r0.
Proof.
  destruct s as [|x s]; simpl; [discriminate|].
  destruct (TagsPage.trimEnd s); [destruct (TagsPage.is_space x)|];
    intros [= <- _]; eauto; discriminate.
Qed.

Lemma trimEnd_last (s a : string) (c : ascii) :
  TagsPage.trimEnd s = (a ++ String c "")%string -> TagsPage.is_space c = false.
Proof.
  revert a. induction s as [|x s IH]; intros a; simpl.
  - destruct a; discriminate.
  - destruct (TagsPage.trimEnd s) as [|y r] eqn:E.
    + destruct (TagsPage.is_space x) eqn:Hx.
      * destruct a; discriminate.
      * destruct a as [|z a]; simpl; [intros [= <-]; exact Hx|].
        intros [= _ H]. destruct a; discriminate.
    + destruct a as [|z a]; simpl; [discriminate|].
      intros [= _ H]. eapply IH. exact H.
Qed.

Lemma trim_clean (s : string) :
  TagsPage.trim (TagsPage.trim s) = TagsPage.trim s
  /\ (forall c r, TagsPage.trim s = String c r -> TagsPage.is_space c = false)
  /\ (forall a c, TagsPage.trim s = (a ++ String c "")%string -> TagsPage.is_space c = false).
Proof.
  unfold TagsPage.trim.
  assert (Hhead : forall c r, TagsPage.trimEnd (TagsPage.trimStart s) = String c r ->
                              TagsPage.is_space c = false).
  { intros c r H. apply trimEnd_head in H as (r0 & H). eapply trimStart_head, H. }
  split; [|split].
  - assert (Hs : TagsPage.trimStart (TagsPage.trimEnd (TagsPage.trimStart s))
                 = TagsPage.trimEnd (TagsPage.trimStart s)).
    { destruct (TagsPage.trimEnd (TagsPage.trimStart s)) as [|c r] eqn:E; [reflexivity|].
      cbn [TagsPage.trimStart]. now rewrite (Hhead c r eq_refl). }
    rewrite Hs. apply trimEnd_idem.
  - exact Hhead.
  - intros a c. apply trimEnd_last.
Qed.

(** X17: what [handleCreateTag] of the tags page does. A name that is
    empty or only white space is refused with 'Tag name is required'
    without a request. Otherwise the name is sent trimmed, so what is sent
    is not empty and neither starts nor ends with white space, and the
    page is not loading afterwards: if the server answers success, its tag
    is appended to the tags of the context, the input is emptied, the
    success message is shown and a timer of 3 seconds is set to clear it;
    if not, the input is kept, the tags are as before, and the page shows
    'Failed to create tag' whatever the error was. *)
Theorem create_tag_from_page
    (post : string -> TagContext.Settled string) (p : TagsPage.Page) (s : TagContext.TagState) :
  let sent := TagsPage.trim (TagsPage.newTagName p) in
  let p' := fst (TagsPage.handleCreateTag post p s) in
  let s' := snd (TagsPage.handleCreateTag post p s) in
  (sent = "" ->
   p' = TagsPage.setCreateError "Tag name is required" p /\ s' = s
   /\ forall post2, TagsPage.handleCreateTag post2 p s = (p', s'))
  /\ (sent <> "" ->
      TagsPage.trim sent = sent
      /\ (forall c r, sent = String c r -> TagsPage.is_space c = false)
      /\ (forall a c, sent = (a ++ String c "")%string -> TagsPage.is_space c = false)
      /\ TagsPage.createLoading p' = false /\ TagContext.loading s' = false
      /\ TagContext.allTags s' = TagContext.allTags s
      /\ match post sent with
         | TagContext.Fulfilled (TagContext.Success tag) =>
             TagContext.tags s' = (TagContext.tags s ++ [tag])%list
             /\ TagContext.error s' = None
             /\ TagsPage.newTagName p' = ""
             /\ TagsPage.createError p' = ""
             /\ TagsPage.successMessage p' = "Tag created successfully!"
             /\ TagsPage.timers p' = (TagsPage.timers p ++ [(3000, "")])%list
         | _ =>
             TagContext.tags s' = TagContext.tags s
             /\ is_Some (TagContext.error s')
             /\ TagsPage.newTagName p' = TagsPage.newTagName p
             /\ TagsPage.createError p' = "Failed to create tag"
             /\ TagsPage.successMessage p' = ""
             /\ TagsPage.timers p' = TagsPage.timers p
         end).
Proof.
  cbv zeta. unfold TagsPage.handleCreateTag. split.
  - intros ->. simpl. auto.
  - intros Hne. pose proof Hne as Hne'. apply String.eqb_neq in Hne'. rewrite Hne'.
    destruct (trim_clean (TagsPage.newTagName p)) as (H1 & H2 & H3).
    split; [exact H1|]. split; [exact H2|]. split; [exact H3|].
    unfold TagContext.createTag. simpl.
    destruct (post (TagsPage.trim (TagsPage.newTagName p))) as [[tag|err]|e]; simpl;
      repeat split; eauto.
Qed.

(** * The test-execution form *)

Lemma trimStart_empty (s : string) :
  TagsPage.trimStart s = "" <-> forallb TagsPage.is_space (list_ascii_of_string s) = true.
Proof.
  induction s as [|c s IH]; [split; reflexivity|].
  cbn [TagsPage.trimStart list_ascii_of_string forallb].
  destruct (TagsPage.is_space c); [exact IH|]. split; discriminate.
Qed.

Lemma trimEnd_empty (s : string) :
  TagsPage.trimEnd s = "" <-> forallb TagsPage.is_space (list_ascii_of_string s) = true.
Proof.
  induction s as [|c s IH]; [split; reflexivity|].
  cbn [TagsPage.trimEnd list_ascii_of_string forallb].
  destruct (TagsPage.trimEnd s) as [|y r].
  - destruct (TagsPage.is_space c); simpl.
    + split; [intros _; now apply IH | reflexivity].
    + split; discriminate.
  - split; [discriminate|]. intros H. apply andb_true_iff in H as [_ H].
    apply IH in H. discriminate.
Qed.

Lemma trim_empty (s : string) :
  TagsPage.trim s = "" <-> forallb TagsPage.is_space (list_ascii_of_string s) = true.
Proof.
  unfold TagsPage.trim. rewrite trimEnd_empty, <- (trimStart_empty s).
  destruct (TagsPage.trimStart s) as [|c r] eqn:E; [split; reflexivity|].
  cbn [list_ascii_of_string forallb]. rewrite (trimStart_head s c r E).
  split; discriminate.
Qed.

Lemma validateForm_valid (fd : TestExecutionForm.FormData) (user_name : option string) :
  snd (TestExecutionForm.validateForm fd user_name) = true
  <-> TestExecutionForm.taskId fd <> ""
      /\ TagsPage.trim (TestExecutionForm.feedback fd) <> ""
      /\ truthy user_name = true.
Proof.
  rewrite <- !String.eqb_neq. unfold TestExecutionForm.validateForm.
  destruct (String.eqb (TestExecutionForm.taskId fd) "");
    destruct (String.eqb (TagsPage.trim (TestExecutionForm.feedback fd)) "");
    destruct (truthy user_name); cbn [negb snd];
    (split; [intros H; vm_compute in H; try discriminate H; auto
            | intros (H1 & H2 & H3); try discriminate; reflexivity]).
Qed.

(** X18: [validateForm] of the test-execution form accepts exactly when a
    task is selected, the feedback has a character that is not white
    space, and the signed-in user has a non-empty name. Each check that
    fails leaves its own message under its own key ('taskId', 'feedback',
    'user'), a check that passes leaves no entry, and there is no other
    key. *)
Theorem validate_form_checks (fd : TestExecutionForm.FormData) (user_name : option string) :
  let errs := fst (TestExecutionForm.validateForm fd user_name) in
  let ok := snd (TestExecutionForm.validateForm fd user_name) in
  (ok = true <->
   TestExecutionForm.taskId fd <> ""
   /\ forallb TagsPage.is_space (list_ascii_of_string (TestExecutionForm.feedback fd)) = false
   /\ exists n, user_name = Some n /\ n <> "")
  /\ (ok = true <-> errs = ∅)
  /\ errs !! "taskId"
     = (if String.eqb (TestExecutionForm.taskId fd) "" then Some "Task selection is required"
        else None)
  /\ errs !! "feedback"
     = (if forallb TagsPage.is_space (list_ascii_of_string (TestExecutionForm.feedback fd))
        then Some "Feedback is required" else None)
  /\ errs !! "user"
     = (if truthy user_name then None else Some "User not authenticated")
  /\ (forall k, k <> "taskId" -> k <> "feedback" -> k <> "user" -> errs !! k = None).
Proof.
  cbv zeta.
  assert (Htrim : String.eqb (TagsPage.trim (TestExecutionForm.feedback fd)) ""
                  = forallb TagsPage.is_space
                      (list_ascii_of_string (TestExecutionForm.feedback fd))).
  { destruct (forallb _ _) eqn:E.
    - apply String.eqb_eq, trim_empty, E.
    - apply String.eqb_neq. intros H%trim_empty. congruence. }
  split.
  { rewrite validateForm_valid, truthy_true. rewrite <- Htrim.
    split; intros (H1 & H2 & H3); (split; [exact H1|]); (split; [|exact H3]).
    - now apply String.eqb_neq.
    - now apply String.eqb_neq. }
  unfold TestExecutionForm.validateForm. rewrite Htrim. cbn [fst snd].
  destruct (String.eqb (TestExecutionForm.taskId fd) "");
    destruct (forallb TagsPage.is_space _);
    destruct (truthy user_name); cbn [negb];
    (split; [split; [intros H; vm_compute in H; try discriminate H; reflexivity
                    | intros H; apply (f_equal size) in H; vm_compute in H;
                      try discriminate H; reflexivity]|]);
    (split; [reflexivity|]); (split; [reflexivity|]); (split; [reflexivity|]);
    intros k K1 K2 K3;
    rewrite ?lookup_insert_ne by congruence; apply lookup_empty.
Qed.

(** X19: what [handleSubmit] of the test-execution form does. The errors
    shown are those of [validateForm]. An invalid form calls nothing and
    changes nothing else. A valid form makes exactly one call: an update
    of the edited execution when that has a non-empty [_id], a create
    otherwise. The data sent has the task, status and images of the form,
    the trimmed feedback, the name of the user, a generated test id, and
    one test case that passed exactly when the status is 'pass' and whose
    notes are the feedback as typed. When the call succeeds [onSuccess]
    is called once, and the form is emptied only when nothing was being
    edited; when it fails the form is kept, one line goes to the console
    and [onSuccess] is not called. *)
Theorem test_execution_submit
    (user_name : option string) (edit : option (option string))
    (api : TestExecutionForm.Call -> outcome unit) (b : TestExecutionForm.Browser)
    (f : TestExecutionForm.Form) :
  let f' := TestExecutionForm.handleSubmit user_name edit api b f in
  let fd := TestExecutionForm.formData f in
  let kept :=
    TestExecutionForm.formData f' = fd
    /\ TestExecutionForm.selectedTask f' = TestExecutionForm.selectedTask f
    /\ TestExecutionForm.taskTags f' = TestExecutionForm.taskTags f
    /\ TestExecutionForm.selectedTags f' = TestExecutionForm.selectedTags f in
  TestExecutionForm.errors f' = fst (TestExecutionForm.validateForm fd user_name)
  /\ (snd (TestExecutionForm.validateForm fd user_name) = false ->
      kept
      /\ TestExecutionForm.calls f' = TestExecutionForm.calls f
      /\ TestExecutionForm.onSuccess_calls f' = TestExecutionForm.onSuccess_calls f
      /\ TestExecutionForm.console_error f' = TestExecutionForm.console_error f)
  /\ (snd (TestExecutionForm.validateForm fd user_name) = true ->
      exists call data,
        TestExecutionForm.calls f' = (TestExecutionForm.calls f ++ [call])%list
        /\ (call = TestExecutionForm.createTestExecution data
            /\ (forall id, edit = Some (Some id) -> id = "")
            \/ exists id, call = TestExecutionForm.updateTestExecution id data
                          /\ edit = Some (Some id) /\ id <> "")
        /\ TestExecutionForm.data_taskId data = TestExecutionForm.taskId fd
        /\ TestExecutionForm.data_status data = TestExecutionForm.status fd
        /\ TestExecutionForm.data_attachedImages data = TestExecutionForm.attachedImages fd
        /\ TestExecutionForm.data_feedback data
           = TagsPage.trim (TestExecutionForm.feedback fd)
        /\ Some (TestExecutionForm.testerName data) = user_name
        /\ TestExecutionForm.testId data = TestExecutionForm.generateTestId b
        /\ TestExecutionForm.testCases data
           = [TestExecutionForm.mkTestCase "Default test case"
                (match TestExecutionForm.status fd with
                 | TestExecutionForm.pass => true
                 | TestExecutionForm.fail => false
                 end)
                (TestExecutionForm.feedback fd)]
        /\ match api call with
           | Ok _ =>
               TestExecutionForm.onSuccess_calls f'
               = S (TestExecutionForm.onSuccess_calls f)
               /\ TestExecutionForm.console_error f' = TestExecutionForm.console_error f
               /\ match edit with
                  | None =>
                      TestExecutionForm.formData f' = TestExecutionForm.initial_formData
                      /\ TestExecutionForm.selectedTask f' = None
                      /\ TestExecutionForm.taskTags f' = []
                      /\ TestExecutionForm.selectedTags f' = []
                  | Some _ => kept
                  end
           | Throw e =>
               kept
               /\ TestExecutionForm.onSuccess_calls f' = TestExecutionForm.onSuccess_calls f
               /\ TestExecutionForm.console_error f'
                  = (TestExecutionForm.console_error f
                       ++ [("Error saving test execution: " ++ e)%string])%list
           end).
Proof.
  cbv zeta. unfold TestExecutionForm.handleSubmit.
  destruct (TestExecutionForm.validateForm (TestExecutionForm.formData f) user_name)
    as [newErrors valid] eqn:Ev.
  cbn [fst snd]. destruct valid; cbn [negb].
  2:{ split; [reflexivity|]. split; [intros _; repeat split | discriminate]. }
  assert (Hu : truthy user_name = true).
  { pose proof (proj1 (validateForm_valid (TestExecutionForm.formData f) user_name)) as H.
    rewrite Ev in H. apply H. reflexivity. }
  assert (Hname : Some (LoginPage.or_else user_name "") = user_name).
  { unfold LoginPage.or_else. rewrite Hu.
    apply truthy_true in Hu as (n & -> & _). reflexivity. }
  split.
  { destruct edit as [[id|]|]; try destruct (String.eqb id ""); destruct (api _);
      reflexivity. }
  split; [discriminate|]. intros _.
  destruct edit as [[id|]|].
  - destruct (String.eqb id "") eqn:Eid.
    + apply String.eqb_eq in Eid. do 2 eexists.
      split; [destruct (api _); reflexivity|].
      split; [left; split; [reflexivity | intros id' [= <-]; exact Eid]|].
      cbn. repeat (split; [first [reflexivity | exact Hname]|]).
      destruct (api _); cbn; repeat split.
    + apply String.eqb_neq in Eid. do 2 eexists.
      split; [destruct (api _); reflexivity|].
      split; [right; exists id; split; [reflexivity | split; [reflexivity | exact Eid]]|].
      cbn. repeat (split; [first [reflexivity | exact Hname]|]).
      destruct (api _); cbn; repeat split.
  - do 2 eexists.
    split; [destruct (api _); reflexivity|].
    split; [left; split; [reflexivity | intros id' [=]]|].
    cbn. repeat (split; [first [reflexivity | exact Hname]|]).
    destruct (api _); cbn; repeat split.
  - do 2 eexists.
    split; [destruct (api _); reflexivity|].
    split; [left; split; [reflexivity | intros id' [=]]|].
    cbn. repeat (split; [first [reflexivity | exact Hname]|]).
    destruct (api _); cbn; repeat split.
Qed.

Lemma find_task (tasks : list TestExecutionForm.Task) (id : string) :
  match List.find (fun t => match TestExecutionForm.task_id t with
                            | Some i => String.eqb i id
                            | None => false
                            end) tasks with
  | Some task => In task tasks /\ TestExecutionForm.task_id task = Some id
  | None => forall t, In t tasks -> TestExecutionForm.task_id t <> Some id
  end.
Proof.
  destruct (List.find _ tasks) as [task|] eqn:E.
  - apply find_some in E as [Hin H]. split; [exact Hin|].
    destruct (TestExecutionForm.task_id task); [|discriminate].
    apply String.eqb_eq in H. now subst.
  - intros t Hin Hid. apply (find_none _ _ E) in Hin. rewrite Hid in Hin.
    now rewrite String.eqb_refl in Hin.
Qed.

(** X20: what [handleTaskSelect] does. An id that no task of the list
    carries changes nothing and asks the server nothing. Otherwise the
    form selects a task of the list with that id and takes the id as its
    task, keeping status, feedback and images; the tags offered and the
    tags selected are always the same list: the tags that the server
    returns for the task (none when the task has no tags), or, when the
    request fails, the tags of the task as listed, with one line to the
    console. *)
Theorem task_select
    (tasks : list TestExecutionForm.Task)
    (get : string -> TagContext.Settled (option (list string)))
    (id : string) (f : TestExecutionForm.Form) :
  let f' := TestExecutionForm.handleTaskSelect tasks get id f in
  ((forall t, In t tasks -> TestExecutionForm.task_id t <> Some id) ->
   f' = f /\ forall get2, TestExecutionForm.handleTaskSelect tasks get2 id f = f)
  /\ ((exists t, In t tasks /\ TestExecutionForm.task_id t = Some id) ->
      exists task,
        In task tasks /\ TestExecutionForm.task_id task = Some id
        /\ TestExecutionForm.selectedTask f' = Some task
        /\ TestExecutionForm.formData f'
           = TestExecutionForm.mkFormData id
               (TestExecutionForm.status (TestExecutionForm.formData f))
               (TestExecutionForm.feedback (TestExecutionForm.formData f))
               (TestExecutionForm.attachedImages (TestExecutionForm.formData f))
        /\ TestExecutionForm.selectedTags f' = TestExecutionForm.taskTags f'
        /\ TestExecutionForm.errors f' = TestExecutionForm.errors f
        /\ TestExecutionForm.calls f' = TestExecutionForm.calls f
        /\ match get id with
           | TagContext.Fulfilled (TagContext.Success t) =>
               TestExecutionForm.taskTags f' = default [] t
               /\ TestExecutionForm.console_error f' = TestExecutionForm.console_error f
           | TagContext.Fulfilled (TagContext.Failure _) =>
               TestExecutionForm.taskTags f' = default [] (TestExecutionForm.task_tags task)
               /\ TestExecutionForm.console_error f'
                  = (TestExecutionForm.console_error f
                       ++ ["Error fetching task tags: An unexpected error occurred"])%list
           | TagContext.Failed e =>
               TestExecutionForm.taskTags f' = default [] (TestExecutionForm.task_tags task)
               /\ TestExecutionForm.console_error f'
                  = (TestExecutionForm.console_error f
                       ++ [("Error fetching task tags: "
                            ++ TagContext.errorMessage e)%string])%list
           end).
Proof.
  cbv zeta. unfold TestExecutionForm.handleTaskSelect.
  pose proof (find_task tasks id) as Hfind.
  destruct (List.find _ tasks) as [task|]; split.
  - intros Hnone. destruct Hfind as [Hin Hid]. destruct (Hnone task Hin Hid).
  - intros _. destruct Hfind as [Hin Hid]. exists task.
    split; [exact Hin|]. split; [exact Hid|].
    unfold TagContext.getTagsByTaskId.
    destruct (get id) as [[t|err]|e]; cbn; repeat split.
  - intros _. split; reflexivity.
  - intros (t & Hin & Hid). destruct (Hfind t Hin Hid).
Qed.
